(** * GrowattServer monitor: alert state machine, telemetry cache and
      period aggregation

    A shallow embedding of [src/monitor.js].  The bot is a single-threaded
    Node.js program: every handler runs to completion between suspension
    points, mutating two module-level variables ([state], [apiCache]) and
    talking to two collaborators (the Growatt cloud API and the Telegram
    chat).  The embedding threads a [World] through a small state-and-exception
    monad [M]:

    - [clock] is the local wall clock in milliseconds; it only moves while a
      handler is suspended on the cloud API (by the latency the API reports);
    - [api] is the cloud API seen as an oracle from the queried date to a
      reply;
    - [state] and [apiCache] are the two mutable module variables;
    - [trace] records, oldest first, what the handler did to the outside:
      API calls, chat messages, writes of [bot_state.json].

    JavaScript numbers are modelled as exact rationals ([Q]), [Date] objects
    as ECMAScript time values (an integer count of milliseconds) read in a
    fixed-offset local time zone, and the objects returned by the API as
    records whose sub-objects may be absent. *)

From Stdlib Require Import ZArith QArith Qround Lia Lqa List Bool String.
Import ListNotations.
Local Open Scope Z_scope.

(* ================================================================= *)
(** ** ECMAScript dates and the date-fns helpers the monitor imports *)
(* ================================================================= *)

Module JsDate.

(** A time value: milliseconds since the epoch, local time. *)
Definition Time := Z.

Definition msPerSecond : Z := 1000.
Definition msPerMinute : Z := 60000.
Definition msPerHour : Z := 3600000.
Definition msPerDay : Z := 86400000.

(** ECMA-262, "Day Number and Time within Day". *)
Definition Day (t : Time) : Z := t / msPerDay.
Definition TimeWithinDay (t : Time) : Z := t mod msPerDay.

(** ECMA-262, "Year Number". *)
Definition InLeapYear (y : Z) : bool :=
  if negb (y mod 4 =? 0) then false
  else if negb (y mod 100 =? 0) then true
  else if negb (y mod 400 =? 0) then false
  else true.

Definition DaysInYear (y : Z) : Z := if InLeapYear y then 366 else 365.

Definition DayFromYear (y : Z) : Z :=
  365 * (y - 1970) + (y - 1969) / 4 - (y - 1901) / 100 + (y - 1601) / 400.

(** The largest [y] with [DayFromYear y <= d], computed from the mean
    Gregorian year (146097 days in 400 years) and corrected by one. *)
Definition YearFromDay (d : Z) : Z :=
  let y0 := 1970 + (d * 400) / 146097 in
  if d <? DayFromYear y0 then y0 - 1
  else if DayFromYear (y0 + 1) <=? d then y0 + 1
  else y0.

Definition YearFromTime (t : Time) : Z := YearFromDay (Day t).

Definition DayWithinYear (t : Time) : Z := Day t - DayFromYear (YearFromTime t).

(** Days of the year before month [m] (0 = January). *)
Definition daysBeforeMonth (leap : bool) (m : Z) : Z :=
  let l := if leap then 1 else 0 in
  if m <=? 0 then 0
  else if m =? 1 then 31
  else if m =? 2 then 59 + l
  else if m =? 3 then 90 + l
  else if m =? 4 then 120 + l
  else if m =? 5 then 151 + l
  else if m =? 6 then 181 + l
  else if m =? 7 then 212 + l
  else if m =? 8 then 243 + l
  else if m =? 9 then 273 + l
  else if m =? 10 then 304 + l
  else if m =? 11 then 334 + l
  else 365 + l.

(** ECMA-262, "Month Number". *)
Definition MonthFromTime (t : Time) : Z :=
  let leap := InLeapYear (YearFromTime t) in
  let d := DayWithinYear t in
  if d <? daysBeforeMonth leap 1 then 0
  else if d <? daysBeforeMonth leap 2 then 1
  else if d <? daysBeforeMonth leap 3 then 2
  else if d <? daysBeforeMonth leap 4 then 3
  else if d <? daysBeforeMonth leap 5 then 4
  else if d <? daysBeforeMonth leap 6 then 5
  else if d <? daysBeforeMonth leap 7 then 6
  else if d <? daysBeforeMonth leap 8 then 7
  else if d <? daysBeforeMonth leap 9 then 8
  else if d <? daysBeforeMonth leap 10 then 9
  else if d <? daysBeforeMonth leap 11 then 10
  else 11.

(** ECMA-262, "Date Number". *)
Definition DateFromTime (t : Time) : Z :=
  DayWithinYear t
  - daysBeforeMonth (InLeapYear (YearFromTime t)) (MonthFromTime t) + 1.

(** ECMA-262, "Week Day": 0 = Sunday; the epoch was a Thursday. *)
Definition WeekDay (t : Time) : Z := (Day t + 4) mod 7.

(** ECMA-262, MakeDay, MakeTime, MakeDate. *)
Definition MakeDay (year month date : Z) : Z :=
  let ym := year + month / 12 in
  let mn := month mod 12 in
  DayFromYear ym + daysBeforeMonth (InLeapYear ym) mn + date - 1.

Definition MakeTime (hour min sec ms : Z) : Z :=
  hour * msPerHour + min * msPerMinute + sec * msPerSecond + ms.

Definition MakeDate (day time : Z) : Time := day * msPerDay + time.

(** [Date.prototype] getters and setters (local time). *)
Definition getFullYear (t : Time) : Z := YearFromTime t.
Definition getMonth (t : Time) : Z := MonthFromTime t.
Definition getDate (t : Time) : Z := DateFromTime t.
Definition getDay (t : Time) : Z := WeekDay t.
Definition getHours (t : Time) : Z := TimeWithinDay t / msPerHour.

Definition setDate (t : Time) (date : Z) : Time :=
  MakeDate (MakeDay (YearFromTime t) (MonthFromTime t) date) (TimeWithinDay t).

Definition setFullYear (t : Time) (year month date : Z) : Time :=
  MakeDate (MakeDay year month date) (TimeWithinDay t).

Definition setHours (t : Time) (hour min sec ms : Z) : Time :=
  MakeDate (Day t) (MakeTime hour min sec ms).

(** Number of days of the month [m] of year [y]. *)
Definition daysInMonth (y m : Z) : Z :=
  daysBeforeMonth (InLeapYear y) (m + 1) - daysBeforeMonth (InLeapYear y) m.

(** *** date-fns *)

(** [format(d, 'yyyy-MM-dd')].  The pattern [yyyy] prints the year of the
    era, without a sign: [y] for a year [y > 0] and [1 - y] for a year
    [y <= 0] (year 0 is 1 BC), padded to four digits; [MM] and [dd] print the
    month (from 1) and the day on two digits.  The string is determined by,
    and determines, these three numbers. *)
Definition format_yyyy_MM_dd (t : Time) : Z * Z * Z :=
  let signedYear := getFullYear t in
  (if 0 <? signedYear then signedYear else 1 - signedYear,
   getMonth t + 1, getDate t).

Definition ymd_eqb (a b : Z * Z * Z) : bool :=
  let '(y1, m1, d1) := a in
  let '(y2, m2, d2) := b in
  (y1 =? y2) && (m1 =? m2) && (d1 =? d2).

(** [differenceInMinutes], [differenceInHours], [differenceInDays]: the
    difference in milliseconds divided by the unit and truncated towards
    zero. *)
Definition differenceInMinutes (later earlier : Time) : Z :=
  Z.quot (later - earlier) msPerMinute.
Definition differenceInHours (later earlier : Time) : Z :=
  Z.quot (later - earlier) msPerHour.
Definition differenceInDays (later earlier : Time) : Z :=
  Z.quot (later - earlier) msPerDay.

Definition startOfMonth (t : Time) : Time :=
  setHours (setDate t 1) 0 0 0 0.

Definition endOfMonth (t : Time) : Time :=
  let month := getMonth t in
  setHours (setFullYear t (getFullYear t) (month + 1) 0) 23 59 59 999.

Definition startOfWeek (t : Time) (weekStartsOn : Z) : Time :=
  let day := getDay t in
  let diff := (if day <? weekStartsOn then 7 else 0) + day - weekStartsOn in
  setHours (setDate t (getDate t - diff)) 0 0 0 0.

Definition endOfWeek (t : Time) (weekStartsOn : Z) : Time :=
  let day := getDay t in
  let diff := (if day <? weekStartsOn then -7 else 0) + 6 - (day - weekStartsOn) in
  setHours (setDate t (getDate t + diff)) 23 59 59 999.

(** The [while] loop of [eachDayOfInterval]; [None] when the fuel runs out
    before the loop condition fails. *)
Fixpoint eachDay_loop (fuel : nat) (currentDate endTime : Time) : option (list Time) :=
  match fuel with
  | O => None
  | S fuel' =>
      if currentDate <=? endTime then
        let next := setHours (setDate currentDate (getDate currentDate + 1)) 0 0 0 0 in
        option_map (cons currentDate) (eachDay_loop fuel' next endTime)
      else Some []
  end.

Inductive IntervalResult :=
| Days (l : list Time)
| InvalidInterval   (* RangeError: start after end *)
| LoopDiverged.     (* the fuel given to the loop was not enough *)

Definition eachDayOfInterval (start finish : Time) : IntervalResult :=
  if negb (start <=? finish) then InvalidInterval
  else
    match eachDay_loop (Z.to_nat (Day finish - Day start + 2)) (setHours start 0 0 0 0) finish with
    | Some l => Days l
    | None => LoopDiverged
    end.

End JsDate.
Import JsDate.

(* ================================================================= *)
(** ** Configuration constants (monitor.js, section 1) *)
(* ================================================================= *)

Inductive Language := en | fr.

Definition DEFAULT_LANGUAGE : Language := en.
Definition DEFAULT_COST_PER_KWH : Q := (32 # 100)%Q.
Definition DEFAULT_CURRENCY_SYMBOL : string := "TND"%string.
Definition DEFAULT_CLEANING_WEEKS : Z := 4.
Definition DEFAULT_TEMP_THRESHOLD_C : Z := 60.
Definition CHECK_HOUR_START : Z := 10.
Definition CHECK_HOUR_END : Z := 15.
Definition URGENT_ALERT_DELAY_MINUTES : Z := 15.
Definition MILESTONE_STEP_KWH : Z := 1000.
Definition LIVENESS_CHECK_HOURS : Z := 2.

(* ================================================================= *)
(** ** The bot state ([state], persisted in bot_state.json) *)
(* ================================================================= *)

Record Config := {
  language : Language;
  costPerKwh : Q;
  currencySymbol : string;
  cleaningIntervalWeeks : Z;
  tempThreshold : Z
}.

Record BestDay := {
  bestDay_date : option (Z * Z * Z);   (* a 'yyyy-MM-dd' string, or null *)
  bestDay_kwh : Q
}.

Record Stats := {
  lastReminderDate : Time;
  nextMilestoneKwh : Z;
  bestDay : BestDay;
  lastLivenessAlert : option Time;
  lastTempAlert : option Time
}.

Record Status := {
  isSystemDown : bool;
  outageStartTime : option Time;
  urgentAlertSent : bool
}.

Record BotState := {
  config : Config;
  stats : Stats;
  status : Status
}.

Definition defaultConfig : Config :=
  {| language := DEFAULT_LANGUAGE; costPerKwh := DEFAULT_COST_PER_KWH;
     currencySymbol := DEFAULT_CURRENCY_SYMBOL;
     cleaningIntervalWeeks := DEFAULT_CLEANING_WEEKS;
     tempThreshold := DEFAULT_TEMP_THRESHOLD_C |}.

Definition defaultStats : Stats :=
  {| lastReminderDate := 0; nextMilestoneKwh := MILESTONE_STEP_KWH;
     bestDay := {| bestDay_date := None; bestDay_kwh := 0%Q |};
     lastLivenessAlert := None; lastTempAlert := None |}.

Definition defaultStatus : Status :=
  {| isSystemDown := false; outageStartTime := None; urgentAlertSent := false |}.

(** *** The persisted file

    [JSON.parse] of bot_state.json: every group and every field may be
    missing (a file written by an older version); a nullable field that is
    present may hold [null]. *)

Record PersistedConfig := {
  p_language : option Language;
  p_costPerKwh : option Q;
  p_currencySymbol : option string;
  p_cleaningIntervalWeeks : option Z;
  p_tempThreshold : option Z
}.

Record PersistedStats := {
  p_lastReminderDate : option Time;
  p_nextMilestoneKwh : option Z;
  p_bestDay : option BestDay;
  p_lastLivenessAlert : option (option Time);
  p_lastTempAlert : option (option Time)
}.

Record PersistedStatus := {
  p_isSystemDown : option bool;
  p_outageStartTime : option (option Time);
  p_urgentAlertSent : option bool
}.

Record PersistedState := {
  p_config : option PersistedConfig;
  p_stats : option PersistedStats;
  p_status : option PersistedStatus
}.

(** [new Date(v)] for a field that holds a date or [null]: [new Date(null)]
    is the epoch. *)
Definition new_Date (v : option Time) : Time :=
  match v with
  | Some t => t
  | None => 0
  end.

(** Truthiness of such a field: a [Date] object is truthy, [null] is not. *)
Definition truthy {A} (v : option A) : bool :=
  match v with
  | Some _ => true
  | None => false
  end.

(** One key of an object spread [{...defaults, ...loaded}]. *)
Definition spread {A} (dflt : A) (loaded : option A) : A :=
  match loaded with Some v => v | None => dflt end.

Definition mergeConfig (l : option PersistedConfig) : Config :=
  match l with
  | None => defaultConfig
  | Some c =>
      {| language := spread (language defaultConfig) (p_language c);
         costPerKwh := spread (costPerKwh defaultConfig) (p_costPerKwh c);
         currencySymbol := spread (currencySymbol defaultConfig) (p_currencySymbol c);
         cleaningIntervalWeeks :=
           spread (cleaningIntervalWeeks defaultConfig) (p_cleaningIntervalWeeks c);
         tempThreshold := spread (tempThreshold defaultConfig) (p_tempThreshold c) |}
  end.

Definition mergeStats (l : option PersistedStats) : Stats :=
  match l with
  | None => defaultStats
  | Some s =>
      {| lastReminderDate := spread (lastReminderDate defaultStats) (p_lastReminderDate s);
         nextMilestoneKwh := spread (nextMilestoneKwh defaultStats) (p_nextMilestoneKwh s);
         bestDay := spread (bestDay defaultStats) (p_bestDay s);
         lastLivenessAlert := spread (lastLivenessAlert defaultStats) (p_lastLivenessAlert s);
         lastTempAlert := spread (lastTempAlert defaultStats) (p_lastTempAlert s) |}
  end.

Definition mergeStatus (l : option PersistedStatus) : Status :=
  match l with
  | None => defaultStatus
  | Some s =>
      {| isSystemDown := spread (isSystemDown defaultStatus) (p_isSystemDown s);
         outageStartTime := spread (outageStartTime defaultStatus) (p_outageStartTime s);
         urgentAlertSent := spread (urgentAlertSent defaultStatus) (p_urgentAlertSent s) |}
  end.

(** [loadState]: [None] stands for a file that is missing or does not parse
    (the [catch] branch). *)
Definition loadState (file : option PersistedState) : BotState :=
  match file with
  | Some loadedState =>
      let mergedState :=
        {| config := mergeConfig (p_config loadedState);
           stats := mergeStats (p_stats loadedState);
           status := mergeStatus (p_status loadedState) |} in
      (* mergedState.stats.lastReminderDate = new Date(...): same time value *)
      let st := status mergedState in
      {| config := config mergedState;
         stats := stats mergedState;
         status :=
           if truthy (outageStartTime st) then
             {| isSystemDown := isSystemDown st;
                outageStartTime := Some (new_Date (outageStartTime st));
                urgentAlertSent := urgentAlertSent st |}
           else st |}
  | None =>
      {| config := defaultConfig; stats := defaultStats; status := defaultStatus |}
  end.

(* ================================================================= *)
(** ** What the Growatt API returns *)
(* ================================================================= *)

(** A JavaScript object used as a dictionary: its own keys in
    [Object.keys] order. *)
Definition JsObject (A : Type) := list (string * A).

Definition Object_keys_of {A} (o : JsObject A) : list string := map fst o.

Fixpoint prop_lookup {A} (o : JsObject A) (k : string) : option A :=
  match o with
  | [] => None
  | (k', v) :: o' => if String.eqb k' k then Some v else prop_lookup o' k
  end.

(** [o[k]] where [k] may be [undefined] (an index past the end of the key
    array). *)
Definition prop_get {A} (o : JsObject A) (k : option string) : option A :=
  match k with
  | Some k => prop_lookup o k
  | None => None
  end.

Record HistoryLast := {
  pac : Q;
  temperature : Q;
  eacToday : option Q
}.

Record DeviceData := {
  eToday : Q;
  lastUpdateTime : Time
}.

Record Device := {
  historyLast : option HistoryLast;
  deviceData : option DeviceData
}.

Record PlantData := {
  eTotal : Q
}.

Record Plant := {
  plantData : option PlantData;
  devices : option (JsObject Device)
}.

Definition Snapshot := JsObject Plant.

(** One login / query / logout session against the cloud. *)
Record ApiReply := {
  loginOk : bool;
  allPlantData : option Snapshot;   (* [None]: the query rejects *)
  logoutOk : bool;
  latency : Z                       (* time spent waiting for the session *)
}.

Record ApiCache := {
  data : option Snapshot;
  timestamp : Z
}.

(* ================================================================= *)
(** ** Outputs and the world *)
(* ================================================================= *)

(** The translation keys the scheduled tasks use, with their variables. *)
Inductive Message :=
| BEST_DAY_MESSAGE (kwh old_kwh : Q)
| MILESTONE_MESSAGE (milestone : Z)
| CLEANING_REMINDER (weeks : Z)
| LIVENESS_ALERT (hours : Z)
| TEMP_ALERT (temp : Q) (threshold : Z)
| RECOVERY_MESSAGE (pac : Q)
| OUTAGE_MESSAGE
| URGENT_ALERT_MESSAGE (minutes : Z).

Inductive Effect :=
| ApiLogin
| ApiQuery (date : Time)
| ApiLogout
| SendMessage (lang : Language) (msg : Message)   (* formatMarkdown(t(key, lang, vars)) *)
| SaveState.                                      (* saveState() *)

Inductive JsError :=
| TypeError                              (* property access on undefined *)
| RangeError                             (* eachDayOfInterval: invalid interval *)
| ApiFailure                             (* a rejected API promise *)
| ERROR_API_CONNECTION (lang : Language) (* new Error(t('ERROR_API_CONNECTION', lang)) *)
| Diverged.                              (* a loop of the model ran out of fuel *)

Record World := {
  clock : Time;
  api : Time -> ApiReply;
  state : BotState;
  apiCache : ApiCache;
  trace : list Effect
}.

Inductive Outcome (A : Type) :=
| Returns (a : A)
| Throws (e : JsError).
Arguments Returns {A} a.
Arguments Throws {A} e.

(** Handlers: a world in, a value or an exception and a world out. *)
Definition M (A : Type) := World -> Outcome A * World.

Definition ret {A} (a : A) : M A := fun w => (Returns a, w).
Definition throw {A} (e : JsError) : M A := fun w => (Throws e, w).
Definition bind {A B} (m : M A) (k : A -> M B) : M B :=
  fun w =>
    match m w with
    | (Returns a, w') => k a w'
    | (Throws e, w') => (Throws e, w')
    end.
Definition tryCatch {A} (m : M A) (handler : JsError -> M A) : M A :=
  fun w =>
    match m w with
    | (Returns a, w') => (Returns a, w')
    | (Throws e, w') => handler e w'
    end.

Notation "x <- m ;; k" := (bind m (fun x => k))
  (at level 61, m at next level, right associativity).
Notation "m ;;; k" := (bind m (fun _ => k))
  (at level 61, right associativity).

Definition exec {A} (m : M A) (w : World) : World := snd (m w).
Definition result {A} (m : M A) (w : World) : Outcome A := fst (m w).

(** Primitive operations on the world. *)
Definition newDate : M Time := fun w => (Returns (clock w), w).
Definition Date_now : M Z := fun w => (Returns (clock w), w).
Definition getState : M BotState := fun w => (Returns (state w), w).
Definition getApiCache : M ApiCache := fun w => (Returns (apiCache w), w).

Definition setState (s : BotState) : M unit :=
  fun w => (Returns tt,
            {| clock := clock w; api := api w; state := s;
               apiCache := apiCache w; trace := trace w |}).

Definition setApiCache (c : ApiCache) : M unit :=
  fun w => (Returns tt,
            {| clock := clock w; api := api w; state := state w;
               apiCache := c; trace := trace w |}).

Definition emit (e : Effect) : M unit :=
  fun w => (Returns tt,
            {| clock := clock w; api := api w; state := state w;
               apiCache := apiCache w; trace := trace w ++ [e] |}).

Definition elapse (ms : Z) : M unit :=
  fun w => (Returns tt,
            {| clock := clock w + ms; api := api w; state := state w;
               apiCache := apiCache w; trace := trace w |}).

Definition setStats (s : Stats) : M unit :=
  st <- getState ;;
  setState {| config := config st; stats := s; status := status st |}.

Definition setStatus (s : Status) : M unit :=
  st <- getState ;;
  setState {| config := config st; stats := stats st; status := s |}.

(** [saveState()]: writes the whole current state to bot_state.json. *)
Definition saveState : M unit := emit SaveState.

(** [formatMarkdown(t(key, lang, vars))]; a [null] language falls back to
    the configured one.  Delivery failures are swallowed. *)
Definition formatMarkdown (lang : option Language) (msg : Message) : M unit :=
  st <- getState ;;
  emit (SendMessage (match lang with Some l => l | None => language (config st) end) msg).

(** The three awaited calls of one API session. *)
Definition growatt_login (r : ApiReply) : M unit :=
  emit ApiLogin ;;;
  if loginOk r then ret tt else throw ApiFailure.

Definition growatt_getAllPlantData (r : ApiReply) (date : Time) : M Snapshot :=
  emit (ApiQuery date) ;;;
  elapse (latency r) ;;;
  match allPlantData r with
  | Some d => ret d
  | None => throw ApiFailure
  end.

Definition growatt_logout (r : ApiReply) : M unit :=
  emit ApiLogout ;;;
  if logoutOk r then ret tt else throw ApiFailure.

(** [Object.keys(o)]: a [TypeError] when [o] is [undefined]. *)
Definition Object_keys {A} (o : option (JsObject A)) : M (list string) :=
  match o with
  | Some o => ret (Object_keys_of o)
  | None => throw TypeError
  end.

(** Reading a property of a value that may be [undefined]. *)
Definition deref {A} (o : option A) : M A :=
  match o with
  | Some v => ret v
  | None => throw TypeError
  end.

(* ================================================================= *)
(** ** getGrowattData (monitor.js 83-101) *)
(* ================================================================= *)

Definition CACHE_FRESH_MS : Z := 120000.

Definition getGrowattData (forceNew : bool) (date : Time) : M Snapshot :=
  today <- newDate ;;
  let isToday := ymd_eqb (format_yyyy_MM_dd date) (format_yyyy_MM_dd today) in
  cache <- getApiCache ;;
  now <- Date_now ;;
  let hit :=
    if negb forceNew && isToday then
      match data cache with
      | Some d => if now - timestamp cache <? CACHE_FRESH_MS then Some d else None
      | None => None
      end
    else None in
  match hit with
  | Some d => ret d
  | None =>
      tryCatch
        (r <- (fun w => (Returns (api w date), w)) ;;
         growatt_login r ;;;
         allPlantData <- growatt_getAllPlantData r date ;;
         growatt_logout r ;;;
         (if isToday then
            now' <- Date_now ;;
            setApiCache {| data := Some allPlantData; timestamp := now' |}
          else ret tt) ;;;
         ret allPlantData)
        (fun e =>
           st <- getState ;;
           throw (ERROR_API_CONNECTION (language (config st))))
  end.

(** A call that leaves [date] to its default, [new Date()]. *)
Definition getGrowattData_now (forceNew : bool) : M Snapshot :=
  date <- newDate ;;
  getGrowattData forceNew date.

(* ================================================================= *)
(** ** getPeriodTotal (monitor.js 287-311) *)
(* ================================================================= *)

Inductive Period := day | week | month.

(** [x || 0] on a number. *)
Definition orZero (x : Q) : Q := if Qeq_bool x 0 then 0%Q else x.

(** The [period === 'day'] branch. *)
Definition getPeriodTotal_day (date : Time) : M Q :=
  data <- getGrowattData true date ;;
  let plant := prop_get data (hd_error (Object_keys_of data)) in
  match plant with
  | None => ret 0%Q
  | Some plant =>
      keys <- Object_keys (devices plant) ;;
      ds <- deref (devices plant) ;;
      let device := prop_get ds (hd_error keys) in
      match device with
      | None => ret 0%Q
      | Some device =>
          match historyLast device with
          | None => ret 0%Q
          | Some h =>
              (* parseFloat(device.historyLast.eacToday || 0) *)
              ret (match eacToday h with
                   | Some v => orZero v
                   | None => 0%Q
                   end)
          end
      end
  end.

(** The [for ... of] loop adding up the days. *)
Fixpoint sumDays (days : list Time) (total : Q) : M Q :=
  match days with
  | [] => ret total
  | d :: days' =>
      dayTotal <- getPeriodTotal_day d ;;
      sumDays days' (total + dayTotal)%Q
  end.

Definition getPeriodTotal (date : Time) (period : Period) : M Q :=
  match period with
  | day => getPeriodTotal_day date
  | _ =>
      let weekStartsOn := 1 in
      let interval :=
        match period with
        | week => (startOfWeek date weekStartsOn, endOfWeek date weekStartsOn)
        | _ => (startOfMonth date, endOfMonth date)
        end in
      match eachDayOfInterval (fst interval) (snd interval) with
      | Days l => sumDays l 0%Q
      | InvalidInterval => throw RangeError
      | LoopDiverged => throw Diverged
      end
  end.

(* ================================================================= *)
(** ** Scheduled tasks (monitor.js, section 4) *)
(* ================================================================= *)

(** [a >= b] and [a > b] between a reading and an integer setting. *)
Definition Q_geb (a b : Q) : bool := Qle_bool b a.
Definition Q_gtb (a b : Q) : bool := negb (Qle_bool a b).

(** [!last || differenceInHours(new Date(), new Date(last)) >= 6]. *)
Definition cooldownOver (now : Time) (last : option Time) : bool :=
  negb (truthy last) || (6 <=? differenceInHours now (new_Date last)).

(** monitor.js 364-387. *)
Definition runDailyEveningChecks : M unit :=
  tryCatch
    (data <- getGrowattData_now true ;;
     plant <- deref (prop_get data (hd_error (Object_keys_of data))) ;;
     keys <- Object_keys (devices plant) ;;
     ds <- deref (devices plant) ;;
     device <- deref (prop_get ds (hd_error keys)) ;;
     dd <- deref (deviceData device) ;;
     let eToday := eToday dd in
     pd <- deref (plantData plant) ;;
     let eTotal := eTotal pd in
     now <- newDate ;;
     let todayStr := format_yyyy_MM_dd now in
     st <- getState ;;
     (if Q_gtb eToday (orZero (bestDay_kwh (bestDay (stats st)))) then
        formatMarkdown None
          (BEST_DAY_MESSAGE eToday (orZero (bestDay_kwh (bestDay (stats st))))) ;;;
        setStats {| lastReminderDate := lastReminderDate (stats st);
                    nextMilestoneKwh := nextMilestoneKwh (stats st);
                    bestDay := {| bestDay_date := Some todayStr; bestDay_kwh := eToday |};
                    lastLivenessAlert := lastLivenessAlert (stats st);
                    lastTempAlert := lastTempAlert (stats st) |}
      else ret tt) ;;;
     st <- getState ;;
     (if Q_geb eTotal (inject_Z (nextMilestoneKwh (stats st))) then
        formatMarkdown None (MILESTONE_MESSAGE (nextMilestoneKwh (stats st))) ;;;
        setStats {| lastReminderDate := lastReminderDate (stats st);
                    nextMilestoneKwh :=
                      Qfloor (eTotal / inject_Z MILESTONE_STEP_KWH)
                      * MILESTONE_STEP_KWH + MILESTONE_STEP_KWH;
                    bestDay := bestDay (stats st);
                    lastLivenessAlert := lastLivenessAlert (stats st);
                    lastTempAlert := lastTempAlert (stats st) |}
      else ret tt) ;;;
     st <- getState ;;
     now <- newDate ;;
     (if cleaningIntervalWeeks (config st) * 7
         <=? differenceInDays now (lastReminderDate (stats st)) then
        formatMarkdown None (CLEANING_REMINDER (cleaningIntervalWeeks (config st))) ;;;
        now' <- newDate ;;
        setStats {| lastReminderDate := now';
                    nextMilestoneKwh := nextMilestoneKwh (stats st);
                    bestDay := bestDay (stats st);
                    lastLivenessAlert := lastLivenessAlert (stats st);
                    lastTempAlert := lastTempAlert (stats st) |}
      else ret tt) ;;;
     saveState)
    (fun _ => ret tt).

Definition clearedStatus : Status :=
  {| isSystemDown := false; outageStartTime := None; urgentAlertSent := false |}.

(** monitor.js 420-461. *)
Definition runHourlyChecks : M unit :=
  now0 <- newDate ;;
  let currentHour := getHours now0 in
  if (currentHour <? CHECK_HOUR_START) || (CHECK_HOUR_END <? currentHour) then
    st <- getState ;;
    (if isSystemDown (status st) then
       setStatus clearedStatus ;;;
       saveState
     else ret tt)
  else
    tryCatch
      (data <- getGrowattData_now true ;;
       plant <- deref (prop_get data (hd_error (Object_keys_of data))) ;;
       keys <- Object_keys (devices plant) ;;
       ds <- deref (devices plant) ;;
       device <- deref (prop_get ds (hd_error keys)) ;;
       h <- deref (historyLast device) ;;
       let pac := pac h in
       let temp := temperature h in
       dd <- deref (deviceData device) ;;
       let lastUpdate := lastUpdateTime dd in
       now <- newDate ;;
       let hoursSinceUpdate := differenceInHours now lastUpdate in
       st <- getState ;;
       (if (LIVENESS_CHECK_HOURS <=? hoursSinceUpdate)
           && cooldownOver now (lastLivenessAlert (stats st)) then
          formatMarkdown None (LIVENESS_ALERT hoursSinceUpdate) ;;;
          now' <- newDate ;;
          setStats {| lastReminderDate := lastReminderDate (stats st);
                      nextMilestoneKwh := nextMilestoneKwh (stats st);
                      bestDay := bestDay (stats st);
                      lastLivenessAlert := Some now';
                      lastTempAlert := lastTempAlert (stats st) |} ;;;
          saveState
        else ret tt) ;;;
       st <- getState ;;
       now <- newDate ;;
       (if Q_geb temp (inject_Z (tempThreshold (config st)))
           && cooldownOver now (lastTempAlert (stats st)) then
          formatMarkdown None (TEMP_ALERT temp (tempThreshold (config st))) ;;;
          now' <- newDate ;;
          setStats {| lastReminderDate := lastReminderDate (stats st);
                      nextMilestoneKwh := nextMilestoneKwh (stats st);
                      bestDay := bestDay (stats st);
                      lastLivenessAlert := lastLivenessAlert (stats st);
                      lastTempAlert := Some now' |} ;;;
          saveState
        else ret tt) ;;;
       st <- getState ;;
       (if Q_gtb pac 0 && isSystemDown (status st) then
          formatMarkdown None (RECOVERY_MESSAGE pac) ;;;
          setStatus clearedStatus ;;;
          saveState
        else if Qeq_bool pac 0 && negb (isSystemDown (status st)) then
          formatMarkdown None OUTAGE_MESSAGE ;;;
          now' <- newDate ;;
          setStatus {| isSystemDown := true; outageStartTime := Some now';
                       urgentAlertSent := urgentAlertSent (status st) |} ;;;
          saveState
        else ret tt))
      (fun _ => ret tt).

(** monitor.js 463-471. *)
Definition checkUrgentConditions : M unit :=
  st <- getState ;;
  if negb (isSystemDown (status st))
     || urgentAlertSent (status st)
     || negb (truthy (outageStartTime (status st)))
  then ret tt
  else
    now <- newDate ;;
    let minutesSinceOutage :=
      differenceInMinutes now (new_Date (outageStartTime (status st))) in
    if URGENT_ALERT_DELAY_MINUTES <=? minutesSinceOutage then
      formatMarkdown None (URGENT_ALERT_MESSAGE URGENT_ALERT_DELAY_MINUTES) ;;;
      setStatus {| isSystemDown := isSystemDown (status st);
                   outageStartTime := outageStartTime (status st);
                   urgentAlertSent := true |} ;;;
      saveState
    else ret tt.

(* ================================================================= *)
(** ** Chat commands (monitor.js, section 3) *)
(* ================================================================= *)

(** [x.toFixed(digits)]: the decimal string, kept as the number and the
    number of digits that determine it. *)
Inductive Fixed := toFixed (x : Q) (digits : nat).

(** The translation keys the commands and the reports answer with, with
    their variables. *)
Inductive Reply :=
| CLEANED_REPLY (nextReminderDays : Z)
| CLEANING_OVERDUE_REPLY (daysOverdue : Z)
| CLEANING_STATUS_REPLY (daysLeft : Z)
| SET_LANG_SUCCESS
| SET_CLEANING_WEEKS_SUCCESS (weeks : Z)
| SET_TEMP_THRESHOLD_SUCCESS (temp : Z)
| ERROR_INVALID_COMMAND
| ERROR_NOT_ADMIN
| WEEKLY_REPORT (kwh : Fixed) (bestDay : option Z) (bestDayKwh : Fixed)
| MONTHLY_REPORT (kwh : Fixed) (avgKwh : Fixed).

(** A text handed to [formatMarkdown]: the language it was translated to and
    the key with its variables.  The commands and the reports below return
    what they send instead of recording it in the trace. *)
Definition Sent := (Language * Reply)%type.

(** A chat message as the bot receives it. *)
Record Msg := {
  text : option string;   (* msg.text, absent for stickers, photos, ... *)
  from_is_bot : bool;     (* msg.from.is_bot *)
  from_id : Z             (* msg.from.id *)
}.

(** [s.split(' ')]. *)
Fixpoint split_space (s : string) : list string :=
  match s with
  | EmptyString => [EmptyString]
  | String c rest =>
      if Ascii.eqb c (Ascii.ascii_of_nat 32) then EmptyString :: split_space rest
      else match split_space rest with
           | p :: ps => String c p :: ps
           | [] => [String c EmptyString]
           end
  end.

(** [msg.text.split(' ')[1]]; the command handlers are only called on
    messages that carry a text. *)
Definition secondWord (msg : Msg) : option string :=
  match text msg with
  | Some t => nth_error (split_space t) 1
  | None => None
  end.

(** monitor.js 198-202. *)
Definition MARK_CLEANED (msg : Msg) (lang : Language) : M Sent :=
  now <- newDate ;;
  st <- getState ;;
  setStats {| lastReminderDate := now;
              nextMilestoneKwh := nextMilestoneKwh (stats st);
              bestDay := bestDay (stats st);
              lastLivenessAlert := lastLivenessAlert (stats st);
              lastTempAlert := lastTempAlert (stats st) |} ;;;
  saveState ;;;
  st <- getState ;;
  ret (lang, CLEANED_REPLY (cleaningIntervalWeeks (config st) * 7)).

(** monitor.js 203-212. *)
Definition GET_CLEANING_STATUS (msg : Msg) (lang : Language) : M Sent :=
  st <- getState ;;
  let totalIntervalDays := cleaningIntervalWeeks (config st) * 7 in
  now <- newDate ;;
  let daysPassed := differenceInDays now (lastReminderDate (stats st)) in
  let daysLeft := totalIntervalDays - daysPassed in
  if daysLeft <=? 0 then ret (lang, CLEANING_OVERDUE_REPLY (- daysLeft))
  else ret (lang, CLEANING_STATUS_REPLY daysLeft).

(** monitor.js 331-335. *)
Definition SET_LANG (msg : Msg) (lang : Language) : M Sent :=
  let newLang :=
    match secondWord msg with
    | Some a => if String.eqb a "en" then Some en
                else if String.eqb a "fr" then Some fr else None
    | None => None
    end in
  match newLang with
  | Some l =>
      st <- getState ;;
      setState {| config := {| language := l;
                               costPerKwh := costPerKwh (config st);
                               currencySymbol := currencySymbol (config st);
                               cleaningIntervalWeeks := cleaningIntervalWeeks (config st);
                               tempThreshold := tempThreshold (config st) |};
                  stats := stats st; status := status st |} ;;;
      saveState ;;;
      ret (l, SET_LANG_SUCCESS)
  | None => ret (lang, ERROR_INVALID_COMMAND)
  end.

Section ParsedArguments.

(** [parseInt(arg, 10)] of the second word, which may be [undefined]:
    [None] stands for [NaN]. *)
Variable parseInt : option string -> option Z.

(** monitor.js 343-347. *)
Definition SET_CLEANING_WEEKS (msg : Msg) (lang : Language) : M Sent :=
  match parseInt (secondWord msg) with
  | Some weeks =>
      if 0 <? weeks then
        st <- getState ;;
        setState {| config := {| language := language (config st);
                                 costPerKwh := costPerKwh (config st);
                                 currencySymbol := currencySymbol (config st);
                                 cleaningIntervalWeeks := weeks;
                                 tempThreshold := tempThreshold (config st) |};
                    stats := stats st; status := status st |} ;;;
        saveState ;;;
        ret (lang, SET_CLEANING_WEEKS_SUCCESS weeks)
      else ret (lang, ERROR_INVALID_COMMAND)
  | None => ret (lang, ERROR_INVALID_COMMAND)
  end.

(** monitor.js 349-353. *)
Definition SET_TEMP_THRESHOLD (msg : Msg) (lang : Language) : M Sent :=
  match parseInt (secondWord msg) with
  | Some temp =>
      if 30 <? temp then
        st <- getState ;;
        setState {| config := {| language := language (config st);
                                 costPerKwh := costPerKwh (config st);
                                 currencySymbol := currencySymbol (config st);
                                 cleaningIntervalWeeks := cleaningIntervalWeeks (config st);
                                 tempThreshold := temp |};
                    stats := stats st; status := status st |} ;;;
        saveState ;;;
        ret (lang, SET_TEMP_THRESHOLD_SUCCESS temp)
      else ret (lang, ERROR_INVALID_COMMAND)
  | None => ret (lang, ERROR_INVALID_COMMAND)
  end.

End ParsedArguments.

(** *** The dispatcher (monitor.js 118-157) *)

Inductive Cmd :=
| CMD_GET_STATUS | CMD_GET_TODAY | CMD_GET_TOTAL | CMD_GET_MONEY_TODAY
| CMD_GET_MONEY_TOTAL | CMD_MARK_CLEANED | CMD_GET_CLEANING_STATUS
| CMD_GET_COMPARISON | CMD_GET_WEATHER | CMD_GET_HISTORY | CMD_GET_HELP
| CMD_SET_LANG | CMD_SET_COST | CMD_SET_CLEANING_WEEKS | CMD_SET_TEMP_THRESHOLD.

(** [commandMap], key by key.  Looking up a name the object only inherits
    (constructor, toString, ...) yields a value without a [cmd], which the
    dispatcher ignores like an absent key. *)
Definition commandMap : JsObject (Cmd * Language) :=
  [ ("status", (CMD_GET_STATUS, en)); ("statut", (CMD_GET_STATUS, fr));
    ("today", (CMD_GET_TODAY, en)); ("production", (CMD_GET_TODAY, en));
    ("aujourd'hui", (CMD_GET_TODAY, fr));
    ("total", (CMD_GET_TOTAL, en));
    ("money", (CMD_GET_MONEY_TODAY, en)); ("argent", (CMD_GET_MONEY_TODAY, fr));
    ("total money", (CMD_GET_MONEY_TOTAL, en));
    ("argent total", (CMD_GET_MONEY_TOTAL, fr));
    ("cleaned", (CMD_MARK_CLEANED, en)); ("nettoyé", (CMD_MARK_CLEANED, fr));
    ("cleaning", (CMD_GET_CLEANING_STATUS, en));
    ("nettoyage", (CMD_GET_CLEANING_STATUS, fr));
    ("compare", (CMD_GET_COMPARISON, en)); ("comparer", (CMD_GET_COMPARISON, fr));
    ("weather", (CMD_GET_WEATHER, en)); ("meteo", (CMD_GET_WEATHER, fr));
    ("history", (CMD_GET_HISTORY, en)); ("historique", (CMD_GET_HISTORY, fr));
    ("help", (CMD_GET_HELP, en)); ("aide", (CMD_GET_HELP, fr));
    ("/setlang", (CMD_SET_LANG, en));
    ("/setcost", (CMD_SET_COST, en));
    ("/setcleaning", (CMD_SET_CLEANING_WEEKS, en));
    ("/settemp", (CMD_SET_TEMP_THRESHOLD, en)) ]%string.

(** [cmd.startsWith('SET_')]. *)
Definition startsWith_SET (c : Cmd) : bool :=
  match c with
  | CMD_SET_LANG | CMD_SET_COST | CMD_SET_CLEANING_WEEKS | CMD_SET_TEMP_THRESHOLD => true
  | _ => false
  end.

(** The keyword the dispatcher settles on: the first two words when they
    are a key of the table, the first word otherwise. *)
Definition commandKeyword (commandParts : list string) : option string :=
  match commandParts with
  | p0 :: p1 :: _ =>
      let two := (p0 ++ " " ++ p1)%string in
      if truthy (prop_lookup commandMap two) then Some two else Some p0
  | p0 :: [] => Some p0
  | [] => None
  end.

Section Dispatch.

(** [String.prototype.toLowerCase] and [String.prototype.trim]. *)
Variables toLowerCase trim : string -> string.

(** What [bot.getChatAdministrators] resolves to (the user ids); [None]
    when the request fails. *)
Variable administrators : option (list Z).

(** [commandActions]: the fifteen command implementations. *)
Variable commandActions : Cmd -> Msg -> Language -> M (list Sent).

(** monitor.js 108-113. *)
Definition isAdmin (userId : Z) : bool :=
  match administrators with
  | Some admins => existsb (fun admin => admin =? userId) admins
  | None => false
  end.

(** The handler of [bot.on('message', ...)]; it returns what it sends. *)
Definition onMessage (msg : Msg) : M (list Sent) :=
  match text msg with
  | None => ret []
  | Some t =>
      if String.eqb t "" || from_is_bot msg then ret []
      else
        let commandParts := split_space (trim (toLowerCase t)) in
        match prop_get commandMap (commandKeyword commandParts) with
        | Some (cmd, lang) =>
            if startsWith_SET cmd then
              if isAdmin (from_id msg) then commandActions cmd msg lang
              else ret [(lang, ERROR_NOT_ADMIN)]
            else commandActions cmd msg lang
        | None => ret []
        end
  end.

End Dispatch.

(* ================================================================= *)
(** ** The weekly and monthly reports (monitor.js 389-418) *)
(* ================================================================= *)

(** date-fns [addDays], [subDays], [addMonths], [subMonths]. *)
Definition addDays (t : Time) (amount : Z) : Time :=
  if amount =? 0 then t else setDate t (getDate t + amount).

Definition subDays (t : Time) (amount : Z) : Time := addDays t (- amount).

(** [Date.prototype.setMonth(month, date)]. *)
Definition setMonth (t : Time) (month date : Z) : Time :=
  MakeDate (MakeDay (YearFromTime t) month date) (TimeWithinDay t).

Definition addMonths (t : Time) (amount : Z) : Time :=
  if amount =? 0 then t
  else
    let dayOfMonth := getDate t in
    let endOfDesiredMonth := setMonth t (getMonth t + amount + 1) 0 in
    let daysInMonth := getDate endOfDesiredMonth in
    if daysInMonth <=? dayOfMonth then endOfDesiredMonth
    else setFullYear t (getFullYear endOfDesiredMonth) (getMonth endOfDesiredMonth)
           dayOfMonth.

Definition subMonths (t : Time) (amount : Z) : Time := addMonths t (- amount).

(** The loop of the weekly report: the running total, the best day total so
    far and the day it was seen on (its weekday, for the English day name;
    [None] for the empty string). *)
Fixpoint weeklyLoop (days : list Time) (totalKwh bestDayKwh : Q)
  (bestDayDate : option Z) : M (Q * Q * option Z) :=
  match days with
  | [] => ret (totalKwh, bestDayKwh, bestDayDate)
  | d :: days' =>
      kwh <- getPeriodTotal d day ;;
      if Q_gtb kwh bestDayKwh
      then weeklyLoop days' (totalKwh + kwh)%Q kwh (Some (getDay d))
      else weeklyLoop days' (totalKwh + kwh)%Q bestDayKwh bestDayDate
  end.

(** monitor.js 389-403; the value is the report sent, if any. *)
Definition runWeeklyReport : M (option Sent) :=
  tryCatch
    (today <- newDate ;;
     let lastWeekStart := startOfWeek (subDays today 7) 1 in
     let lastWeekEnd := endOfWeek (subDays today 7) 1 in
     match eachDayOfInterval lastWeekStart lastWeekEnd with
     | Days l =>
         r <- weeklyLoop l 0%Q 0%Q None ;;
         let '(totalKwh, bestDayKwh, bestDayDate) := r in
         if Q_gtb totalKwh 0 then
           st <- getState ;;
           ret (Some (language (config st),
                      WEEKLY_REPORT (toFixed totalKwh 2) bestDayDate
                        (toFixed bestDayKwh 2)))
         else ret None
     | InvalidInterval => throw RangeError
     | LoopDiverged => throw Diverged
     end)
    (fun _ => ret None).

(** monitor.js 405-418; the value is the report sent, if any. *)
Definition runMonthlyReport : M (option Sent) :=
  tryCatch
    (today <- newDate ;;
     let lastMonthStart := startOfMonth (subMonths today 1) in
     let lastMonthEnd := endOfMonth lastMonthStart in
     let daysInMonth := differenceInDays lastMonthEnd lastMonthStart + 1 in
     match eachDayOfInterval lastMonthStart lastMonthEnd with
     | Days l =>
         totalKwh <- sumDays l 0%Q ;;
         if Q_gtb totalKwh 0 then
           st <- getState ;;
           ret (Some (language (config st),
                      MONTHLY_REPORT (toFixed totalKwh 2)
                        (toFixed (totalKwh / inject_Z daysInMonth) 2)))
         else ret None
     | InvalidInterval => throw RangeError
     | LoopDiverged => throw Diverged
     end)
    (fun _ => ret None).

(* ================================================================= *)
(** ** Notions the statements are written with *)
(* ================================================================= *)

(** [lo; lo + 1; ...], [n] consecutive integers. *)
Fixpoint zrange (lo : Z) (n : nat) : list Z :=
  match n with
  | O => []
  | S n' => lo :: zrange (lo + 1) n'
  end.

(** The [Date] at 00:00:00.000 of day number [d]. *)
Definition midnight (d : Z) : Time := MakeDate d 0.

(** Every calendar day of month [m] (0 = January) of year [y], in order:
    the 1st, the 2nd, ... up to the last day of the month, each at
    midnight. *)
Definition calendarDaysOfMonth (y m : Z) : list Time :=
  map (fun k => midnight (MakeDay y m k)) (zrange 1 (Z.to_nat (daysInMonth y m))).

(** The Monday on or before the day of [t], as a day number. *)
Definition mondayOf (t : Time) : Z := Day t - (WeekDay t + 6) mod 7.

(** The seven days, Monday to Sunday, of the week containing [t]. *)
Definition isoWeekDays (t : Time) : list Time :=
  map midnight (zrange (mondayOf t) 7).

(** Adding up day totals the way the loop does: left to right from 0, the
    first failure ending the sum. *)
Definition addOutcome (acc x : Outcome Q) : Outcome Q :=
  match acc, x with
  | Returns a, Returns b => Returns (a + b)%Q
  | Returns _, Throws e => Throws e
  | Throws e, _ => Throws e
  end.

Definition sumOutcomes (l : list (Outcome Q)) : Outcome Q :=
  fold_left addOutcome l (Returns 0%Q).

(** *** Reading the trace *)

(** How many of the chat messages of a trace satisfy [p]. *)
Fixpoint countMsg (p : Message -> bool) (tr : list Effect) : nat :=
  match tr with
  | [] => O
  | SendMessage _ m :: tr' => ((if p m then 1 else 0) + countMsg p tr')%nat
  | _ :: tr' => countMsg p tr'
  end.

(** How many API calls a trace holds. *)
Fixpoint countApi (tr : list Effect) : nat :=
  match tr with
  | [] => O
  | (ApiLogin | ApiQuery _ | ApiLogout) :: tr' => S (countApi tr')
  | _ :: tr' => countApi tr'
  end.

Definition anyMessage (m : Message) : bool := true.
Definition isUrgentAlert (m : Message) : bool :=
  match m with URGENT_ALERT_MESSAGE _ => true | _ => false end.
Definition isOutageAlert (m : Message) : bool :=
  match m with OUTAGE_MESSAGE => true | _ => false end.
Definition isRecovery (m : Message) : bool :=
  match m with RECOVERY_MESSAGE _ => true | _ => false end.
Definition isTempAlert (m : Message) : bool :=
  match m with TEMP_ALERT _ _ => true | _ => false end.
Definition isLivenessAlert (m : Message) : bool :=
  match m with LIVENESS_ALERT _ => true | _ => false end.
Definition isMilestone (m : Message) : bool :=
  match m with MILESTONE_MESSAGE _ => true | _ => false end.

(** How many messages satisfying [p] a handler added, from the world before
    to the world after. *)
Definition emittedBy (p : Message -> bool) (before after : World) : nat :=
  (countMsg p (trace after) - countMsg p (trace before))%nat.

Definition isMilestoneAt (threshold : Z) (m : Message) : bool :=
  match m with MILESTONE_MESSAGE x => x =? threshold | _ => false end.

(** *** The situations the statements speak of *)

(** The local hour of [t] lies in the active monitoring window, 10 to 15
    inclusive. *)
Definition insideWindow (t : Time) : bool :=
  (CHECK_HOUR_START <=? getHours t) && (getHours t <=? CHECK_HOUR_END).

(** The API session started now succeeds and delivers [snap]. *)
Definition sessionSucceeds (w : World) (snap : Snapshot) : Prop :=
  loginOk (api w (clock w)) = true
  /\ allPlantData (api w (clock w)) = Some snap
  /\ logoutOk (api w (clock w)) = true.

(** [plant] is the first plant of the snapshot and [dev] its first device. *)
Definition firstDeviceIs (snap : Snapshot) (plant : Plant) (dev : Device) : Prop :=
  exists pk rest dk drest,
    snap = (pk, plant) :: rest /\ devices plant = Some ((dk, dev) :: drest).

(** An hourly tick that gets a reading: inside the window, the session
    succeeds and the first device carries a history record and device data. *)
Definition hourlyReading (w : World) (h : HistoryLast) (dd : DeviceData) : Prop :=
  insideWindow (clock w) = true
  /\ exists snap plant dev,
      sessionSucceeds w snap /\ firstDeviceIs snap plant dev
      /\ historyLast dev = Some h /\ deviceData dev = Some dd.

(** A daily evaluation that gets its figures: the session succeeds, the
    first device carries device data and the first plant plant data. *)
Definition dailyReading (w : World) (pd : PlantData) (dd : DeviceData) : Prop :=
  exists snap plant dev,
    sessionSucceeds w snap /\ firstDeviceIs snap plant dev
    /\ deviceData dev = Some dd /\ plantData plant = Some pd.

(** The cached snapshot a fetch may answer with: not forced, for today, a
    snapshot in the cache, stored less than 120 seconds ago. *)
Definition cacheHit (forceNew isToday : bool) (cache : ApiCache) (now : Z)
  : option Snapshot :=
  if negb forceNew && isToday then
    match data cache with
    | Some d => if now - timestamp cache <? CACHE_FRESH_MS then Some d else None
    | None => None
    end
  else None.

(** [date] falls on the calendar day the clock of [w] shows. *)
Definition isTodayIn (w : World) (date : Time) : bool :=
  ymd_eqb (format_yyyy_MM_dd date) (format_yyyy_MM_dd (clock w)).

(** The escalation condition in the words of the specification: down, not
    yet escalated, and at least 15 minutes (in milliseconds) since the start
    of the outage. *)
Definition escalationDue (s : Status) (now : Time) : bool :=
  isSystemDown s && negb (urgentAlertSent s)
  && match outageStartTime s with
     | Some started => URGENT_ALERT_DELAY_MINUTES * msPerMinute <=? now - started
     | None => false
     end.

(** *** Schedules *)

Inductive Handler := Hourly | Urgent | Daily.

Definition handle (h : Handler) : M unit :=
  match h with
  | Hourly => runHourlyChecks
  | Urgent => checkUrgentConditions
  | Daily => runDailyEveningChecks
  end.

(** A firing of a scheduled task: which one, and what the clock shows. *)
Record Tick := { handler : Handler; firedAt : Time }.

Definition setClock (t : Time) (w : World) : World :=
  {| clock := t; api := api w; state := state w;
     apiCache := apiCache w; trace := trace w |}.

Definition step (k : Tick) (w : World) : World :=
  exec (handle (handler k)) (setClock (firedAt k) w).

Fixpoint runTicks (l : list Tick) (w : World) : World :=
  match l with
  | [] => w
  | k :: l' => runTicks l' (step k w)
  end.

(** *** The status invariant

    The invariant of the data model speaks of the moment urgentAlertSent was
    set, which the program does not store; a run is therefore tracked with
    that moment as a ghost value. *)

Definition statusInvariant (s : Status) (sentAt : option Time) : Prop :=
  (outageStartTime s <> None <-> isSystemDown s = true)
  /\ (urgentAlertSent s = true ->
      isSystemDown s = true
      /\ exists started at_,
          outageStartTime s = Some started /\ sentAt = Some at_
          /\ URGENT_ALERT_DELAY_MINUTES * msPerMinute <= at_ - started).

(** The ghost after a handler ran: the clock of the world in which
    urgentAlertSent went from false to true. *)
Definition trackSentAt (before after : World) (sentAt : option Time) : option Time :=
  if negb (urgentAlertSent (status (state before)))
     && urgentAlertSent (status (state after))
  then Some (clock after)
  else sentAt.

Fixpoint runTracked (l : list Tick) (w : World) (sentAt : option Time)
  : World * option Time :=
  match l with
  | [] => (w, sentAt)
  | k :: l' => runTracked l' (step k w) (trackSentAt w (step k w) sentAt)
  end.

(** *** The handlers in closed form

    What each handler leaves behind, written as plain functions of the world
    it starts from; the lemmas of the second half show that the handlers
    compute exactly these. *)

(** What a live session does to the world, whatever its outcome. *)
Definition afterSession (w : World) (date : Time) (isToday : bool) : World :=
  let r := api w date in
  if loginOk r then
    match allPlantData r with
    | Some d =>
        if logoutOk r then
          {| clock := clock w + latency r; api := api w; state := state w;
             apiCache := if isToday
                         then {| data := Some d; timestamp := clock w + latency r |}
                         else apiCache w;
             trace := trace w ++ [ApiLogin; ApiQuery date; ApiLogout] |}
        else
          {| clock := clock w + latency r; api := api w; state := state w;
             apiCache := apiCache w;
             trace := trace w ++ [ApiLogin; ApiQuery date; ApiLogout] |}
    | None =>
        {| clock := clock w + latency r; api := api w; state := state w;
           apiCache := apiCache w;
           trace := trace w ++ [ApiLogin; ApiQuery date] |}
    end
  else
    {| clock := clock w; api := api w; state := state w;
       apiCache := apiCache w; trace := trace w ++ [ApiLogin] |}.

(** The outcome of a live session. *)
Definition sessionOutcome (r : ApiReply) (lang : Language) : Outcome Snapshot :=
  if loginOk r && logoutOk r then
    match allPlantData r with
    | Some d => Returns d
    | None => Throws (ERROR_API_CONNECTION lang)
    end
  else Throws (ERROR_API_CONNECTION lang).

(** The world after an escalation. *)
Definition escalated (w : World) : World :=
  {| clock := clock w; api := api w;
     state := {| config := config (state w); stats := stats (state w);
                 status := {| isSystemDown := isSystemDown (status (state w));
                              outageStartTime := outageStartTime (status (state w));
                              urgentAlertSent := true |} |};
     apiCache := apiCache w;
     trace := trace w ++ [SendMessage (language (config (state w)))
                            (URGENT_ALERT_MESSAGE URGENT_ALERT_DELAY_MINUTES);
                          SaveState] |}.

(** The world after the out-of-window reset. *)
Definition afterReset (w : World) : World :=
  {| clock := clock w; api := api w;
     state := {| config := config (state w); stats := stats (state w);
                 status := clearedStatus |};
     apiCache := apiCache w;
     trace := trace w ++ [SaveState] |}.

(** What the three blocks of an hourly tick decide, given the reading. *)
Section HourlyDecisions.
Variables (s : BotState) (now : Time) (h : HistoryLast) (dd : DeviceData).

Definition livenessDue : bool :=
  (LIVENESS_CHECK_HOURS <=? differenceInHours now (lastUpdateTime dd))
  && cooldownOver now (lastLivenessAlert (stats s)).

Definition tempDue : bool :=
  Q_geb (temperature h) (inject_Z (tempThreshold (config s)))
  && cooldownOver now (lastTempAlert (stats s)).

Definition recoveryDue : bool := Q_gtb (pac h) 0 && isSystemDown (status s).

Definition onsetDue : bool := Qeq_bool (pac h) 0 && negb (isSystemDown (status s)).

Definition stateAfterReading : BotState :=
  {| config := config s;
     stats := {| lastReminderDate := lastReminderDate (stats s);
                 nextMilestoneKwh := nextMilestoneKwh (stats s);
                 bestDay := bestDay (stats s);
                 lastLivenessAlert :=
                   if livenessDue then Some now else lastLivenessAlert (stats s);
                 lastTempAlert :=
                   if tempDue then Some now else lastTempAlert (stats s) |};
     status := if recoveryDue then clearedStatus
               else if onsetDue then
                      {| isSystemDown := true; outageStartTime := Some now;
                         urgentAlertSent := urgentAlertSent (status s) |}
                    else status s |}.

Definition messagesAfterReading : list Effect :=
  (if livenessDue
   then [SendMessage (language (config s))
           (LIVENESS_ALERT (differenceInHours now (lastUpdateTime dd))); SaveState]
   else [])
  ++ (if tempDue
      then [SendMessage (language (config s))
              (TEMP_ALERT (temperature h) (tempThreshold (config s))); SaveState]
      else [])
  ++ (if recoveryDue
      then [SendMessage (language (config s)) (RECOVERY_MESSAGE (pac h)); SaveState]
      else if onsetDue
           then [SendMessage (language (config s)) OUTAGE_MESSAGE; SaveState]
           else []).
End HourlyDecisions.

(** What the three blocks of the daily evaluation decide, given the figures. *)
Section DailyDecisions.
Variables (s : BotState) (now : Time) (pd : PlantData) (dd : DeviceData).

Definition bestDayDue : bool :=
  Q_gtb (eToday dd) (orZero (bestDay_kwh (bestDay (stats s)))).

Definition milestoneDue : bool :=
  Q_geb (eTotal pd) (inject_Z (nextMilestoneKwh (stats s))).

Definition cleaningDue : bool :=
  cleaningIntervalWeeks (config s) * 7
  <=? differenceInDays now (lastReminderDate (stats s)).

Definition stateAfterDaily : BotState :=
  {| config := config s;
     stats := {| lastReminderDate :=
                   if cleaningDue then now else lastReminderDate (stats s);
                 nextMilestoneKwh :=
                   if milestoneDue
                   then Qfloor (eTotal pd / inject_Z MILESTONE_STEP_KWH)
                        * MILESTONE_STEP_KWH + MILESTONE_STEP_KWH
                   else nextMilestoneKwh (stats s);
                 bestDay :=
                   if bestDayDue
                   then {| bestDay_date := Some (format_yyyy_MM_dd now);
                           bestDay_kwh := eToday dd |}
                   else bestDay (stats s);
                 lastLivenessAlert := lastLivenessAlert (stats s);
                 lastTempAlert := lastTempAlert (stats s) |};
     status := status s |}.

Definition messagesAfterDaily : list Effect :=
  (if bestDayDue
   then [SendMessage (language (config s))
           (BEST_DAY_MESSAGE (eToday dd) (orZero (bestDay_kwh (bestDay (stats s)))))]
   else [])
  ++ (if milestoneDue
      then [SendMessage (language (config s))
              (MILESTONE_MESSAGE (nextMilestoneKwh (stats s)))]
      else [])
  ++ (if cleaningDue
      then [SendMessage (language (config s))
              (CLEANING_REMINDER (cleaningIntervalWeeks (config s)))]
      else [])
  ++ [SaveState].
End DailyDecisions.

(** *** Concrete worlds for the examples *)

(** A snapshot with one plant and one inverter. *)
Definition snapshotOf (pac_ temp : Q) (eac : option Q) (eToday_ eTotal_ : Q)
  (updated : Time) : Snapshot :=
  [("1"%string,
    {| plantData := Some {| eTotal := eTotal_ |};
       devices := Some [("INV1"%string,
                         {| historyLast := Some {| pac := pac_; temperature := temp;
                                                   eacToday := eac |};
                            deviceData := Some {| eToday := eToday_;
                                                  lastUpdateTime := updated |} |})] |})].

Definition replyWith (snap : Snapshot) : ApiReply :=
  {| loginOk := true; allPlantData := Some snap; logoutOk := true; latency := 2000 |}.

Definition emptyCache : ApiCache := {| data := None; timestamp := 0 |}.

Definition worldAt (t : Time) (a : Time -> ApiReply) (s : BotState) : World :=
  {| clock := t; api := a; state := s; apiCache := emptyCache; trace := [] |}.

(** 2024-03-05 19:59 and 2024-03-06 19:59, local time. *)
Definition evening1 : Time := 1709668740000.
Definition evening2 : Time := 1709755140000.

(** The lifetime total reads 950 kWh on the first evening and 1050 kWh from
    the second on. *)
Definition crossingApi : Time -> ApiReply :=
  fun date =>
    replyWith (snapshotOf 0%Q 25%Q (Some 12%Q) 12%Q
                 (if date <? evening2 then 950%Q else 1050%Q) date).

(** A plant the API lists without its devices. *)
Definition snapshotWithoutDevices : Snapshot :=
  [("1"%string, {| plantData := Some {| eTotal := 1050%Q |}; devices := None |})].

(** An API that cannot be reached. *)
Definition quietApi : Time -> ApiReply :=
  fun _ => {| loginOk := false; allPlantData := None; logoutOk := false; latency := 0 |}.

(** 2024-03-05 at 12:05 and 13:05, local time. *)
Definition noon : Time := 1709640300000.
Definition oneOClock : Time := 1709643900000.

(** The default state with an outage that started at [started]. *)
Definition downSince (started : Time) : BotState :=
  {| config := defaultConfig; stats := defaultStats;
     status := {| isSystemDown := true; outageStartTime := Some started;
                  urgentAlertSent := false |} |}.

(** A persisted file that says the system is down and has no
    outageStartTime. *)
Definition downFileWithoutStart : PersistedState :=
  {| p_config := None; p_stats := None;
     p_status := Some {| p_isSystemDown := Some true; p_outageStartTime := None;
                         p_urgentAlertSent := None |} |}.

(** The inverter is off (0 W) until one o'clock and delivers 500 W from
    then on; it runs hot (70 degrees) and its data is fresh. *)
Definition outageApi : Time -> ApiReply :=
  fun date =>
    replyWith (snapshotOf (if date <? oneOClock then 0%Q else 500%Q) 70%Q
                 (Some 3%Q) 3%Q 950%Q date).

(** *** API sessions in the trace *)

(** The three calls of a session for [d] that runs to its end. *)
Definition fullSession (d : Time) : list Effect :=
  [ApiLogin; ApiQuery d; ApiLogout].

(** The calls a session for [d] makes, given the API's reply: it stops at the
    first call that fails. *)
Definition sessionTrace (r : ApiReply) (d : Time) : list Effect :=
  if loginOk r then
    match allPlantData r with
    | Some _ => [ApiLogin; ApiQuery d; ApiLogout]
    | None => [ApiLogin; ApiQuery d]
    end
  else [ApiLogin].

(** The record-day figure the daily check compares against. *)
Definition bestKwh (w : World) : Q := bestDay_kwh (bestDay (stats (state w))).

Definition isBestDayMessage (m : Message) : bool :=
  match m with BEST_DAY_MESSAGE _ _ => true | _ => false end.
Definition isCleaningReminder (m : Message) : bool :=
  match m with CLEANING_REMINDER _ => true | _ => false end.

(** The days a week or month total adds up. *)
Definition daysOfPeriod (date : Time) (p : Period) : list Time :=
  match p with
  | week => isoWeekDays date
  | _ => calendarDaysOfMonth (getFullYear date) (getMonth date)
  end.

(** Every urgent alert and every recovery message sent since [w0] is
    accounted for by an outage alert sent since [w0]: an outage that is still
    open has one recovery to come, and one escalation to come as long as
    urgentAlertSent is not set. *)
Definition alertsAccounted (w0 w : World) : Prop :=
  let s := status (state w) in
  (urgentAlertSent s = true -> isSystemDown s = true)
  /\ (countMsg isUrgentAlert (trace w0) <= countMsg isUrgentAlert (trace w))%nat
  /\ (countMsg isRecovery (trace w0) <= countMsg isRecovery (trace w))%nat
  /\ (countMsg isOutageAlert (trace w0) <= countMsg isOutageAlert (trace w))%nat
  /\ (emittedBy isUrgentAlert w0 w
      + (if isSystemDown s && negb (urgentAlertSent s) then 1 else 0)
      <= emittedBy isOutageAlert w0 w)%nat
  /\ (emittedBy isRecovery w0 w + (if isSystemDown s then 1 else 0)
      <= emittedBy isOutageAlert w0 w)%nat.

(** The settings the admin commands validate. *)
Definition validSettings (c : Config) : Prop :=
  0 < cleaningIntervalWeeks c /\ 30 < tempThreshold c.

(** Whether a string has a space in it. *)
Fixpoint hasSpace (s : string) : bool :=
  match s with
  | EmptyString => false
  | String c rest => Ascii.eqb c (Ascii.ascii_of_nat 32) || hasSpace rest
  end.

(** The four keywords of the admin commands. *)
Definition setKeywords : list string :=
  ["/setlang"; "/setcost"; "/setcleaning"; "/settemp"]%string.

(** An API that answers like [outageApi] for the days before [t0] and cannot
    be reached for the days from [t0] on. *)
Definition apiDownFrom (t0 : Time) : Time -> ApiReply :=
  fun date => if date <? t0 then outageApi date else quietApi date.

(** Two chat messages from user 7, who is no bot. *)
Definition settingRequest : Msg :=
  {| text := Some "/settemp 45"%string; from_is_bot := false; from_id := 7 |}.
Definition cleaningRequest : Msg :=
  {| text := Some "cleaning"%string; from_is_bot := false; from_id := 7 |}.

(** A message sent by a bot. *)
Definition botMessage : Msg :=
  {| text := Some "/settemp 45"%string; from_is_bot := true; from_id := 8 |}.

(* ================================================================= *)
(** ** Facts about the calendar *)
(* ================================================================= *)

Module JsDateFacts.

Ltac euclid := Z.to_euclidean_division_equations; lia.

Ltac case_bools :=
  repeat match goal with
    | |- context [?a =? ?b] => destruct (Z.eqb_spec a b)
    | |- context [?a <? ?b] => destruct (Z.ltb_spec a b)
    | |- context [?a <=? ?b] => destruct (Z.leb_spec a b)
    end; cbn [negb andb orb].

(** One goal per month. *)
Ltac month_cases m :=
  let H := fresh "Hmonth" in
  assert (m = 0 \/ m = 1 \/ m = 2 \/ m = 3 \/ m = 4 \/ m = 5 \/ m = 6
          \/ m = 7 \/ m = 8 \/ m = 9 \/ m = 10 \/ m = 11) as H by lia;
  destruct H as [H|[H|[H|[H|[H|[H|[H|[H|[H|[H|[H|H]]]]]]]]]]]; subst m.

(** Replace the table look-ups at known months by their values. *)
Ltac eval_table :=
  repeat match goal with
    | |- context [daysBeforeMonth true ?m] =>
        let v := eval vm_compute in (daysBeforeMonth true m) in
        progress change (daysBeforeMonth true m) with v
    | |- context [daysBeforeMonth false ?m] =>
        let v := eval vm_compute in (daysBeforeMonth false m) in
        progress change (daysBeforeMonth false m) with v
    | H : context [daysBeforeMonth true ?m] |- _ =>
        let v := eval vm_compute in (daysBeforeMonth true m) in
        progress change (daysBeforeMonth true m) with v in H
    | H : context [daysBeforeMonth false ?m] |- _ =>
        let v := eval vm_compute in (daysBeforeMonth false m) in
        progress change (daysBeforeMonth false m) with v in H
    end.

Lemma DayFromYear_succ y : DayFromYear (y + 1) = DayFromYear y + DaysInYear y.
Proof. unfold DayFromYear, DaysInYear, InLeapYear. case_bools; euclid. Qed.

Lemma DaysInYear_range y : 365 <= DaysInYear y <= 366.
Proof. unfold DaysInYear. destruct (InLeapYear y); lia. Qed.

Lemma DayFromYear_lt y1 y2 : y1 < y2 -> DayFromYear y1 < DayFromYear y2.
Proof. unfold DayFromYear. intros. euclid. Qed.

Lemma YearFromDay_spec d :
  DayFromYear (YearFromDay d) <= d < DayFromYear (YearFromDay d + 1).
Proof.
  unfold YearFromDay.
  destruct (Z.ltb_spec d (DayFromYear (1970 + d * 400 / 146097))).
  - unfold DayFromYear in *. euclid.
  - destruct (Z.leb_spec (DayFromYear (1970 + d * 400 / 146097 + 1)) d).
    + unfold DayFromYear in *. euclid.
    + lia.
Qed.

Lemma YearFromDay_unique d y :
  DayFromYear y <= d < DayFromYear (y + 1) -> YearFromDay d = y.
Proof.
  intros Hy. pose proof (YearFromDay_spec d) as Hs.
  destruct (Z.lt_trichotomy (YearFromDay d) y) as [Hlt | [Heq | Hgt]]; [ | exact Heq | ].
  - assert (YearFromDay d + 1 <= y) as Hle by lia.
    apply Zle_lt_or_eq in Hle. destruct Hle as [Hl | He].
    + apply DayFromYear_lt in Hl. lia.
    + rewrite He in Hs. lia.
  - assert (y + 1 <= YearFromDay d) as Hle by lia.
    apply Zle_lt_or_eq in Hle. destruct Hle as [Hl | He].
    + apply DayFromYear_lt in Hl. lia.
    + rewrite <- He in Hs. lia.
Qed.

Lemma Day_MakeDate d tm : 0 <= tm < msPerDay -> Day (MakeDate d tm) = d.
Proof. unfold Day, MakeDate, msPerDay. intros. euclid. Qed.

Lemma TimeWithinDay_MakeDate d tm :
  0 <= tm < msPerDay -> TimeWithinDay (MakeDate d tm) = tm.
Proof. unfold TimeWithinDay, MakeDate, msPerDay. intros. euclid. Qed.

Lemma TimeWithinDay_range t : 0 <= TimeWithinDay t < msPerDay.
Proof. unfold TimeWithinDay, msPerDay. euclid. Qed.

Lemma MakeDate_Day t : MakeDate (Day t) (TimeWithinDay t) = t.
Proof. unfold MakeDate, Day, TimeWithinDay, msPerDay. euclid. Qed.

Lemma DayWithinYear_range t : 0 <= DayWithinYear t < DaysInYear (YearFromTime t).
Proof.
  unfold DayWithinYear, YearFromTime.
  pose proof (YearFromDay_spec (Day t)) as H.
  rewrite DayFromYear_succ in H. lia.
Qed.

Lemma MonthFromTime_range t : 0 <= MonthFromTime t <= 11.
Proof. unfold MonthFromTime. case_bools; lia. Qed.

(** Day number to civil date and back. *)
Lemma MakeDay_of_fields t :
  MakeDay (YearFromTime t) (MonthFromTime t) (DateFromTime t) = Day t.
Proof.
  unfold MakeDay, DateFromTime.
  pose proof (MonthFromTime_range t) as Hm.
  replace (MonthFromTime t / 12) with 0 by euclid.
  replace (MonthFromTime t mod 12) with (MonthFromTime t) by euclid.
  rewrite Z.add_0_r. unfold DayWithinYear. lia.
Qed.

Lemma MonthFromTime_bracket t :
  daysBeforeMonth (InLeapYear (YearFromTime t)) (MonthFromTime t)
  <= DayWithinYear t
  < daysBeforeMonth (InLeapYear (YearFromTime t)) (MonthFromTime t + 1).
Proof.
  pose proof (DayWithinYear_range t) as Hd.
  remember (MonthFromTime t) as m eqn:Hm.
  unfold MonthFromTime, DaysInYear in *.
  destruct (InLeapYear (YearFromTime t)); eval_table;
    revert Hm; case_bools; intros ->; eval_table; lia.
Qed.

Lemma DateFromTime_range t :
  1 <= DateFromTime t <= daysInMonth (YearFromTime t) (MonthFromTime t).
Proof.
  pose proof (MonthFromTime_bracket t) as Hb.
  unfold DateFromTime, daysInMonth. lia.
Qed.

Lemma daysInMonth_range y m : 0 <= m <= 11 -> 28 <= daysInMonth y m <= 31.
Proof.
  intros Hm. unfold daysInMonth.
  destruct (InLeapYear y); month_cases m; eval_table; lia.
Qed.

(** Civil date to day number and back. *)
Lemma fields_of_MakeDay y m k tm :
  0 <= m <= 11 -> 1 <= k <= daysInMonth y m -> 0 <= tm < msPerDay ->
  let t := MakeDate (MakeDay y m k) tm in
  YearFromTime t = y /\ MonthFromTime t = m /\ DateFromTime t = k.
Proof.
  intros Hm Hk Htm t.
  assert (Day t = MakeDay y m k) as HD by (apply Day_MakeDate; exact Htm).
  assert (MakeDay y m k = DayFromYear y + daysBeforeMonth (InLeapYear y) m + k - 1) as HM.
  { unfold MakeDay. replace (m / 12) with 0 by euclid.
    replace (m mod 12) with m by euclid. rewrite Z.add_0_r. reflexivity. }
  assert (0 <= daysBeforeMonth (InLeapYear y) m + k - 1 < DaysInYear y) as Hin.
  { unfold daysInMonth, DaysInYear in *.
    destruct (InLeapYear y); month_cases m; eval_table; lia. }
  assert (YearFromTime t = y) as HY.
  { unfold YearFromTime. apply YearFromDay_unique.
    rewrite DayFromYear_succ. lia. }
  assert (DayWithinYear t = daysBeforeMonth (InLeapYear y) m + k - 1) as HW.
  { unfold DayWithinYear. rewrite HY. lia. }
  assert (MonthFromTime t = m) as HMo.
  { unfold MonthFromTime. rewrite HY, HW.
    unfold daysInMonth in Hk.
    destruct (InLeapYear y); month_cases m; eval_table; case_bools; lia. }
  split; [exact HY | split; [exact HMo | ]].
  unfold DateFromTime. rewrite HY, HMo, HW. lia.
Qed.

Lemma MakeDay_date_shift y m d k : MakeDay y m (d + k) = MakeDay y m d + k.
Proof. unfold MakeDay. lia. Qed.

(** [setDate] with a date outside the month rolls over by whole days. *)
Lemma setDate_shift t k : setDate t (getDate t + k) = t + k * msPerDay.
Proof.
  unfold setDate, getDate.
  rewrite MakeDay_date_shift, MakeDay_of_fields.
  rewrite <- (MakeDate_Day t) at 3. unfold MakeDate. lia.
Qed.

Lemma setHours_midnight t : setHours t 0 0 0 0 = midnight (Day t).
Proof. reflexivity. Qed.

Lemma Day_midnight d : Day (midnight d) = d.
Proof. apply Day_MakeDate. unfold msPerDay. lia. Qed.

Lemma Day_shift t k : Day (t + k * msPerDay) = Day t + k.
Proof. unfold Day, msPerDay. euclid. Qed.

Lemma midnight_le d e : (midnight d <=? e) = (d <=? Day e).
Proof.
  unfold midnight, MakeDate, Day, msPerDay.
  destruct (Z.leb_spec (d * 86400000 + 0) e), (Z.leb_spec d (e / 86400000));
    try reflexivity; exfalso; euclid.
Qed.

Lemma Day_le s e : s <= e -> Day s <= Day e.
Proof. unfold Day, msPerDay. intros. euclid. Qed.

(** One turn of the loop body of [eachDayOfInterval]. *)
Lemma next_midnight d :
  setHours (setDate (midnight d) (getDate (midnight d) + 1)) 0 0 0 0 = midnight (d + 1).
Proof. rewrite setDate_shift, setHours_midnight, Day_shift, Day_midnight. reflexivity. Qed.

Lemma eachDay_loop_midnights n :
  forall fuel d endTime,
    Day endTime = d + Z.of_nat n - 1 -> (n < fuel)%nat ->
    eachDay_loop fuel (midnight d) endTime = Some (map midnight (zrange d n)).
Proof.
  induction n as [| n IH]; intros fuel d endTime Hend Hfuel;
    (destruct fuel as [| fuel]; [lia | ]); cbn [eachDay_loop];
    rewrite midnight_le.
  - destruct (Z.leb_spec d (Day endTime)); [lia | reflexivity].
  - destruct (Z.leb_spec d (Day endTime)); [ | lia].
    rewrite next_midnight, (IH fuel (d + 1) endTime) by lia.
    reflexivity.
Qed.

(** [eachDayOfInterval] always terminates: on a valid interval it lists
    the midnights from the day of [start] to the day of [finish]. *)
Lemma eachDayOfInterval_days start finish :
  start <= finish ->
  eachDayOfInterval start finish
  = Days (map midnight (zrange (Day start) (Z.to_nat (Day finish - Day start + 1)))).
Proof.
  intros Hle. pose proof (Day_le _ _ Hle) as HD.
  unfold eachDayOfInterval.
  destruct (Z.leb_spec start finish); [ | lia]. cbn [negb].
  rewrite setHours_midnight.
  rewrite (eachDay_loop_midnights (Z.to_nat (Day finish - Day start + 1))) by lia.
  reflexivity.
Qed.

Lemma MakeTime_end_of_day : 0 <= MakeTime 23 59 59 999 < msPerDay.
Proof. vm_compute. split; [discriminate | reflexivity]. Qed.

Lemma startOfMonth_midnight t :
  startOfMonth t = midnight (MakeDay (getFullYear t) (getMonth t) 1).
Proof.
  unfold startOfMonth. rewrite setHours_midnight. unfold setDate.
  rewrite Day_MakeDate by apply TimeWithinDay_range. reflexivity.
Qed.

Lemma MakeDay_next_month_0 y m :
  0 <= m <= 11 -> MakeDay y (m + 1) 0 = MakeDay y m (daysInMonth y m).
Proof.
  intros Hm. unfold MakeDay, daysInMonth.
  replace (m / 12) with 0 by euclid. replace (m mod 12) with m by euclid.
  replace (y + 0) with y by lia.
  destruct (Z.eq_dec m 11) as [-> | Hne].
  - change ((11 + 1) / 12) with 1. change ((11 + 1) mod 12) with 0.
    rewrite DayFromYear_succ. unfold DaysInYear.
    destruct (InLeapYear y), (InLeapYear (y + 1)); eval_table; lia.
  - replace ((m + 1) / 12) with 0 by euclid.
    replace ((m + 1) mod 12) with (m + 1) by euclid.
    replace (y + 0) with y by lia. lia.
Qed.

Lemma Day_endOfMonth t :
  Day (endOfMonth t)
  = MakeDay (getFullYear t) (getMonth t) (daysInMonth (getFullYear t) (getMonth t)).
Proof.
  unfold endOfMonth, setHours, setFullYear.
  rewrite Day_MakeDate by apply MakeTime_end_of_day.
  rewrite Day_MakeDate by apply TimeWithinDay_range.
  apply MakeDay_next_month_0, MonthFromTime_range.
Qed.

Lemma startOfMonth_le_endOfMonth t : startOfMonth t <= endOfMonth t.
Proof.
  rewrite startOfMonth_midnight.
  pose proof (Day_endOfMonth t) as HD.
  pose proof (daysInMonth_range (getFullYear t) (getMonth t) (MonthFromTime_range t)) as Hr.
  pose proof (MakeDay_date_shift (getFullYear t) (getMonth t) 1
                (daysInMonth (getFullYear t) (getMonth t) - 1)) as Hs.
  replace (1 + (daysInMonth (getFullYear t) (getMonth t) - 1))
    with (daysInMonth (getFullYear t) (getMonth t)) in Hs by lia.
  apply Z.leb_le. rewrite midnight_le. apply Z.leb_le. lia.
Qed.

Lemma map_zrange_shift {A} (f : Z -> A) lo n :
  forall base, map f (zrange (base + lo) n) = map (fun k => f (base + k)) (zrange lo n).
Proof.
  revert lo. induction n as [| n IH]; intros lo base; cbn; [reflexivity | ].
  f_equal. rewrite <- IH. f_equal. f_equal. lia.
Qed.

(** The interval [getPeriodTotal] builds for a month is the month. *)
Lemma eachDayOfInterval_month t :
  eachDayOfInterval (startOfMonth t) (endOfMonth t)
  = Days (calendarDaysOfMonth (getFullYear t) (getMonth t)).
Proof.
  rewrite eachDayOfInterval_days by apply startOfMonth_le_endOfMonth.
  rewrite Day_endOfMonth, startOfMonth_midnight, Day_midnight.
  unfold calendarDaysOfMonth. f_equal.
  set (y := getFullYear t). set (m := getMonth t).
  replace (MakeDay y m (daysInMonth y m) - MakeDay y m 1 + 1) with (daysInMonth y m)
    by (unfold MakeDay; lia).
  replace (MakeDay y m 1) with (MakeDay y m 0 + 1) by (unfold MakeDay; lia).
  rewrite map_zrange_shift. apply map_ext. intros k.
  f_equal. unfold MakeDay. lia.
Qed.

Lemma WeekDay_range t : 0 <= WeekDay t <= 6.
Proof. unfold WeekDay. euclid. Qed.

Lemma startOfWeek_monday t : startOfWeek t 1 = midnight (mondayOf t).
Proof.
  unfold startOfWeek. rewrite setHours_midnight. f_equal.
  replace (getDate t - ((if getDay t <? 1 then 7 else 0) + getDay t - 1))
    with (getDate t + - ((if getDay t <? 1 then 7 else 0) + getDay t - 1)) by lia.
  rewrite setDate_shift, Day_shift. unfold mondayOf, getDay.
  pose proof (WeekDay_range t).
  destruct (Z.ltb_spec (WeekDay t) 1); euclid.
Qed.

Lemma Day_endOfWeek t : Day (endOfWeek t 1) = mondayOf t + 6.
Proof.
  unfold endOfWeek, setHours.
  rewrite Day_MakeDate by apply MakeTime_end_of_day.
  rewrite setDate_shift, Day_shift. unfold mondayOf, getDay.
  pose proof (WeekDay_range t).
  destruct (Z.ltb_spec (WeekDay t) 1); euclid.
Qed.

(** The interval [getPeriodTotal] builds for a week is Monday to Sunday. *)
Lemma eachDayOfInterval_week t :
  eachDayOfInterval (startOfWeek t 1) (endOfWeek t 1) = Days (isoWeekDays t).
Proof.
  assert (startOfWeek t 1 <= endOfWeek t 1) as Hle.
  { rewrite startOfWeek_monday. apply Z.leb_le. rewrite midnight_le.
    apply Z.leb_le. rewrite Day_endOfWeek. lia. }
  rewrite eachDayOfInterval_days by exact Hle.
  rewrite Day_endOfWeek, startOfWeek_monday, Day_midnight.
  replace (mondayOf t + 6 - mondayOf t + 1) with 7 by lia.
  reflexivity.
Qed.

Lemma In_zrange k n : forall lo, In k (zrange lo n) <-> lo <= k < lo + Z.of_nat n.
Proof.
  induction n as [| n IH]; intros lo; cbn [zrange In].
  - lia.
  - rewrite IH. lia.
Qed.

Lemma length_zrange n : forall lo, List.length (zrange lo n) = n.
Proof. induction n as [| n IH]; intros lo; cbn; [reflexivity | now rewrite IH]. Qed.

(** The week listed starts on a Monday, ends on a Sunday and holds the
    day of [t]. *)
Lemma isoWeekDays_shape t :
  List.length (isoWeekDays t) = 7%nat
  /\ WeekDay (midnight (mondayOf t)) = 1
  /\ WeekDay (midnight (mondayOf t + 6)) = 0
  /\ In (midnight (Day t)) (isoWeekDays t).
Proof.
  unfold isoWeekDays. rewrite length_map, length_zrange.
  split; [reflexivity | ].
  unfold WeekDay. rewrite !Day_midnight.
  pose proof (WeekDay_range t) as Hr.
  split; [ | split].
  - unfold mondayOf, WeekDay in *. euclid.
  - unfold mondayOf, WeekDay in *. euclid.
  - apply in_map, In_zrange. unfold mondayOf, WeekDay in *. euclid.
Qed.

(** The days listed for a month are exactly the midnights whose year and
    month are the given ones. *)
Lemma In_calendarDaysOfMonth y m x :
  0 <= m <= 11 ->
  In x (calendarDaysOfMonth y m)
  <-> TimeWithinDay x = 0 /\ getFullYear x = y /\ getMonth x = m.
Proof.
  intros Hm. unfold calendarDaysOfMonth. rewrite in_map_iff. split.
  - intros [k [<- Hk]]. apply In_zrange in Hk.
    pose proof (daysInMonth_range y m Hm) as Hr.
    assert (0 <= 0 < msPerDay) as H0 by (unfold msPerDay; lia).
    destruct (fields_of_MakeDay y m k 0 Hm ltac:(lia) H0) as [HY [HM _]].
    unfold midnight, getFullYear, getMonth.
    split; [ | split; assumption].
    apply TimeWithinDay_MakeDate, H0.
  - intros [Ht [HY HM]]. exists (DateFromTime x). split.
    + unfold getFullYear, getMonth in *. subst y m.
      rewrite MakeDay_of_fields. unfold midnight.
      rewrite <- Ht. apply MakeDate_Day.
    + apply In_zrange. unfold getFullYear, getMonth in *. subst y m.
      pose proof (DateFromTime_range x). lia.
Qed.

Lemma length_calendarDaysOfMonth y m :
  0 <= m <= 11 -> Z.of_nat (List.length (calendarDaysOfMonth y m)) = daysInMonth y m.
Proof.
  intros Hm. pose proof (daysInMonth_range y m Hm).
  unfold calendarDaysOfMonth. rewrite length_map, length_zrange. lia.
Qed.

End JsDateFacts.

(* ================================================================= *)
(** ** Running the handlers *)
(* ================================================================= *)

(** Unfold the plumbing of [M] and reduce the record projections. *)
Ltac run_m :=
  unfold formatMarkdown, saveState, setStats, setStatus, Object_keys, deref,
    growatt_login, growatt_getAllPlantData, growatt_logout,
    tryCatch, bind, ret, throw, newDate, Date_now, getState, getApiCache,
    setApiCache, setState, emit, elapse, exec, result;
  cbv beta iota zeta;
  cbn [fst snd clock api state apiCache trace config stats status
       loginOk allPlantData logoutOk latency data timestamp app negb andb orb].

Ltac run_m_in H :=
  unfold formatMarkdown, saveState, setStats, setStatus, Object_keys, deref,
    growatt_login, growatt_getAllPlantData, growatt_logout,
    tryCatch, bind, ret, throw, newDate, Date_now, getState, getApiCache,
    setApiCache, setState, emit, elapse, exec, result in H;
  cbv beta iota zeta in H;
  cbn [fst snd clock api state apiCache trace config stats status
       loginOk allPlantData logoutOk latency data timestamp app negb andb orb] in H.

Lemma bind_run {A B} (m : M A) (k : A -> M B) (w : World) :
  (x <- m ;; k x) w
  = match m w with
    | (Returns a, w') => k a w'
    | (Throws e, w') => (Throws e, w')
    end.
Proof. reflexivity. Qed.

Lemma ymd_eqb_refl a : ymd_eqb a a = true.
Proof. destruct a as [[y m] d]. unfold ymd_eqb. now rewrite !Z.eqb_refl. Qed.

Lemma getGrowattData_forced date w :
  getGrowattData true date w
  = (sessionOutcome (api w date) (language (config (state w))),
     afterSession w date (ymd_eqb (format_yyyy_MM_dd date) (format_yyyy_MM_dd (clock w)))).
Proof.
  unfold getGrowattData, sessionOutcome, afterSession. run_m.
  destruct (loginOk (api w date)); cbn [andb]; run_m; [ | reflexivity].
  destruct (allPlantData (api w date)) as [d | ]; run_m.
  - rewrite <- !app_assoc. cbn [app].
    destruct (logoutOk (api w date)); run_m; [ | reflexivity].
    destruct (ymd_eqb _ _); run_m; reflexivity.
  - rewrite <- !app_assoc. cbn [app].
    destruct (logoutOk (api w date)); reflexivity.
Qed.

Lemma afterSession_frame w date b :
  api (afterSession w date b) = api w /\ state (afterSession w date b) = state w.
Proof.
  unfold afterSession. cbv zeta.
  destruct (loginOk (api w date)), (allPlantData (api w date)),
    (logoutOk (api w date)); split; reflexivity.
Qed.

(* ================================================================= *)
(** ** Period aggregation *)
(* ================================================================= *)

(** Breaks the goal along every [match] on a part of the snapshot. *)
Ltac case_snapshot :=
  repeat (run_m;
          match goal with
          | |- context [match prop_get ?o ?k with _ => _ end] =>
              destruct (prop_get o k) eqn:?
          | |- context [match devices ?p with _ => _ end] => destruct (devices p) eqn:?
          | |- context [match plantData ?p with _ => _ end] => destruct (plantData p) eqn:?
          | |- context [match historyLast ?d with _ => _ end] =>
              destruct (historyLast d) eqn:?
          | |- context [match deviceData ?d with _ => _ end] =>
              destruct (deviceData d) eqn:?
          | |- context [match eacToday ?h with _ => _ end] => destruct (eacToday h) eqn:?
          end).

(** A day total leaves the world as its live session left it. *)
Lemma getPeriodTotal_day_world date w :
  exec (getPeriodTotal_day date) w
  = afterSession w date (ymd_eqb (format_yyyy_MM_dd date) (format_yyyy_MM_dd (clock w))).
Proof.
  unfold getPeriodTotal_day, exec. rewrite (bind_run _ _ w).
  rewrite getGrowattData_forced.
  destruct (sessionOutcome _ _) as [snap | e]; [ | reflexivity].
  case_snapshot; run_m; reflexivity.
Qed.

Lemma getPeriodTotal_day_frame date w :
  api (exec (getPeriodTotal_day date) w) = api w
  /\ state (exec (getPeriodTotal_day date) w) = state w.
Proof. rewrite getPeriodTotal_day_world. apply afterSession_frame. Qed.

(** A day total is decided by the API's answer for that date (and, for the
    text of the error, by the configured language): the fetch is forced, so
    the cache and the clock play no part. *)
Lemma getPeriodTotal_day_result date w1 w2 :
  api w1 = api w2 -> state w1 = state w2 ->
  result (getPeriodTotal_day date) w1 = result (getPeriodTotal_day date) w2.
Proof.
  intros Ha Hs. unfold getPeriodTotal_day, result.
  rewrite (bind_run _ _ w1), (bind_run _ _ w2).
  rewrite !getGrowattData_forced, Ha, Hs.
  destruct (sessionOutcome _ _) as [snap | e]; [ | reflexivity].
  case_snapshot; run_m; reflexivity.
Qed.

Lemma fold_addOutcome_throws l e : fold_left addOutcome l (Throws e) = Throws e.
Proof. induction l as [| x l IH]; cbn; [reflexivity | exact IH]. Qed.

Lemma sumDays_result l :
  forall total w,
    result (sumDays l total) w
    = fold_left addOutcome (map (fun d => result (getPeriodTotal_day d) w) l)
        (Returns total).
Proof.
  induction l as [| d l IH]; intros total w; [reflexivity | ].
  cbn [sumDays map fold_left]. unfold result at 1, bind.
  pose proof (getPeriodTotal_day_frame d w) as [Ha Hs]. unfold exec in Ha, Hs.
  unfold result at 2.
  destruct (getPeriodTotal_day d w) as [[x | e] w'] eqn:Hday; cbn [fst snd] in *.
  - fold (result (sumDays l (total + x)%Q) w'). rewrite IH. cbn [addOutcome].
    f_equal. apply map_ext. intros d'.
    apply getPeriodTotal_day_result; assumption.
  - cbn [addOutcome]. now rewrite fold_addOutcome_throws.
Qed.

(** C2: for every date and every API oracle (every assignment of daily
    figures), a day total depends on the API's answers only, the month total
    is the sum, in calendar order, of the day totals of every calendar day of
    the month containing the date, and the week total is the sum of the day
    totals of the Monday-to-Sunday week containing it.  The days summed are
    exactly the midnights whose year and month are those of the date
    (respectively seven consecutive days from a Monday, the day of the date
    among them). *)
Theorem getPeriodTotal_sums_days (date : Time) (w : World) :
  let y := getFullYear date in
  let m := getMonth date in
  (forall d w', api w' = api w -> state w' = state w ->
                result (getPeriodTotal d day) w' = result (getPeriodTotal d day) w)
  /\ result (getPeriodTotal date month) w
     = sumOutcomes (map (fun d => result (getPeriodTotal d day) w)
                      (calendarDaysOfMonth y m))
  /\ (forall x, In x (calendarDaysOfMonth y m)
               <-> TimeWithinDay x = 0 /\ getFullYear x = y /\ getMonth x = m)
  /\ result (getPeriodTotal date week) w
     = sumOutcomes (map (fun d => result (getPeriodTotal d day) w) (isoWeekDays date))
  /\ List.length (isoWeekDays date) = 7%nat
  /\ WeekDay (midnight (mondayOf date)) = 1
  /\ In (midnight (Day date)) (isoWeekDays date).
Proof.
  intros y m. split; [ | split; [ | split; [ | split]]].
  - intros d w' Ha Hs. apply getPeriodTotal_day_result; assumption.
  - unfold getPeriodTotal. cbn [fst snd].
    rewrite JsDateFacts.eachDayOfInterval_month. apply sumDays_result.
  - intros x. apply JsDateFacts.In_calendarDaysOfMonth, JsDateFacts.MonthFromTime_range.
  - unfold getPeriodTotal. cbn [fst snd].
    rewrite JsDateFacts.eachDayOfInterval_week. apply sumDays_result.
  - pose proof (JsDateFacts.isoWeekDays_shape date) as [Hl [Hm [_ Hi]]].
    split; [exact Hl | split; [exact Hm | exact Hi]].
Qed.

(* ================================================================= *)
(** ** The per-minute urgent check *)
(* ================================================================= *)

Lemma countMsg_app p tr1 tr2 :
  countMsg p (tr1 ++ tr2) = (countMsg p tr1 + countMsg p tr2)%nat.
Proof.
  induction tr1 as [| e tr1 IH]; [reflexivity | ].
  destruct e; cbn [app countMsg]; rewrite IH; lia.
Qed.

Lemma countApi_app tr1 tr2 :
  countApi (tr1 ++ tr2) = (countApi tr1 + countApi tr2)%nat.
Proof.
  induction tr1 as [| e tr1 IH]; [reflexivity | ].
  destruct e; cbn [app countApi]; rewrite IH; lia.
Qed.

(** Whole minutes against milliseconds. *)
Lemma delay_in_minutes now started :
  (URGENT_ALERT_DELAY_MINUTES <=? differenceInMinutes now started)
  = (URGENT_ALERT_DELAY_MINUTES * msPerMinute <=? now - started).
Proof.
  unfold differenceInMinutes, URGENT_ALERT_DELAY_MINUTES, msPerMinute.
  destruct (Z.leb_spec 15 ((now - started) ÷ 60000)),
    (Z.leb_spec (15 * 60000) (now - started)); try reflexivity; exfalso;
    Z.to_euclidean_division_equations; lia.
Qed.

Lemma checkUrgentConditions_run w :
  checkUrgentConditions w
  = (Returns tt, if escalationDue (status (state w)) (clock w) then escalated w else w).
Proof.
  destruct w as [clk a [c st [down started sent]] cache tr].
  unfold checkUrgentConditions, escalationDue, escalated. run_m.
  cbn [isSystemDown outageStartTime urgentAlertSent].
  destruct down, sent, started as [t0 | ]; cbn [negb andb orb truthy new_Date];
    try reflexivity.
  rewrite delay_in_minutes.
  destruct (_ <=? _); run_m; [ | reflexivity].
  rewrite <- !app_assoc. reflexivity.
Qed.

(** C10: with no outage start time on record the urgent check returns at
    once: no message, no write, the world unchanged whatever the clock shows.
    This covers a state loaded from a file that says the system is down but
    has no (or a null) outageStartTime. *)
Theorem checkUrgentConditions_without_start_time :
  (forall w : World,
      outageStartTime (status (state w)) = None ->
      checkUrgentConditions w = (Returns tt, w))
  /\ (forall (file : PersistedState) (ps : PersistedStatus) (w : World),
        p_status file = Some ps ->
        p_isSystemDown ps = Some true ->
        p_outageStartTime ps = None \/ p_outageStartTime ps = Some None ->
        state w = loadState (Some file) ->
        isSystemDown (status (state w)) = true
        /\ outageStartTime (status (state w)) = None
        /\ checkUrgentConditions w = (Returns tt, w)).
Proof.
  assert (forall w : World,
             outageStartTime (status (state w)) = None ->
             checkUrgentConditions w = (Returns tt, w)) as Hnone.
  { intros w Hst. rewrite checkUrgentConditions_run. unfold escalationDue.
    rewrite Hst, !andb_false_r. reflexivity. }
  split; [exact Hnone | ].
  intros file ps w Hps Hdown Hstart Hw.
  assert (isSystemDown (status (state w)) = true
          /\ outageStartTime (status (state w)) = None) as [Hd Hs].
  { rewrite Hw. unfold loadState. cbn [status]. rewrite Hps. unfold mergeStatus.
    rewrite Hdown. destruct Hstart as [-> | ->]; cbn; split; reflexivity. }
  split; [exact Hd | split; [exact Hs | apply Hnone, Hs]].
Qed.

(* ================================================================= *)
(** ** The hourly check *)
(* ================================================================= *)

Lemma window_gate t :
  (getHours t <? CHECK_HOUR_START) || (CHECK_HOUR_END <? getHours t)
  = negb (insideWindow t).
Proof.
  unfold insideWindow.
  destruct (Z.ltb_spec (getHours t) CHECK_HOUR_START),
    (Z.ltb_spec CHECK_HOUR_END (getHours t)),
    (Z.leb_spec CHECK_HOUR_START (getHours t)),
    (Z.leb_spec (getHours t) CHECK_HOUR_END); try reflexivity; lia.
Qed.

Lemma runHourlyChecks_outside w :
  insideWindow (clock w) = false ->
  runHourlyChecks w
  = (Returns tt, if isSystemDown (status (state w)) then afterReset w else w).
Proof.
  intros Hout. unfold runHourlyChecks, afterReset. run_m.
  rewrite window_gate, Hout. cbn [negb]. run_m.
  destruct (isSystemDown (status (state w))); reflexivity.
Qed.

Lemma getGrowattData_now_forced w :
  getGrowattData_now true w
  = (sessionOutcome (api w (clock w)) (language (config (state w))),
     afterSession w (clock w) true).
Proof.
  unfold getGrowattData_now. rewrite bind_run. unfold newDate.
  rewrite getGrowattData_forced, ymd_eqb_refl. reflexivity.
Qed.

(** The first plant and the first device, as the handlers look them up. *)
Lemma prop_get_first {A} (k : string) (v : A) (rest : JsObject A) :
  prop_get ((k, v) :: rest) (hd_error (Object_keys_of ((k, v) :: rest))) = Some v.
Proof. cbn. now rewrite String.eqb_refl. Qed.

Lemma prop_get_nil {A} :
  prop_get (@nil (string * A)) (hd_error (Object_keys_of (@nil (string * A)))) = None.
Proof. reflexivity. Qed.



Lemma runHourlyChecks_reading w h dd :
  hourlyReading w h dd ->
  let now := clock w + latency (api w (clock w)) in
  runHourlyChecks w
  = (Returns tt,
     {| clock := now; api := api w;
        state := stateAfterReading (state w) now h dd;
        apiCache := {| data := allPlantData (api w (clock w)); timestamp := now |};
        trace := trace w ++ [ApiLogin; ApiQuery (clock w); ApiLogout]
                 ++ messagesAfterReading (state w) now h dd |}).
Proof.
  intros [Hin [snap [plant [dev [[Hlogin [Hdata Hlogout]] [Hfirst [Hh Hdd]]]]]]] now.
  destruct Hfirst as [pk [rest [dk [drest [-> Hdevs]]]]].
  unfold runHourlyChecks. rewrite bind_run. unfold newDate at 1.
  cbv beta iota zeta. rewrite window_gate, Hin. cbn [negb].
  unfold tryCatch. rewrite bind_run, getGrowattData_now_forced.
  unfold sessionOutcome, afterSession.
  rewrite Hlogin, Hdata, Hlogout. cbn [andb]. cbv beta iota zeta.
  rewrite bind_run, prop_get_first. unfold deref at 1. unfold ret at 1.
  cbv beta iota. rewrite Hdevs. run_m.
  change (map fst ((dk, dev) :: drest)) with (Object_keys_of ((dk, dev) :: drest)).
  rewrite prop_get_first, Hh, Hdd. run_m.
  unfold stateAfterReading, messagesAfterReading.
  fold now.
  destruct w as [clk a [c [lrd nm bd lla lta] [down started sent]] cache tr].
  cbn [clock api state apiCache trace config stats status lastReminderDate
       nextMilestoneKwh bestDay lastLivenessAlert lastTempAlert isSystemDown
       outageStartTime urgentAlertSent] in *.
  unfold livenessDue, tempDue, recoveryDue, onsetDue.
  cbn [config stats status lastReminderDate nextMilestoneKwh bestDay
       lastLivenessAlert lastTempAlert isSystemDown outageStartTime urgentAlertSent].
  destruct ((LIVENESS_CHECK_HOURS <=? differenceInHours now (lastUpdateTime dd))
            && cooldownOver now lla);
    run_m; cbn [config stats status lastReminderDate nextMilestoneKwh bestDay
       lastLivenessAlert lastTempAlert isSystemDown outageStartTime urgentAlertSent];
    destruct (Q_geb (temperature h) (inject_Z (tempThreshold c)) && cooldownOver now lta);
    run_m; cbn [config stats status lastReminderDate nextMilestoneKwh bestDay
       lastLivenessAlert lastTempAlert isSystemDown outageStartTime urgentAlertSent];
    destruct (Q_gtb (pac h) 0 && down); run_m;
    try (destruct (Qeq_bool (pac h) 0 && negb down); run_m);
    rewrite <- ?app_assoc; reflexivity.
Qed.

(** Inside the window a tick either gets a reading or changes nothing in the
    bot state and says nothing. *)
Lemma runHourlyChecks_inside w :
  insideWindow (clock w) = true ->
  (exists h dd, hourlyReading w h dd)
  \/ (state (exec runHourlyChecks w) = state w
      /\ forall p, countMsg p (trace (exec runHourlyChecks w)) = countMsg p (trace w)).
Proof.
  intros Hin.
  destruct (loginOk (api w (clock w))) eqn:Hlogin,
    (allPlantData (api w (clock w))) as [snap | ] eqn:Hdata,
    (logoutOk (api w (clock w))) eqn:Hlogout.
  1: destruct snap as [| [pk plant] rest].
  2: destruct (devices plant) as [[| [dk dev] drest] | ] eqn:Hdevs.
  3: destruct (historyLast dev) as [h | ] eqn:Hh.
  3: destruct (deviceData dev) as [dd | ] eqn:Hdd.
  3: { left. exists h, dd. split; [exact Hin | ].
       exists ((pk, plant) :: rest), plant, dev.
       repeat split; try assumption.
       exists pk, rest, dk, drest. split; [reflexivity | exact Hdevs]. }
  all: right; remember (exec runHourlyChecks w) as w' eqn:Hw';
    unfold runHourlyChecks, exec in Hw'; rewrite bind_run in Hw';
    unfold newDate at 1 in Hw';
    cbv beta iota zeta in Hw'; rewrite window_gate, Hin in Hw'; cbn [negb] in Hw';
    unfold tryCatch in Hw'; rewrite bind_run, getGrowattData_now_forced in Hw';
    unfold sessionOutcome, afterSession in Hw';
    rewrite Hlogin, ?Hdata, ?Hlogout in Hw'; cbn [andb] in Hw';
    cbv beta iota zeta in Hw';
    repeat (progress (run_m_in Hw';
                      try change (map fst ((dk, dev) :: drest))
                        with (Object_keys_of ((dk, dev) :: drest)) in Hw';
                      try change (map fst (@nil (string * Device)))
                        with (Object_keys_of (@nil (string * Device))) in Hw';
                      rewrite ?prop_get_first, ?prop_get_nil, ?Hdevs, ?Hh, ?Hdd in Hw'));
    subst w'; cbn [state trace];
    (split; [reflexivity | intros p; rewrite countMsg_app; cbn; lia]).
Qed.

(* ================================================================= *)
(** ** The daily evening check *)
(* ================================================================= *)



Ltac fields :=
  cbn [clock api state apiCache trace config stats status lastReminderDate
       nextMilestoneKwh bestDay lastLivenessAlert lastTempAlert isSystemDown
       outageStartTime urgentAlertSent language cleaningIntervalWeeks tempThreshold
       bestDay_kwh bestDay_date].

Lemma runDailyEveningChecks_reading w pd dd :
  dailyReading w pd dd ->
  let now := clock w + latency (api w (clock w)) in
  runDailyEveningChecks w
  = (Returns tt,
     {| clock := now; api := api w;
        state := stateAfterDaily (state w) now pd dd;
        apiCache := {| data := allPlantData (api w (clock w)); timestamp := now |};
        trace := trace w ++ [ApiLogin; ApiQuery (clock w); ApiLogout]
                 ++ messagesAfterDaily (state w) now pd dd |}).
Proof.
  intros [snap [plant [dev [[Hlogin [Hdata Hlogout]] [Hfirst [Hdd Hpd]]]]]] now.
  destruct Hfirst as [pk [rest [dk [drest [-> Hdevs]]]]].
  unfold runDailyEveningChecks, tryCatch.
  rewrite bind_run, getGrowattData_now_forced.
  unfold sessionOutcome, afterSession.
  rewrite Hlogin, Hdata, Hlogout. cbn [andb]. cbv beta iota zeta.
  rewrite bind_run, prop_get_first. unfold deref at 1. unfold ret at 1.
  cbv beta iota. rewrite Hdevs. run_m.
  change (map fst ((dk, dev) :: drest)) with (Object_keys_of ((dk, dev) :: drest)).
  rewrite prop_get_first, Hdd, Hpd. run_m.
  unfold stateAfterDaily, messagesAfterDaily.
  fold now.
  destruct w as [clk a [c [lrd nm bd lla lta] [down started sent]] cache tr].
  fields. unfold bestDayDue, milestoneDue, cleaningDue. fields.
  destruct (Q_gtb (eToday dd) (orZero (bestDay_kwh bd))); run_m; fields;
    destruct (Q_geb (eTotal pd) (inject_Z nm)); run_m; fields;
    destruct (cleaningIntervalWeeks c * 7 <=? differenceInDays now lrd); run_m; fields;
    rewrite <- ?app_assoc; reflexivity.
Qed.

(** The daily evaluation either gets its figures or changes nothing in the
    bot state and says nothing. *)
Lemma runDailyEveningChecks_cases w :
  (exists pd dd, dailyReading w pd dd)
  \/ (state (exec runDailyEveningChecks w) = state w
      /\ forall p, countMsg p (trace (exec runDailyEveningChecks w)) = countMsg p (trace w)).
Proof.
  destruct (loginOk (api w (clock w))) eqn:Hlogin,
    (allPlantData (api w (clock w))) as [snap | ] eqn:Hdata,
    (logoutOk (api w (clock w))) eqn:Hlogout.
  1: destruct snap as [| [pk plant] rest].
  2: destruct (devices plant) as [[| [dk dev] drest] | ] eqn:Hdevs.
  3: destruct (deviceData dev) as [dd | ] eqn:Hdd.
  3: destruct (plantData plant) as [pd | ] eqn:Hpd.
  3: { left. exists pd, dd, ((pk, plant) :: rest), plant, dev.
       repeat split; try assumption.
       exists pk, rest, dk, drest. split; [reflexivity | exact Hdevs]. }
  all: right; remember (exec runDailyEveningChecks w) as w' eqn:Hw';
    unfold runDailyEveningChecks, exec in Hw';
    unfold tryCatch in Hw'; rewrite bind_run, getGrowattData_now_forced in Hw';
    unfold sessionOutcome, afterSession in Hw';
    rewrite Hlogin, ?Hdata, ?Hlogout in Hw'; cbn [andb] in Hw';
    cbv beta iota zeta in Hw';
    repeat (progress (run_m_in Hw';
                      try change (map fst ((dk, dev) :: drest))
                        with (Object_keys_of ((dk, dev) :: drest)) in Hw';
                      try change (map fst (@nil (string * Device)))
                        with (Object_keys_of (@nil (string * Device))) in Hw';
                      rewrite ?prop_get_first, ?prop_get_nil, ?Hdevs, ?Hdd, ?Hpd in Hw'));
    subst w'; cbn [state trace];
    (split; [reflexivity | intros p; rewrite countMsg_app; cbn; lia]).
Qed.

(* ================================================================= *)
(** ** The hourly check: transitions, window gate, cooldowns *)
(* ================================================================= *)


Lemma hourly_reading_exec w h dd :
  hourlyReading w h dd ->
  let w' := exec runHourlyChecks w in
  clock w' = clock w + latency (api w (clock w))
  /\ state w' = stateAfterReading (state w) (clock w') h dd
  /\ forall p, countMsg p (trace w')
               = (countMsg p (trace w)
                  + countMsg p (messagesAfterReading (state w) (clock w') h dd))%nat.
Proof.
  intros Hr w'. subst w'. unfold exec.
  rewrite (runHourlyChecks_reading w h dd Hr). cbn [snd clock state trace].
  split; [reflexivity | split; [reflexivity | ]].
  intros p. rewrite !countMsg_app. cbn [countMsg]. lia.
Qed.

Lemma count_messagesAfterReading s now h dd :
  countMsg isLivenessAlert (messagesAfterReading s now h dd)
  = (if livenessDue s now dd then 1 else 0)%nat
  /\ countMsg isTempAlert (messagesAfterReading s now h dd)
     = (if tempDue s now h then 1 else 0)%nat
  /\ countMsg isRecovery (messagesAfterReading s now h dd)
     = (if recoveryDue s h then 1 else 0)%nat
  /\ countMsg isOutageAlert (messagesAfterReading s now h dd)
     = (if recoveryDue s h then 0 else if onsetDue s h then 1 else 0)%nat
  /\ countMsg isUrgentAlert (messagesAfterReading s now h dd) = 0%nat.
Proof.
  unfold messagesAfterReading.
  destruct (livenessDue s now dd), (tempDue s now h), (recoveryDue s h), (onsetDue s h);
    repeat split; reflexivity.
Qed.

Lemma Q_gtb_0 x : Q_gtb x 0 = true <-> (0 < x)%Q.
Proof.
  unfold Q_gtb. rewrite negb_true_iff. split.
  - intros H. apply Qnot_le_lt. intros Hle. apply Qle_bool_iff in Hle. congruence.
  - intros H. destruct (Qle_bool x 0) eqn:E; [ | reflexivity].
    apply Qle_bool_iff in E. exfalso. apply (Qlt_not_le _ _ H E).
Qed.

(** C3: on an hourly tick inside the window that gets a reading, power 0
    while Up sets Down with outageStartTime the current time (and sends the
    outage message); power above 0 while Down sets Up and clears
    outageStartTime and urgentAlertSent (and sends the recovery message); at
    most one of the two transitions happens on a tick. *)
Theorem hourly_outage_transitions (w : World) (h : HistoryLast) (dd : DeviceData) :
  hourlyReading w h dd ->
  let s := status (state w) in
  let w' := exec runHourlyChecks w in
  let s' := status (state w') in
  ((pac h == 0)%Q -> isSystemDown s = false ->
     isSystemDown s' = true /\ outageStartTime s' = Some (clock w')
     /\ emittedBy isOutageAlert w w' = 1%nat /\ emittedBy isRecovery w w' = 0%nat)
  /\ ((0 < pac h)%Q -> isSystemDown s = true ->
      isSystemDown s' = false /\ outageStartTime s' = None
      /\ urgentAlertSent s' = false
      /\ emittedBy isRecovery w w' = 1%nat /\ emittedBy isOutageAlert w w' = 0%nat)
  /\ (emittedBy isOutageAlert w w' + emittedBy isRecovery w w' <= 1)%nat.
Proof.
  intros Hr s w' s'.
  destruct (hourly_reading_exec w h dd Hr) as [_ [Hst Hcount]].
  fold w' in Hst, Hcount.
  destruct (count_messagesAfterReading (state w) (clock w') h dd)
    as [_ [_ [Hrec [Hout _]]]].
  assert (emittedBy isOutageAlert w w'
          = if recoveryDue (state w) h then 0%nat
            else if onsetDue (state w) h then 1%nat else 0%nat) as Eo.
  { unfold emittedBy. rewrite Hcount, Hout. lia. }
  assert (emittedBy isRecovery w w' = if recoveryDue (state w) h then 1%nat else 0%nat) as Er.
  { unfold emittedBy. rewrite Hcount, Hrec. lia. }
  assert (s' = if recoveryDue (state w) h then clearedStatus
               else if onsetDue (state w) h then
                      {| isSystemDown := true; outageStartTime := Some (clock w');
                         urgentAlertSent := urgentAlertSent s |}
                    else s) as Es.
  { unfold s'. rewrite Hst. reflexivity. }
  rewrite Eo, Er, Es. unfold recoveryDue, onsetDue. fold s.
  split; [ | split].
  - intros Hp Hup. rewrite Hup, andb_false_r.
    apply Qeq_bool_iff in Hp. rewrite Hp. cbn. repeat split; reflexivity.
  - intros Hp Hdown. rewrite Hdown.
    apply Q_gtb_0 in Hp. rewrite Hp. cbn. repeat split; reflexivity.
  - destruct (Q_gtb (pac h) 0 && isSystemDown s),
      (Qeq_bool (pac h) 0 && negb (isSystemDown s)); cbn; lia.
Qed.

(** C5: on an hourly tick outside the window nothing is fetched and nothing
    is said; the system is never marked down, whatever the API would have
    answered; a Down flag is reset together with outageStartTime and
    urgentAlertSent; configuration, statistics, cache and clock are left
    alone. *)
Theorem hourly_outside_window (w : World) :
  insideWindow (clock w) = false ->
  let w' := exec runHourlyChecks w in
  result runHourlyChecks w = Returns tt
  /\ status (state w')
     = (if isSystemDown (status (state w)) then clearedStatus else status (state w))
  /\ isSystemDown (status (state w')) = false
  /\ (isSystemDown (status (state w)) = true ->
      outageStartTime (status (state w')) = None
      /\ urgentAlertSent (status (state w')) = false)
  /\ (forall p, emittedBy p w w' = 0%nat)
  /\ countApi (trace w') = countApi (trace w)
  /\ config (state w') = config (state w)
  /\ stats (state w') = stats (state w)
  /\ apiCache w' = apiCache w
  /\ clock w' = clock w.
Proof.
  intros Hout w'. subst w'. unfold exec, result, emittedBy.
  rewrite (runHourlyChecks_outside w Hout). cbn [fst snd].
  destruct (isSystemDown (status (state w))) eqn:Hdown; unfold afterReset;
    cbn [state status trace config stats apiCache clock isSystemDown
         outageStartTime urgentAlertSent clearedStatus];
    repeat split; try reflexivity; try assumption; try discriminate.
  - intros p. rewrite countMsg_app. cbn. lia.
  - rewrite countApi_app. cbn. lia.
  - intros p. lia.
Qed.



(* ================================================================= *)
(** ** What one firing does to the outage status *)
(* ================================================================= *)

Lemma count_messagesAfterDaily s now pd dd :
  countMsg isUrgentAlert (messagesAfterDaily s now pd dd) = 0%nat
  /\ countMsg isMilestone (messagesAfterDaily s now pd dd)
     = (if milestoneDue s pd then 1 else 0)%nat.
Proof.
  unfold messagesAfterDaily.
  destruct (bestDayDue s dd), (milestoneDue s pd), (cleaningDue s now);
    split; reflexivity.
Qed.

Lemma daily_reading_exec w pd dd :
  dailyReading w pd dd ->
  let w' := exec runDailyEveningChecks w in
  clock w' = clock w + latency (api w (clock w))
  /\ state w' = stateAfterDaily (state w) (clock w') pd dd
  /\ forall p, countMsg p (trace w')
               = (countMsg p (trace w)
                  + countMsg p (messagesAfterDaily (state w) (clock w') pd dd))%nat.
Proof.
  intros Hr w'. subst w'. unfold exec.
  rewrite (runDailyEveningChecks_reading w pd dd Hr). cbn [snd clock state trace].
  split; [reflexivity | split; [reflexivity | ]].
  intros p. rewrite !countMsg_app. cbn [countMsg]. lia.
Qed.

Lemma daily_keeps_status w :
  status (state (exec runDailyEveningChecks w)) = status (state w)
  /\ countMsg isUrgentAlert (trace (exec runDailyEveningChecks w))
     = countMsg isUrgentAlert (trace w).
Proof.
  destruct (runDailyEveningChecks_cases w) as [[pd [dd Hr]] | [Hst Hc]].
  - destruct (daily_reading_exec w pd dd Hr) as [_ [Hst Hc]].
    rewrite Hst, Hc.
    destruct (count_messagesAfterDaily (state w)
                (clock (exec runDailyEveningChecks w)) pd dd) as [-> _].
    split; [reflexivity | lia].
  - rewrite Hst, Hc. split; reflexivity.
Qed.

(** An hourly tick never escalates, and does one of three things to the
    status: nothing, the reset to Up (outside the window, or with a recovery
    message), or the onset of an outage stamped with the current time. *)
Lemma hourly_status_cases w :
  let w' := exec runHourlyChecks w in
  let s := status (state w) in
  let s' := status (state w') in
  countMsg isUrgentAlert (trace w') = countMsg isUrgentAlert (trace w)
  /\ (s' = s
      \/ (isSystemDown s = true /\ s' = clearedStatus
          /\ (insideWindow (clock w) = false \/ emittedBy isRecovery w w' = 1%nat))
      \/ (isSystemDown s = false
          /\ s' = {| isSystemDown := true; outageStartTime := Some (clock w');
                     urgentAlertSent := urgentAlertSent s |})).
Proof.
  intros w' s s'. subst w' s s'.
  destruct (insideWindow (clock w)) eqn:Hwin.
  - destruct (runHourlyChecks_inside w Hwin) as [[h [dd Hr]] | [Hst Hc]].
    + destruct (hourly_reading_exec w h dd Hr) as [_ [Hst Hc]].
      destruct (count_messagesAfterReading (state w)
                  (clock (exec runHourlyChecks w)) h dd) as [_ [_ [Hrec [_ Hurg]]]].
      split; [rewrite Hc, Hurg; lia | ].
      rewrite Hst. cbn [stateAfterReading status]. unfold emittedBy.
      rewrite Hc, Hrec. unfold recoveryDue, onsetDue.
      destruct (Q_gtb (pac h) 0), (Qeq_bool (pac h) 0),
        (isSystemDown (status (state w))); cbn [andb negb];
        solve [ left; reflexivity
              | right; left; split; [reflexivity | split; [reflexivity | right; lia]]
              | right; right; split; reflexivity ].
    + rewrite Hst, Hc. split; [reflexivity | left; reflexivity].
  - unfold exec. rewrite (runHourlyChecks_outside w Hwin). cbn [snd].
    destruct (isSystemDown (status (state w))) eqn:Hdown.
    + unfold afterReset. cbn [trace state status]. split.
      * rewrite countMsg_app. cbn. lia.
      * right; left. split; [reflexivity | split; [reflexivity | left; reflexivity]].
    + split; [reflexivity | left; reflexivity].
Qed.

(** One firing of any scheduled task, seen from the outage status. *)
Lemma step_status_cases k w :
  let w0 := setClock (firedAt k) w in
  let w' := step k w in
  let s := status (state w) in
  let s' := status (state w') in
  (handler k = Urgent /\ escalationDue s (firedAt k) = true
   /\ w' = escalated w0)
  \/ (countMsg isUrgentAlert (trace w') = countMsg isUrgentAlert (trace w)
      /\ (s' = s
          \/ (handler k = Hourly /\ isSystemDown s = true /\ s' = clearedStatus
              /\ (insideWindow (firedAt k) = false \/ emittedBy isRecovery w0 w' = 1%nat))
          \/ (handler k = Hourly /\ isSystemDown s = false
              /\ s' = {| isSystemDown := true; outageStartTime := Some (clock w');
                         urgentAlertSent := urgentAlertSent s |}))).
Proof.
  intros w0 w' s s'. subst w0 w' s s'. unfold step.
  destruct k as [[ | | ] t]; cbn [handler firedAt handle].
  - right. pose proof (hourly_status_cases (setClock t w)) as [Hc Hs].
    cbn zeta in Hc, Hs. cbn [setClock state trace clock] in Hc, Hs.
    split; [exact Hc | ].
    destruct Hs as [Hs | [[Hd [Hs Hw]] | [Hd Hs]]].
    + left; exact Hs.
    + right; left. repeat split; assumption.
    + right; right. repeat split; assumption.
  - unfold exec. rewrite checkUrgentConditions_run. cbn [snd setClock state clock].
    destruct (escalationDue (status (state w)) t) eqn:Hdue.
    + left. repeat split.
    + right. split; [reflexivity | left; reflexivity].
  - right. pose proof (daily_keeps_status (setClock t w)) as [Hs Hc].
    cbn [setClock state trace] in Hs, Hc.
    split; [exact Hc | left; exact Hs].
Qed.

(* ================================================================= *)
(** ** The outage status along runs *)
(* ================================================================= *)

Lemma escalationDue_true s now :
  escalationDue s now = true ->
  isSystemDown s = true /\ urgentAlertSent s = false
  /\ exists started, outageStartTime s = Some started
                     /\ URGENT_ALERT_DELAY_MINUTES * msPerMinute <= now - started.
Proof.
  unfold escalationDue. intros H.
  apply andb_true_iff in H. destruct H as [H Hs].
  apply andb_true_iff in H. destruct H as [Hd Hu].
  apply negb_true_iff in Hu.
  destruct (outageStartTime s) as [started | ]; [ | discriminate].
  apply Z.leb_le in Hs. split; [exact Hd | split; [exact Hu | ]].
  exists started. split; [reflexivity | exact Hs].
Qed.

Lemma step_preserves_invariant w sentAt k :
  statusInvariant (status (state w)) sentAt ->
  statusInvariant (status (state (step k w))) (trackSentAt w (step k w) sentAt).
Proof.
  intros [Hstart Hsent].
  destruct (step_status_cases k w) as [[_ [Hdue Hw']] | [_ [Hs | [Hs | Hs]]]];
    cbn zeta in *.
  - destruct (escalationDue_true _ _ Hdue) as [Hd [Hu [started [Hst Hge]]]].
    unfold trackSentAt. rewrite Hw'.
    cbn [escalated state status clock setClock isSystemDown outageStartTime
         urgentAlertSent].
    rewrite Hu. cbn [negb andb]. split.
    + exact Hstart.
    + intros _. split; [exact Hd | ].
      exists started, (firedAt k). repeat split; assumption.
  - unfold trackSentAt. rewrite Hs, andb_negb_l. split; assumption.
  - destruct Hs as [_ [_ [Hs _]]]. unfold trackSentAt. rewrite Hs.
    cbn [clearedStatus urgentAlertSent isSystemDown outageStartTime].
    rewrite andb_false_r. split.
    + split; [intros H; now elim H | discriminate].
    + discriminate.
  - destruct Hs as [_ [Hup Hs]]. unfold trackSentAt. rewrite Hs.
    cbn [urgentAlertSent isSystemDown outageStartTime].
    destruct (urgentAlertSent (status (state w))) eqn:Hu.
    + destruct (Hsent eq_refl) as [Hd _]. congruence.
    + cbn [negb andb]. split.
      * split; [reflexivity | discriminate].
      * discriminate.
Qed.

(** C4: the status invariant (outageStartTime is set exactly when the
    system is down; urgentAlertSent only when the system is down and the flag
    was set at least 15 minutes after outageStartTime) holds for the default
    state, is preserved by every firing of the hourly check (inside or outside
    the window), of the per-minute urgent check and of the daily check, at any
    clock and whatever the API answers, and so holds along every run. *)
Theorem status_invariant_preserved :
  statusInvariant (status (loadState None)) None
  /\ (forall (w : World) (sentAt : option Time) (k : Tick),
        statusInvariant (status (state w)) sentAt ->
        statusInvariant (status (state (step k w))) (trackSentAt w (step k w) sentAt))
  /\ (forall (ticks : list Tick) (w : World) (sentAt : option Time),
        statusInvariant (status (state w)) sentAt ->
        statusInvariant (status (state (fst (runTracked ticks w sentAt))))
          (snd (runTracked ticks w sentAt))).
Proof.
  split; [ | split].
  - cbn. split.
    + split; [intros H; now elim H | discriminate].
    + discriminate.
  - exact step_preserves_invariant.
  - induction ticks as [| k ticks IH]; intros w sentAt Hinv; [exact Hinv | ].
    cbn [runTracked]. apply IH, step_preserves_invariant, Hinv.
Qed.

(** While urgentAlertSent stays set no escalation is sent: a further
    escalation in a run is preceded by an hourly tick that cleared the
    status. *)
Lemma no_second_escalation ticks :
  forall w,
    urgentAlertSent (status (state w)) = true ->
    (countMsg isUrgentAlert (trace w)
     < countMsg isUrgentAlert (trace (runTicks ticks w)))%nat ->
    exists before k after,
      ticks = before ++ k :: after
      /\ handler k = Hourly
      /\ (let wk := setClock (firedAt k) (runTicks before w) in
          let wk' := step k (runTicks before w) in
          urgentAlertSent (status (state wk)) = true
          /\ countMsg isUrgentAlert (trace wk) = countMsg isUrgentAlert (trace w)
          /\ status (state wk') = clearedStatus
          /\ (insideWindow (firedAt k) = false \/ emittedBy isRecovery wk wk' = 1%nat)).
Proof.
  induction ticks as [| k ticks IH]; intros w Hsent Hmore; cbn [runTicks] in Hmore.
  - lia.
  - destruct (step_status_cases k w) as [[_ [Hdue _]] | [Hc Hs]]; cbn zeta in *.
    + destruct (escalationDue_true _ _ Hdue) as [_ [Hu _]]. congruence.
    + assert (urgentAlertSent (status (state (step k w))) = true
              \/ (handler k = Hourly /\ status (state (step k w)) = clearedStatus
                  /\ (insideWindow (firedAt k) = false
                      \/ emittedBy isRecovery (setClock (firedAt k) w) (step k w) = 1%nat)))
        as [Hstill | [Hh [Hcl Hwhy]]].
      { destruct Hs as [Hs | [[Hh [_ [Hs Hwhy]]] | [_ [Hup Hs]]]].
        - left. now rewrite Hs.
        - right. repeat split; assumption.
        - left. rewrite Hs. exact Hsent. }
      * destruct (IH (step k w) Hstill ltac:(lia))
          as [before [k' [after [-> [Hh [Hs' [Hc' [Hcl Hwhy]]]]]]]].
        exists (k :: before), k', after. cbn [app runTicks].
        repeat split; try assumption. cbn [setClock trace] in *. lia.
      * exists [], k, ticks. cbn [app runTicks setClock state trace].
        repeat split; assumption.
Qed.

(** C1: the per-minute check escalates exactly when the escalation is due
    (down, not yet escalated, at least 15 minutes since outageStartTime): it
    then sends the urgent alert once and sets urgentAlertSent, and otherwise
    leaves the world untouched.  So nothing is sent before 15 minutes have
    elapsed, nothing once urgentAlertSent is set, and in any run of scheduled
    tasks a further escalation comes only after an hourly tick has cleared
    the status, by a recovery or by the out-of-window reset. *)
Theorem urgent_escalation_exactly_when_due (w : World) :
  let s := status (state w) in
  let w' := exec checkUrgentConditions w in
  (escalationDue s (clock w) = true ->
     emittedBy isUrgentAlert w w' = 1%nat
     /\ trace w' = trace w ++ [SendMessage (language (config (state w)))
                                 (URGENT_ALERT_MESSAGE URGENT_ALERT_DELAY_MINUTES);
                               SaveState]
     /\ status (state w')
        = {| isSystemDown := true; outageStartTime := outageStartTime s;
             urgentAlertSent := true |})
  /\ (escalationDue s (clock w) = false -> w' = w)
  /\ (forall started,
        outageStartTime s = Some started ->
        clock w - started < URGENT_ALERT_DELAY_MINUTES * msPerMinute -> w' = w)
  /\ (urgentAlertSent s = true -> w' = w)
  /\ (forall ticks,
        urgentAlertSent s = true ->
        (countMsg isUrgentAlert (trace w)
         < countMsg isUrgentAlert (trace (runTicks ticks w)))%nat ->
        exists before k after,
          ticks = before ++ k :: after
          /\ handler k = Hourly
          /\ (let wk := setClock (firedAt k) (runTicks before w) in
              let wk' := step k (runTicks before w) in
              urgentAlertSent (status (state wk)) = true
              /\ countMsg isUrgentAlert (trace wk) = countMsg isUrgentAlert (trace w)
              /\ status (state wk') = clearedStatus
              /\ (insideWindow (firedAt k) = false
                  \/ emittedBy isRecovery wk wk' = 1%nat))).
Proof.
  intros s w'. subst s w'. unfold exec. rewrite checkUrgentConditions_run.
  cbn [snd]. split; [ | split; [ | split; [ | split]]].
  - intros Hdue. rewrite Hdue.
    destruct (escalationDue_true _ _ Hdue) as [Hd _].
    unfold emittedBy, escalated. cbn [trace state status]. rewrite Hd.
    split; [ | split; reflexivity].
    rewrite countMsg_app. cbn. lia.
  - intros Hdue. now rewrite Hdue.
  - intros started Hst Hearly.
    assert (escalationDue (status (state w)) (clock w) = false) as ->; [ | reflexivity].
    unfold escalationDue. rewrite Hst.
    destruct (Z.leb_spec (URGENT_ALERT_DELAY_MINUTES * msPerMinute) (clock w - started));
      [lia | apply andb_false_r].
  - intros Hsent.
    assert (escalationDue (status (state w)) (clock w) = false) as ->; [ | reflexivity].
    unfold escalationDue. rewrite Hsent. cbn [negb]. now rewrite andb_false_r.
  - intros ticks Hsent Hmore. exact (no_second_escalation ticks w Hsent Hmore).
Qed.

(* ================================================================= *)
(** ** The telemetry cache *)
(* ================================================================= *)

Lemma getGrowattData_run forceNew date w :
  getGrowattData forceNew date w
  = match cacheHit forceNew (isTodayIn w date) (apiCache w) (clock w) with
    | Some d => (Returns d, w)
    | None => (sessionOutcome (api w date) (language (config (state w))),
               afterSession w date (isTodayIn w date))
    end.
Proof.
  destruct forceNew; [rewrite getGrowattData_forced; reflexivity | ].
  unfold getGrowattData, cacheHit, isTodayIn, sessionOutcome, afterSession. run_m.
  destruct (ymd_eqb (format_yyyy_MM_dd date) (format_yyyy_MM_dd (clock w))) eqn:Htoday;
    [destruct (data (apiCache w)) as [d | ];
     [destruct (clock w - timestamp (apiCache w) <? CACHE_FRESH_MS) | ] | ];
    run_m; try reflexivity;
    (destruct (loginOk (api w date)); cbn [andb]; run_m; [ | reflexivity];
     destruct (allPlantData (api w date)) as [d' | ]; run_m;
     rewrite <- ?app_assoc; cbn [app];
     destruct (logoutOk (api w date)); run_m; reflexivity).
Qed.

Lemma session_throws r lang e :
  sessionOutcome r lang = Throws e ->
  e = ERROR_API_CONNECTION lang
  /\ (loginOk r && logoutOk r = false \/ allPlantData r = None).
Proof.
  unfold sessionOutcome.
  destruct (loginOk r && logoutOk r); [destruct (allPlantData r) | ];
    intros H; inversion H; split; auto.
Qed.

Lemma afterSession_failed w date b :
  loginOk (api w date) && logoutOk (api w date) = false
  \/ allPlantData (api w date) = None ->
  apiCache (afterSession w date b) = apiCache w.
Proof.
  unfold afterSession. cbv zeta.
  destruct (loginOk (api w date)), (allPlantData (api w date)),
    (logoutOk (api w date)); cbn [andb]; intros [H | H]; try discriminate; reflexivity.
Qed.

Lemma live_fetch_misses w forceNew date :
  forceNew = true \/ isTodayIn w date = false \/ data (apiCache w) = None
  \/ CACHE_FRESH_MS <= clock w - timestamp (apiCache w) ->
  cacheHit forceNew (isTodayIn w date) (apiCache w) (clock w) = None.
Proof.
  unfold cacheHit. intros [-> | [-> | [-> | Hold]]].
  - reflexivity.
  - now rewrite andb_false_r.
  - destruct (negb forceNew && isTodayIn w date); reflexivity.
  - destruct (negb forceNew && isTodayIn w date); [ | reflexivity].
    destruct (data (apiCache w)); [ | reflexivity].
    destruct (Z.ltb_spec (clock w - timestamp (apiCache w)) CACHE_FRESH_MS);
      [lia | reflexivity].
Qed.

(** C7: a fetch that is not forced, for today, with a snapshot in the cache
    stamped less than 120 seconds ago returns that snapshot and touches
    nothing (no API call, same cache).  Every other fetch goes to the API:
    it logs in, queries and logs out, stopping at the first call that fails;
    if any of the three fails the fetch throws the connectivity error and
    leaves the cache entry as it was, and if all three succeed it returns
    the snapshot delivered and stores it, stamped with the current time,
    exactly when the date asked for was today.  A fetch that throws throws
    the connectivity error with the cache entry kept, so that a later fetch
    for which that entry is still fresh is answered from it.  The cache
    changes only when a live session succeeded and the date asked for was
    today. *)
Theorem telemetry_cache (w : World) (forceNew : bool) (date : Time) :
  let w' := exec (getGrowattData forceNew date) w in
  (forall snap,
      forceNew = false -> isTodayIn w date = true ->
      data (apiCache w) = Some snap ->
      clock w - timestamp (apiCache w) < CACHE_FRESH_MS ->
      getGrowattData forceNew date w = (Returns snap, w))
  /\ (forall e,
        result (getGrowattData forceNew date) w = Throws e ->
        e = ERROR_API_CONNECTION (language (config (state w)))
        /\ apiCache w' = apiCache w
        /\ forall snap date2 w2,
            data (apiCache w) = Some snap ->
            apiCache w2 = apiCache w' ->
            isTodayIn w2 date2 = true ->
            clock w2 - timestamp (apiCache w2) < CACHE_FRESH_MS ->
            getGrowattData false date2 w2 = (Returns snap, w2))
  /\ (apiCache w' <> apiCache w ->
      exists snap,
        result (getGrowattData forceNew date) w = Returns snap
        /\ isTodayIn w date = true
        /\ apiCache w' = {| data := Some snap; timestamp := clock w' |}
        /\ countApi (trace w') = (countApi (trace w) + 3)%nat)
  /\ (forceNew = true \/ isTodayIn w date = false \/ data (apiCache w) = None
      \/ CACHE_FRESH_MS <= clock w - timestamp (apiCache w) ->
      let r := api w date in
      trace w' = trace w ++ sessionTrace r date
      /\ (loginOk r = false \/ allPlantData r = None \/ logoutOk r = false ->
          result (getGrowattData forceNew date) w
          = Throws (ERROR_API_CONNECTION (language (config (state w))))
          /\ apiCache w' = apiCache w)
      /\ (forall snap,
            loginOk r = true -> allPlantData r = Some snap -> logoutOk r = true ->
            result (getGrowattData forceNew date) w = Returns snap
            /\ apiCache w'
               = if isTodayIn w date
                 then {| data := Some snap; timestamp := clock w' |}
                 else apiCache w)).
Proof.
  intros w'. subst w'.
  assert (forall snap w0 date0,
             isTodayIn w0 date0 = true -> data (apiCache w0) = Some snap ->
             clock w0 - timestamp (apiCache w0) < CACHE_FRESH_MS ->
             getGrowattData false date0 w0 = (Returns snap, w0)) as Hhit.
  { intros snap w0 date0 Htoday Hdata Hfresh.
    rewrite getGrowattData_run. unfold cacheHit.
    rewrite Htoday, Hdata. cbn [negb andb].
    destruct (Z.ltb_spec (clock w0 - timestamp (apiCache w0)) CACHE_FRESH_MS);
      [reflexivity | lia]. }
  split; [ | split; [ | split]].
  - intros snap -> Htoday Hdata Hfresh. apply Hhit; assumption.
  - intros e. unfold result, exec. rewrite getGrowattData_run.
    destruct (cacheHit forceNew (isTodayIn w date) (apiCache w) (clock w));
      cbn [fst snd]; [discriminate | ].
    intros Hthrow. apply session_throws in Hthrow. destruct Hthrow as [-> Hfail].
    pose proof (afterSession_failed w date (isTodayIn w date) Hfail) as Hsame.
    split; [reflexivity | split; [exact Hsame | ]].
    intros snap date2 w2 Hdata Hcache Htoday Hfresh.
    apply Hhit; [exact Htoday | | exact Hfresh].
    rewrite Hcache, Hsame. exact Hdata.
  - unfold result, exec. rewrite getGrowattData_run.
    destruct (cacheHit forceNew (isTodayIn w date) (apiCache w) (clock w));
      cbn [fst snd]; [intros H; now elim H | ].
    unfold sessionOutcome, afterSession. cbv zeta.
    destruct (loginOk (api w date)), (allPlantData (api w date)) as [snap | ],
      (logoutOk (api w date)); cbn [andb apiCache]; try (intros H; now elim H).
    destruct (isTodayIn w date); [ | intros H; now elim H].
    intros _. exists snap. cbn [clock trace]. repeat split.
    rewrite countApi_app. cbn. lia.
  - intros Hlive. cbv zeta. unfold result, exec.
    rewrite getGrowattData_run, (live_fetch_misses w forceNew date Hlive).
    cbn [fst snd]. unfold sessionOutcome, afterSession, sessionTrace. cbv zeta.
    split; [ | split].
    + destruct (loginOk (api w date)), (allPlantData (api w date)),
        (logoutOk (api w date)); reflexivity.
    + intros Hfail.
      destruct (loginOk (api w date)), (allPlantData (api w date)),
        (logoutOk (api w date)); cbn [andb];
        destruct Hfail as [H | [H | H]]; try discriminate H; split; reflexivity.
    + intros snap -> -> ->. cbn [andb].
      destruct (isTodayIn w date); split; reflexivity.
Qed.

(* ================================================================= *)
(** ** Milestones *)
(* ================================================================= *)

(** The next multiple of the step strictly above the total. *)
Lemma next_milestone_bracket (x : Q) :
  let next := Qfloor (x / inject_Z MILESTONE_STEP_KWH) * MILESTONE_STEP_KWH
              + MILESTONE_STEP_KWH in
  (x < inject_Z next)%Q /\ (inject_Z next <= x + inject_Z MILESTONE_STEP_KWH)%Q
  /\ next mod MILESTONE_STEP_KWH = 0.
Proof.
  unfold MILESTONE_STEP_KWH. cbv zeta.
  set (y := (x / inject_Z 1000)%Q).
  assert (x == y * inject_Z 1000)%Q as Hx.
  { unfold y. field; discriminate. }
  pose proof (Qfloor_le y) as Hlo. pose proof (Qlt_floor y) as Hhi.
  rewrite inject_Z_plus in Hhi.
  rewrite inject_Z_plus, inject_Z_mult.
  change (inject_Z 1) with 1%Q in Hhi.
  change (inject_Z 1000) with 1000%Q in *.
  repeat split.
  - rewrite Hx. lra.
  - rewrite Hx. lra.
  - rewrite <- Z.mul_succ_l. apply Z.mod_mul. discriminate.
Qed.

Lemma count_milestoneAt_daily s now pd dd m :
  countMsg (isMilestoneAt m) (messagesAfterDaily s now pd dd)
  = (if milestoneDue s pd && (nextMilestoneKwh (stats s) =? m)%Z then 1 else 0)%nat.
Proof.
  unfold messagesAfterDaily.
  destruct (bestDayDue s dd), (milestoneDue s pd), (cleaningDue s now);
    cbn [app countMsg isMilestoneAt andb];
    destruct (nextMilestoneKwh (stats s) =? m); reflexivity.
Qed.

Lemma count_milestoneAt_hourly s now h dd m :
  countMsg (isMilestoneAt m) (messagesAfterReading s now h dd) = 0%nat.
Proof.
  unfold messagesAfterReading.
  destruct (livenessDue s now dd), (tempDue s now h), (recoveryDue s h), (onsetDue s h);
    reflexivity.
Qed.

Lemma milestoneDue_true s pd :
  milestoneDue s pd = true <-> (inject_Z (nextMilestoneKwh (stats s)) <= eTotal pd)%Q.
Proof. unfold milestoneDue, Q_geb. apply Qle_bool_iff. Qed.

(** One firing of any task, seen from the milestone: either nothing is
    announced and the threshold stays, or the current threshold is announced
    once and replaced by a larger one. *)
Lemma step_milestone k w :
  let next := nextMilestoneKwh (stats (state w)) in
  let w' := step k w in
  let next' := nextMilestoneKwh (stats (state w')) in
  (next' = next
   /\ forall m, countMsg (isMilestoneAt m) (trace w') = countMsg (isMilestoneAt m) (trace w))
  \/ (next < next'
      /\ forall m, countMsg (isMilestoneAt m) (trace w')
                   = (countMsg (isMilestoneAt m) (trace w)
                      + if (next =? m)%Z then 1 else 0)%nat).
Proof.
  intros next w' next'. subst next w' next'. unfold step.
  destruct k as [[ | | ] t]; cbn [handler firedAt handle].
  - left. destruct (insideWindow t) eqn:Hwin.
    + destruct (runHourlyChecks_inside (setClock t w) Hwin)
        as [[h [dd Hr]] | [Hst Hc]].
      * destruct (hourly_reading_exec _ h dd Hr) as [_ [Hst Hc]].
        rewrite Hst. split; [reflexivity | ].
        intros m. rewrite Hc, count_milestoneAt_hourly. cbn [setClock trace]. lia.
      * rewrite Hst. split; [reflexivity | ]. intros m. now rewrite Hc.
    + unfold exec. rewrite (runHourlyChecks_outside (setClock t w) Hwin).
      cbn [snd setClock state]. destruct (isSystemDown (status (state w))).
      * unfold afterReset. cbn [state stats trace setClock]. split; [reflexivity | ].
        intros m. rewrite countMsg_app. cbn. lia.
      * split; reflexivity.
  - left. unfold exec. rewrite checkUrgentConditions_run. cbn [snd].
    destruct (escalationDue _ _).
    + unfold escalated. cbn [state stats trace setClock]. split; [reflexivity | ].
      intros m. rewrite countMsg_app. cbn. lia.
    + split; reflexivity.
  - destruct (runDailyEveningChecks_cases (setClock t w)) as [[pd [dd Hr]] | [Hst Hc]].
    + destruct (daily_reading_exec _ pd dd Hr) as [_ [Hst Hc]].
      rewrite Hst. cbn [stateAfterDaily stats nextMilestoneKwh setClock state trace] in *.
      destruct (milestoneDue (state w) pd) eqn:Hdue.
      * right. split.
        -- apply milestoneDue_true in Hdue.
           destruct (next_milestone_bracket (eTotal pd)) as [Hlt _].
           cbv zeta in Hlt. rewrite Zlt_Qlt.
           eapply Qle_lt_trans; [exact Hdue | exact Hlt].
        -- intros m. rewrite Hc, count_milestoneAt_daily. cbn [setClock state].
           rewrite Hdue. reflexivity.
      * left. split; [reflexivity | ].
        intros m. rewrite Hc, count_milestoneAt_daily. cbn [setClock state].
        rewrite Hdue. cbn [andb]. lia.
    + left. rewrite Hst. split; [reflexivity | ]. intros m. now rewrite Hc.
Qed.

(** Along any run the threshold never decreases, a threshold below the
    current one is never announced, and no threshold is announced twice. *)
Lemma run_milestones ticks :
  forall w m,
    let announced := (countMsg (isMilestoneAt m) (trace (runTicks ticks w))
                      - countMsg (isMilestoneAt m) (trace w))%nat in
    nextMilestoneKwh (stats (state w))
    <= nextMilestoneKwh (stats (state (runTicks ticks w)))
    /\ (countMsg (isMilestoneAt m) (trace w)
        <= countMsg (isMilestoneAt m) (trace (runTicks ticks w)))%nat
    /\ (m < nextMilestoneKwh (stats (state w)) -> announced = 0%nat)
    /\ (announced <= 1)%nat.
Proof.
  induction ticks as [| k ticks IH]; intros w m; cbn [runTicks]; cbv zeta.
  - repeat split; lia.
  - destruct (IH (step k w) m) as [Hmono [Hgrow [Hbelow Hone]]]. cbv zeta in *.
    destruct (step_milestone k w) as [[Hn Hc] | [Hn Hc]]; cbv zeta in *;
      specialize (Hc m).
    + rewrite <- Hn, <- Hc.
      exact (conj Hmono (conj Hgrow (conj Hbelow Hone))).
    + revert Hc.
      destruct (Z.eqb_spec (nextMilestoneKwh (stats (state w))) m) as [Heq | Hne];
        intros Hc.
      * specialize (Hbelow ltac:(lia)).
        split; [lia | split; [lia | split; [intros Hlt; lia | lia]]].
      * split; [lia | split; [lia | split; [ | lia]]].
        intros Hlt. specialize (Hbelow ltac:(lia)). lia.
Qed.

(** C8: with nextMilestoneKwh = 1000 and the lifetime total going from 950
    to 1050 kWh between two daily evaluations, exactly one milestone alert is
    sent over the two and nextMilestoneKwh becomes 2000.  In general a daily
    evaluation whose total has reached nextMilestoneKwh sends one milestone
    alert (for that threshold) and moves nextMilestoneKwh to the next multiple
    of 1000 above the total, which is larger than the old threshold; an
    evaluation below the threshold sends none and keeps it.  Along any run of
    scheduled tasks the threshold never decreases and no threshold is
    announced twice. *)
Theorem milestone_fires_once :
  (let w0 := worldAt evening1 crossingApi (loadState None) in
   let w2 := runTicks [ {| handler := Daily; firedAt := evening1 |};
                        {| handler := Daily; firedAt := evening2 |} ] w0 in
   nextMilestoneKwh (stats (state w0)) = 1000
   /\ emittedBy isMilestone w0 w2 = 1%nat
   /\ emittedBy (isMilestoneAt 1000) w0 w2 = 1%nat
   /\ nextMilestoneKwh (stats (state w2)) = 2000)
  /\ (forall (w : World) (pd : PlantData) (dd : DeviceData),
        dailyReading w pd dd ->
        let next := nextMilestoneKwh (stats (state w)) in
        let w' := exec runDailyEveningChecks w in
        let next' := nextMilestoneKwh (stats (state w')) in
        ((inject_Z next <= eTotal pd)%Q ->
           emittedBy isMilestone w w' = 1%nat
           /\ emittedBy (isMilestoneAt next) w w' = 1%nat
           /\ next' = Qfloor (eTotal pd / inject_Z MILESTONE_STEP_KWH)
                      * MILESTONE_STEP_KWH + MILESTONE_STEP_KWH
           /\ (eTotal pd < inject_Z next')%Q
           /\ (inject_Z next' <= eTotal pd + inject_Z MILESTONE_STEP_KWH)%Q
           /\ next' mod MILESTONE_STEP_KWH = 0
           /\ next < next')
        /\ ((eTotal pd < inject_Z next)%Q ->
            emittedBy isMilestone w w' = 0%nat /\ next' = next))
  /\ (forall (ticks : list Tick) (w : World) (m : Z),
        nextMilestoneKwh (stats (state w))
        <= nextMilestoneKwh (stats (state (runTicks ticks w)))
        /\ (emittedBy (isMilestoneAt m) w (runTicks ticks w) <= 1)%nat).
Proof.
  split; [ | split].
  - vm_compute. repeat split; reflexivity.
  - intros w pd dd Hr next w' next'. subst next w' next'.
    destruct (daily_reading_exec w pd dd Hr) as [_ [Hst Hc]].
    destruct (count_messagesAfterDaily (state w)
                (clock (exec runDailyEveningChecks w)) pd dd) as [_ Hmile].
    pose proof (count_milestoneAt_daily (state w)
                  (clock (exec runDailyEveningChecks w)) pd dd
                  (nextMilestoneKwh (stats (state w)))) as Hat.
    unfold emittedBy. rewrite !Hc, Hmile, Hat, Hst, Z.eqb_refl, andb_true_r.
    cbn [stateAfterDaily stats nextMilestoneKwh].
    destruct (next_milestone_bracket (eTotal pd)) as [Hlt [Hle Hmod]].
    cbv zeta in Hlt, Hle, Hmod.
    split.
    + intros Hreach. pose proof Hreach as Hdue. apply milestoneDue_true in Hdue.
      rewrite Hdue. repeat split; try lia; try assumption.
      rewrite Zlt_Qlt. eapply Qle_lt_trans; [exact Hreach | exact Hlt].
    + intros Hbelow.
      destruct (milestoneDue (state w) pd) eqn:Hdue.
      * apply milestoneDue_true in Hdue. exfalso.
        exact (Qlt_not_le _ _ Hbelow Hdue).
      * split; [lia | reflexivity].
  - intros ticks w m. destruct (run_milestones ticks w m) as [Hmono [_ [_ Hone]]].
    split; [exact Hmono | exact Hone].
Qed.

(* ================================================================= *)
(** ** Day totals and absent data *)
(* ================================================================= *)

(** The day total of a snapshot whose session succeeds, case by case. *)
Lemma getPeriodTotal_day_cases date w snap :
  loginOk (api w date) = true -> allPlantData (api w date) = Some snap ->
  logoutOk (api w date) = true ->
  (snap = [] -> result (getPeriodTotal date day) w = Returns 0%Q)
  /\ (forall pk plant rest,
        snap = (pk, plant) :: rest ->
        (devices plant = None -> result (getPeriodTotal date day) w = Throws TypeError)
        /\ (devices plant = Some [] -> result (getPeriodTotal date day) w = Returns 0%Q)
        /\ (forall dk dev drest,
              devices plant = Some ((dk, dev) :: drest) ->
              (historyLast dev = None ->
                 result (getPeriodTotal date day) w = Returns 0%Q)
              /\ (forall h, historyLast dev = Some h ->
                    result (getPeriodTotal date day) w
                    = Returns (match eacToday h with
                               | Some v => orZero v
                               | None => 0%Q
                               end)))).
Proof.
  intros Hlogin Hdata Hlogout.
  assert (forall k : Snapshot -> M Q,
             result (data <- getGrowattData true date ;; k data) w
             = fst (k snap (afterSession w date (isTodayIn w date)))) as Hrun.
  { intros k. unfold result. rewrite bind_run, getGrowattData_forced.
    unfold sessionOutcome. rewrite Hlogin, Hdata, Hlogout. reflexivity. }
  cbn [getPeriodTotal]. unfold getPeriodTotal_day. rewrite Hrun.
  split.
  - intros ->. reflexivity.
  - intros pk plant rest ->. rewrite prop_get_first.
    split; [ | split].
    + intros ->. reflexivity.
    + intros ->. reflexivity.
    + intros dk dev drest ->. run_m.
      change (map fst ((dk, dev) :: drest)) with (Object_keys_of ((dk, dev) :: drest)).
      rewrite prop_get_first. split.
      * intros ->. reflexivity.
      * intros h ->. reflexivity.
Qed.

(** C6 (the code departs from the specification here): when the first plant comes
    without its devices collection, the day total is not 0: the call throws a
    TypeError, raised by [Object.keys(plant.devices)]. *)
Theorem getPeriodTotal_day_throws_without_devices :
  result (getPeriodTotal noon day)
    (worldAt noon (fun _ => replyWith snapshotWithoutDevices) (loadState None))
  = Throws TypeError.
Proof. vm_compute. reflexivity. Qed.

(* ================================================================= *)
(** ** The theorems at concrete worlds *)
(* ================================================================= *)

(** An outage that began at noon: nothing at 14 minutes, the escalation at 15. *)
Lemma urgent_escalation_witness :
  exec checkUrgentConditions (worldAt (noon + 14 * msPerMinute) quietApi (downSince noon))
  = worldAt (noon + 14 * msPerMinute) quietApi (downSince noon)
  /\ emittedBy isUrgentAlert
       (worldAt (noon + 15 * msPerMinute) quietApi (downSince noon))
       (exec checkUrgentConditions
          (worldAt (noon + 15 * msPerMinute) quietApi (downSince noon))) = 1%nat.
Proof.
  split.
  - apply (proj1 (proj2 (proj2 (urgent_escalation_exactly_when_due
                                   (worldAt (noon + 14 * msPerMinute) quietApi
                                      (downSince noon))))) noon).
    + reflexivity.
    + reflexivity.
  - apply (proj1 (urgent_escalation_exactly_when_due
                    (worldAt (noon + 15 * msPerMinute) quietApi (downSince noon)))).
    reflexivity.
Defined.

(** February 2024 has 29 days to add up. *)
Lemma getPeriodTotal_sums_days_witness :
  result (getPeriodTotal 1709164800123 month) (worldAt noon outageApi (loadState None))
  = sumOutcomes
      (map (fun d => result (getPeriodTotal d day) (worldAt noon outageApi (loadState None)))
         (calendarDaysOfMonth 2024 1)).
Proof.
  exact (proj1 (proj2 (getPeriodTotal_sums_days 1709164800123
                         (worldAt noon outageApi (loadState None))))).
Defined.

Lemma outageApi_reading (t : Time) (s : BotState) :
  insideWindow t = true ->
  hourlyReading (worldAt t outageApi s)
    {| pac := if t <? oneOClock then 0%Q else 500%Q; temperature := 70%Q;
       eacToday := Some 3%Q |}
    {| eToday := 3%Q; lastUpdateTime := t |}.
Proof.
  intros Hin. split; [exact Hin | ].
  eexists. eexists. eexists.
  split; [repeat split; reflexivity | ].
  split; [eexists; eexists; eexists; eexists; split; reflexivity | ].
  split; reflexivity.
Defined.

(** At noon the inverter delivers nothing and the system was Up. *)
Lemma hourly_outage_transitions_witness :
  let w := worldAt noon outageApi (loadState None) in
  isSystemDown (status (state (exec runHourlyChecks w))) = true
  /\ outageStartTime (status (state (exec runHourlyChecks w)))
     = Some (clock (exec runHourlyChecks w))
  /\ emittedBy isOutageAlert w (exec runHourlyChecks w) = 1%nat
  /\ emittedBy isRecovery w (exec runHourlyChecks w) = 0%nat.
Proof.
  intros w.
  apply (proj1 (hourly_outage_transitions w _ _
                  (outageApi_reading noon (loadState None) eq_refl))).
  - reflexivity.
  - reflexivity.
Defined.

(** Outage at noon, escalation sixteen minutes later, recovery at one. *)
Lemma status_invariant_preserved_witness :
  let ticks := [ {| handler := Hourly; firedAt := noon |};
                 {| handler := Urgent; firedAt := noon + 16 * msPerMinute |};
                 {| handler := Hourly; firedAt := oneOClock |} ] in
  let w := worldAt noon outageApi (loadState None) in
  statusInvariant (status (state (fst (runTracked ticks w None))))
    (snd (runTracked ticks w None)).
Proof.
  intros ticks w.
  apply (proj2 (proj2 status_invariant_preserved) ticks w None).
  split.
  - split; [intros H; now elim H | discriminate].
  - discriminate.
Defined.

(** A tick at 19:59 with the Down flag still set. *)
Lemma hourly_outside_window_witness :
  let w := worldAt evening1 outageApi (downSince noon) in
  status (state (exec runHourlyChecks w)) = clearedStatus
  /\ emittedBy anyMessage w (exec runHourlyChecks w) = 0%nat
  /\ countApi (trace (exec runHourlyChecks w)) = countApi (trace w).
Proof.
  intros w.
  destruct (hourly_outside_window w eq_refl) as [_ [Hst [_ [_ [Hmsg [Hapi _]]]]]].
  split; [exact Hst | split; [exact (Hmsg anyMessage) | exact Hapi]].
Defined.

(** A snapshot cached 119 seconds ago answers a fetch for today; a forced
    fetch while the API cannot be reached throws the connectivity error and
    keeps that snapshot. *)
Lemma telemetry_cache_witness :
  let w := {| clock := noon; api := quietApi; state := loadState None;
              apiCache := {| data := Some snapshotWithoutDevices;
                             timestamp := noon - 119000 |};
              trace := [] |} in
  getGrowattData false noon w = (Returns snapshotWithoutDevices, w)
  /\ result (getGrowattData true noon) w = Throws (ERROR_API_CONNECTION en)
  /\ apiCache (exec (getGrowattData true noon) w) = apiCache w.
Proof.
  intros w. split.
  - apply (proj1 (telemetry_cache w false noon) snapshotWithoutDevices).
    + reflexivity.
    + reflexivity.
    + reflexivity.
    + reflexivity.
  - destruct (proj2 (proj2 (proj2 (telemetry_cache w true noon)))
                (or_introl eq_refl)) as [_ [Hfails _]].
    apply Hfails. left. reflexivity.
Defined.

Lemma crossingApi_reading (t : Time) (s : BotState) :
  dailyReading (worldAt t crossingApi s)
    {| eTotal := if t <? evening2 then 950%Q else 1050%Q |}
    {| eToday := 12%Q; lastUpdateTime := t |}.
Proof.
  eexists. eexists. eexists.
  split; [repeat split; reflexivity | ].
  split; [eexists; eexists; eexists; eexists; split; reflexivity | ].
  split; reflexivity.
Defined.

(** The evaluation that sees 1050 kWh against the threshold 1000. *)
Lemma milestone_fires_once_witness :
  let w := worldAt evening2 crossingApi (loadState None) in
  emittedBy isMilestone w (exec runDailyEveningChecks w) = 1%nat
  /\ nextMilestoneKwh (stats (state (exec runDailyEveningChecks w))) = 2000.
Proof.
  intros w.
  destruct (proj1 (proj1 (proj2 milestone_fires_once) w _ _
                     (crossingApi_reading evening2 (loadState None)))
              ltac:(vm_compute; discriminate))
    as [Hone [_ [Hnext _]]].
  split; [exact Hone | ].
  rewrite Hnext. reflexivity.
Defined.



(** The state loaded from a file that is down without a start time. *)
Lemma checkUrgentConditions_without_start_time_witness :
  let w := worldAt noon quietApi (loadState (Some downFileWithoutStart)) in
  isSystemDown (status (state w)) = true
  /\ outageStartTime (status (state w)) = None
  /\ checkUrgentConditions w = (Returns tt, w).
Proof.
  intros w.
  apply (proj2 checkUrgentConditions_without_start_time downFileWithoutStart
           {| p_isSystemDown := Some true; p_outageStartTime := None;
              p_urgentAlertSent := None |} w).
  - reflexivity.
  - reflexivity.
  - left. reflexivity.
  - reflexivity.
Defined.

(* ================================================================= *)
(** ** Aggregation and the API *)
(* ================================================================= *)

Lemma afterSession_trace w d b :
  trace (afterSession w d b) = trace w ++ sessionTrace (api w d) d.
Proof.
  unfold afterSession, sessionTrace. cbv zeta.
  destruct (loginOk (api w d)), (allPlantData (api w d)), (logoutOk (api w d));
    reflexivity.
Qed.

(** A day total that returns has run its session to the end. *)
Lemma day_returns_full_session d w q :
  result (getPeriodTotal_day d) w = Returns q ->
  sessionTrace (api w d) d = fullSession d.
Proof.
  unfold getPeriodTotal_day, result. rewrite bind_run, getGrowattData_forced.
  unfold sessionOutcome, sessionTrace, fullSession.
  destruct (loginOk (api w d)); cbn [andb]; [ | discriminate].
  destruct (allPlantData (api w d)); [reflexivity | ].
  destruct (logoutOk (api w d)); discriminate.
Qed.

Lemma sumDays_trace_returns l :
  forall total w,
    (forall d, In d l -> exists q, result (getPeriodTotal_day d) w = Returns q) ->
    trace (exec (sumDays l total) w) = trace w ++ flat_map fullSession l
    /\ exists q, result (sumDays l total) w = Returns q.
Proof.
  induction l as [| d l IH]; intros total w Hall.
  - cbn. rewrite app_nil_r. split; [reflexivity | eexists; reflexivity].
  - destruct (Hall d (or_introl eq_refl)) as [q Hq].
    pose proof (getPeriodTotal_day_world d w) as Hw.
    pose proof (getPeriodTotal_day_frame d w) as [Ha Hs].
    pose proof (day_returns_full_session d w q Hq) as Hfull.
    cbn [sumDays flat_map]. unfold exec, result in *.
    rewrite bind_run.
    destruct (getPeriodTotal_day d w) as [[x | e] w'] eqn:Hday; cbn [fst snd] in *;
      [ | discriminate].
    assert (forall d', In d' l ->
                       exists q', fst (getPeriodTotal_day d' w') = Returns q') as Hall'.
    { intros d' Hin. destruct (Hall d' (or_intror Hin)) as [q' Hq'].
      exists q'. rewrite <- Hq'.
      apply (getPeriodTotal_day_result d' w' w); assumption. }
    destruct (IH (total + x)%Q w' Hall') as [Htr Hres].
    split; [ | exact Hres].
    rewrite Htr, Hw, afterSession_trace, Hfull, <- app_assoc. reflexivity.
Qed.

Lemma sumDays_trace_throws l1 :
  forall d l2 e total w,
    (forall d', In d' l1 -> exists q, result (getPeriodTotal_day d') w = Returns q) ->
    result (getPeriodTotal_day d) w = Throws e ->
    result (sumDays (l1 ++ d :: l2) total) w = Throws e
    /\ trace (exec (sumDays (l1 ++ d :: l2) total) w)
       = trace w ++ flat_map fullSession l1 ++ sessionTrace (api w d) d.
Proof.
  induction l1 as [| d1 l1 IH]; intros d l2 e total w Hall Hd.
  - pose proof (getPeriodTotal_day_world d w) as Hw.
    cbn [app sumDays flat_map]. unfold exec, result in *. rewrite bind_run.
    destruct (getPeriodTotal_day d w) as [[x | e'] w'] eqn:Hday; cbn [fst snd] in *;
      [discriminate | ].
    split; [exact Hd | ]. rewrite Hw. apply afterSession_trace.
  - destruct (Hall d1 (or_introl eq_refl)) as [q Hq].
    pose proof (getPeriodTotal_day_world d1 w) as Hw.
    pose proof (getPeriodTotal_day_frame d1 w) as [Ha Hs].
    pose proof (day_returns_full_session d1 w q Hq) as Hfull.
    cbn [app sumDays flat_map]. unfold exec, result in *. rewrite bind_run.
    destruct (getPeriodTotal_day d1 w) as [[x | e'] w'] eqn:Hday; cbn [fst snd] in *;
      [ | discriminate].
    assert (forall d', In d' l1 ->
                       exists q', fst (getPeriodTotal_day d' w') = Returns q') as Hall'.
    { intros d' Hin. destruct (Hall d' (or_intror Hin)) as [q' Hq'].
      exists q'. rewrite <- Hq'.
      apply (getPeriodTotal_day_result d' w' w); assumption. }
    assert (fst (getPeriodTotal_day d w') = Throws e) as Hd'.
    { rewrite <- Hd. apply (getPeriodTotal_day_result d w' w); assumption. }
    destruct (IH d l2 e (total + x)%Q w' Hall' Hd') as [Hres Htr].
    split; [exact Hres | ].
    rewrite Htr, Ha, Hw, afterSession_trace, Hfull, <- !app_assoc. reflexivity.
Qed.

Lemma getPeriodTotal_sumDays date p :
  p <> day -> getPeriodTotal date p = sumDays (daysOfPeriod date p) 0%Q.
Proof.
  intros Hp. destruct p; [now elim Hp | | ]; unfold getPeriodTotal, daysOfPeriod;
    cbn [fst snd].
  - rewrite JsDateFacts.eachDayOfInterval_week. reflexivity.
  - rewrite JsDateFacts.eachDayOfInterval_month. reflexivity.
Qed.

(** X1: when every day of the period gives a day total, a week or month
    total opens exactly one API session per day of the period, in calendar
    order and each run to its end, and makes no other call: 7 sessions for a
    week, between 28 and 31 for a month. *)
Theorem aggregation_one_session_per_day (date : Time) (p : Period) (w : World) :
  p <> day ->
  (forall d, In d (daysOfPeriod date p) ->
             exists q, result (getPeriodTotal d day) w = Returns q) ->
  trace (exec (getPeriodTotal date p) w)
  = trace w ++ flat_map fullSession (daysOfPeriod date p)
  /\ (exists q, result (getPeriodTotal date p) w = Returns q)
  /\ (p = week -> List.length (daysOfPeriod date p) = 7%nat)
  /\ (p = month -> (28 <= List.length (daysOfPeriod date p) <= 31)%nat).
Proof.
  intros Hp Hall. rewrite (getPeriodTotal_sumDays date p Hp).
  destruct (sumDays_trace_returns (daysOfPeriod date p) 0%Q w Hall) as [Htr Hres].
  split; [exact Htr | split; [exact Hres | split]].
  - intros ->. apply JsDateFacts.isoWeekDays_shape.
  - intros ->. cbn [daysOfPeriod].
    pose proof (JsDateFacts.length_calendarDaysOfMonth (getFullYear date) (getMonth date)
                  (JsDateFacts.MonthFromTime_range date)) as Hlen.
    pose proof (JsDateFacts.daysInMonth_range (getFullYear date) (getMonth date)
                  (JsDateFacts.MonthFromTime_range date)) as Hr.
    lia.
Qed.

(** X2: a month or week total stops at the first day whose total throws:
    it throws that same error, the days before it had their full sessions,
    and no call is made for any later day. *)
Theorem aggregation_stops_at_first_failure
  (date : Time) (p : Period) (w : World) (before after : list Time) (d : Time)
  (e : JsError) :
  p <> day ->
  daysOfPeriod date p = before ++ d :: after ->
  (forall d', In d' before -> exists q, result (getPeriodTotal d' day) w = Returns q) ->
  result (getPeriodTotal d day) w = Throws e ->
  result (getPeriodTotal date p) w = Throws e
  /\ trace (exec (getPeriodTotal date p) w)
     = trace w ++ flat_map fullSession before ++ sessionTrace (api w d) d.
Proof.
  intros Hp Hdays Hall Hd.
  rewrite (getPeriodTotal_sumDays date p Hp), Hdays.
  exact (sumDays_trace_throws before d after e 0%Q w Hall Hd).
Qed.

(* ================================================================= *)
(** ** The cache between fetches *)
(* ================================================================= *)

(** X3: after a forced fetch for today that succeeds, the cache holds the
    snapshot stamped with the time the session ended, and any later fetch
    that is not forced, asks for today and comes less than 120 seconds after
    that time is answered with the same snapshot without any API call. *)
Theorem forced_fetch_then_cache_hit (w : World) (date : Time) (snap : Snapshot) :
  result (getGrowattData true date) w = Returns snap ->
  isTodayIn w date = true ->
  let w1 := exec (getGrowattData true date) w in
  apiCache w1 = {| data := Some snap; timestamp := clock w1 |}
  /\ forall w2 date2,
      apiCache w2 = apiCache w1 -> isTodayIn w2 date2 = true ->
      clock w2 - clock w1 < CACHE_FRESH_MS ->
      getGrowattData false date2 w2 = (Returns snap, w2).
Proof.
  intros Hres Htoday w1. subst w1. unfold result, exec in *.
  rewrite getGrowattData_forced in *. cbn [fst snd] in *.
  fold (isTodayIn w date). rewrite Htoday.
  unfold sessionOutcome in Hres. unfold afterSession. cbv zeta.
  destruct (loginOk (api w date)); cbn [andb] in Hres; [ | discriminate].
  destruct (logoutOk (api w date)); [ | discriminate].
  destruct (allPlantData (api w date)) as [d | ]; [ | discriminate].
  inversion Hres; subst d. cbn [apiCache clock].
  split; [reflexivity | ].
  intros w2 date2 Hcache Htoday2 Hfresh.
  rewrite getGrowattData_run. unfold cacheHit.
  rewrite Htoday2, Hcache. cbn [negb andb data timestamp].
  destruct (Z.ltb_spec (clock w2 - (clock w + latency (api w date))) CACHE_FRESH_MS);
    [reflexivity | lia].
Qed.

(** X4: a fetch opens an API session whenever it is forced, or asks for a
    day other than today, or finds no snapshot in the cache, or finds one
    stamped 120 seconds ago or more (the freshness bound is exclusive); the
    session stops at the first call that fails and decides the result. *)
Theorem fetch_goes_live (w : World) (forceNew : bool) (date : Time) :
  forceNew = true \/ isTodayIn w date = false \/ data (apiCache w) = None
  \/ CACHE_FRESH_MS <= clock w - timestamp (apiCache w) ->
  trace (exec (getGrowattData forceNew date) w)
  = trace w ++ sessionTrace (api w date) date
  /\ result (getGrowattData forceNew date) w
     = sessionOutcome (api w date) (language (config (state w)))
  /\ (1 <= countApi (sessionTrace (api w date) date) <= 3)%nat.
Proof.
  intros Hlive. unfold exec, result. rewrite getGrowattData_run.
  assert (cacheHit forceNew (isTodayIn w date) (apiCache w) (clock w) = None) as ->.
  { unfold cacheHit. destruct Hlive as [-> | [-> | [-> | Hold]]].
    - reflexivity.
    - now rewrite andb_false_r.
    - destruct (negb forceNew && isTodayIn w date); reflexivity.
    - destruct (negb forceNew && isTodayIn w date); [ | reflexivity].
      destruct (data (apiCache w)); [ | reflexivity].
      destruct (Z.ltb_spec (clock w - timestamp (apiCache w)) CACHE_FRESH_MS);
        [lia | reflexivity]. }
  cbn [fst snd]. split; [apply afterSession_trace | split; [reflexivity | ]].
  unfold sessionTrace.
  destruct (loginOk (api w date)), (allPlantData (api w date)); cbn; lia.
Qed.

(* ================================================================= *)
(** ** What a firing can do, case by case *)
(* ================================================================= *)

(** One firing of a scheduled task either leaves the bot state alone and
    sends nothing, or is the out-of-window reset, or an hourly tick with a
    reading, or an escalation, or a daily evaluation with its figures. *)
Lemma step_cases k w :
  let w0 := setClock (firedAt k) w in
  let w' := step k w in
  (state w' = state w
   /\ forall p, countMsg p (trace w') = countMsg p (trace w))
  \/ (handler k = Hourly /\ insideWindow (firedAt k) = false
      /\ isSystemDown (status (state w)) = true /\ w' = afterReset w0)
  \/ (handler k = Hourly
      /\ exists h dd,
          hourlyReading w0 h dd
          /\ state w' = stateAfterReading (state w) (clock w') h dd
          /\ forall p, countMsg p (trace w')
                       = (countMsg p (trace w)
                          + countMsg p (messagesAfterReading (state w) (clock w') h dd))%nat)
  \/ (handler k = Urgent /\ escalationDue (status (state w)) (firedAt k) = true
      /\ w' = escalated w0)
  \/ (handler k = Daily
      /\ exists pd dd,
          dailyReading w0 pd dd
          /\ state w' = stateAfterDaily (state w) (clock w') pd dd
          /\ forall p, countMsg p (trace w')
                       = (countMsg p (trace w)
                          + countMsg p (messagesAfterDaily (state w) (clock w') pd dd))%nat).
Proof.
  intros w0 w'. subst w0 w'. unfold step.
  destruct k as [[ | | ] t]; cbn [handler firedAt handle].
  - destruct (insideWindow t) eqn:Hwin.
    + destruct (runHourlyChecks_inside (setClock t w) Hwin) as [[h [dd Hr]] | [Hst Hc]].
      * right; right; left. split; [reflexivity | ]. exists h, dd.
        destruct (hourly_reading_exec _ h dd Hr) as [_ [Hst Hc]].
        split; [exact Hr | split; [exact Hst | exact Hc]].
      * left. split; [exact Hst | exact Hc].
    + unfold exec. rewrite (runHourlyChecks_outside (setClock t w) Hwin).
      cbn [snd setClock state]. destruct (isSystemDown (status (state w))) eqn:Hd.
      * right; left. repeat split; reflexivity.
      * left. split; reflexivity.
  - unfold exec. rewrite checkUrgentConditions_run. cbn [snd setClock state clock].
    destruct (escalationDue (status (state w)) t) eqn:Hdue.
    + right; right; right; left. repeat split; reflexivity.
    + left. split; reflexivity.
  - destruct (runDailyEveningChecks_cases (setClock t w)) as [[pd [dd Hr]] | [Hst Hc]].
    + right; right; right; right. split; [reflexivity | ]. exists pd, dd.
      destruct (daily_reading_exec _ pd dd Hr) as [_ [Hst Hc]].
      split; [exact Hr | split; [exact Hst | exact Hc]].
    + left. split; [exact Hst | exact Hc].
Qed.

(** X5: no scheduled task ever changes the configuration, along any run.
    Within one firing, the hourly check leaves the cleaning date, the
    milestone and the record day alone; the daily check leaves the outage
    status and both alert stamps alone; the urgent check leaves the statistics,
    the Down flag and the outage start time alone. *)
Theorem scheduled_tasks_frame :
  (forall (ticks : list Tick) (w : World),
      config (state (runTicks ticks w)) = config (state w))
  /\ (forall (k : Tick) (w : World),
        let s := state w in
        let s' := state (step k w) in
        (handler k = Hourly ->
           lastReminderDate (stats s') = lastReminderDate (stats s)
           /\ nextMilestoneKwh (stats s') = nextMilestoneKwh (stats s)
           /\ bestDay (stats s') = bestDay (stats s))
        /\ (handler k = Daily ->
            status s' = status s
            /\ lastLivenessAlert (stats s') = lastLivenessAlert (stats s)
            /\ lastTempAlert (stats s') = lastTempAlert (stats s))
        /\ (handler k = Urgent ->
            stats s' = stats s
            /\ isSystemDown (status s') = isSystemDown (status s)
            /\ outageStartTime (status s') = outageStartTime (status s))).
Proof.
  assert (forall k w, config (state (step k w)) = config (state w)) as Hstep.
  { intros k w.
    destruct (step_cases k w)
      as [[Hst _] | [[_ [_ [_ Hw]]] | [[_ [h [dd [_ [Hst _]]]]] | [[_ [_ Hw]]
          | [_ [pd [dd [_ [Hst _]]]]]]]]]; cbv zeta in *;
      rewrite ?Hst, ?Hw; reflexivity. }
  split.
  - induction ticks as [| k ticks IH]; intros w; [reflexivity | ].
    cbn [runTicks]. now rewrite IH, Hstep.
  - intros k w s s'. subst s s'.
    destruct (step_cases k w)
      as [[Hst _] | [[Hh [_ [_ Hw]]] | [[Hh [h [dd [_ [Hst _]]]]] | [[Hh [Hdue Hw]]
          | [Hh [pd [dd [_ [Hst _]]]]]]]]]; cbv zeta in *;
      rewrite ?Hst, ?Hw; repeat split; try reflexivity; congruence.
Qed.

(* ================================================================= *)
(** ** The record day *)
(* ================================================================= *)

Lemma orZero_eq x : (orZero x == x)%Q.
Proof.
  unfold orZero. destruct (Qeq_bool x 0) eqn:E; [ | reflexivity].
  apply Qeq_bool_iff in E. now rewrite E.
Qed.

Lemma bestDayDue_true s dd :
  bestDayDue s dd = true <-> (bestDay_kwh (bestDay (stats s)) < eToday dd)%Q.
Proof.
  unfold bestDayDue, Q_gtb. rewrite negb_true_iff. split.
  - intros H. apply Qnot_le_lt. intros Hle.
    rewrite <- (orZero_eq (bestDay_kwh (bestDay (stats s)))) in Hle.
    apply Qle_bool_iff in Hle. congruence.
  - intros H. destruct (Qle_bool _ _) eqn:E; [ | reflexivity].
    apply Qle_bool_iff in E. rewrite orZero_eq in E.
    exfalso. exact (Qlt_not_le _ _ H E).
Qed.

Lemma count_daily_messages s now pd dd :
  countMsg isBestDayMessage (messagesAfterDaily s now pd dd)
  = (if bestDayDue s dd then 1 else 0)%nat
  /\ countMsg isCleaningReminder (messagesAfterDaily s now pd dd)
     = (if cleaningDue s now then 1 else 0)%nat
  /\ countMsg isOutageAlert (messagesAfterDaily s now pd dd) = 0%nat
  /\ countMsg isRecovery (messagesAfterDaily s now pd dd) = 0%nat.
Proof.
  unfold messagesAfterDaily.
  destruct (bestDayDue s dd), (milestoneDue s pd), (cleaningDue s now);
    repeat split; reflexivity.
Qed.

(** X6: a daily evaluation replaces the record day exactly when today's
    production is strictly above the record: it then stores today's date and
    figure and sends one record message; otherwise the record is kept and
    nothing is said about it.  Along any run of scheduled tasks the record
    figure never decreases. *)
Theorem best_day_only_improves :
  (forall (w : World) (pd : PlantData) (dd : DeviceData),
      dailyReading w pd dd ->
      let w' := exec runDailyEveningChecks w in
      ((bestKwh w < eToday dd)%Q ->
         bestDay (stats (state w'))
         = {| bestDay_date := Some (format_yyyy_MM_dd (clock w'));
              bestDay_kwh := eToday dd |}
         /\ emittedBy isBestDayMessage w w' = 1%nat)
      /\ ((eToday dd <= bestKwh w)%Q ->
          bestDay (stats (state w')) = bestDay (stats (state w))
          /\ emittedBy isBestDayMessage w w' = 0%nat))
  /\ (forall (ticks : list Tick) (w : World),
        (bestKwh w <= bestKwh (runTicks ticks w))%Q).
Proof.
  split.
  - intros w pd dd Hr w'. subst w'.
    destruct (daily_reading_exec w pd dd Hr) as [_ [Hst Hc]].
    destruct (count_daily_messages (state w) (clock (exec runDailyEveningChecks w)) pd dd)
      as [Hbest _].
    unfold emittedBy. rewrite Hc, Hbest, Hst.
    cbn [stateAfterDaily stats bestDay]. unfold bestKwh. split.
    + intros Hlt. apply bestDayDue_true in Hlt. rewrite Hlt.
      split; [reflexivity | lia].
    + intros Hle. destruct (bestDayDue (state w) dd) eqn:Hdue.
      * apply bestDayDue_true in Hdue. exfalso. exact (Qlt_not_le _ _ Hdue Hle).
      * split; [reflexivity | lia].
  - assert (forall k w, (bestKwh w <= bestKwh (step k w))%Q) as Hstep.
    { intros k w. unfold bestKwh.
      destruct (step_cases k w)
        as [[Hst _] | [[_ [_ [_ Hw]]] | [[_ [h [dd [_ [Hst _]]]]] | [[_ [_ Hw]]
            | [_ [pd [dd [_ [Hst _]]]]]]]]]; cbv zeta in *;
        rewrite ?Hst, ?Hw;
        cbn [afterReset escalated stateAfterReading stateAfterDaily state stats bestDay
             setClock]; try apply Qle_refl.
      destruct (bestDayDue (state w) dd) eqn:Hdue; [ | apply Qle_refl].
      apply bestDayDue_true in Hdue. cbn [bestDay_kwh]. apply Qlt_le_weak, Hdue. }
    induction ticks as [| k ticks IH]; intros w; [apply Qle_refl | ].
    cbn [runTicks]. eapply Qle_trans; [apply Hstep | apply IH].
Qed.

(* ================================================================= *)
(** ** Outage alerts, escalations and recoveries along runs *)
(* ================================================================= *)

Lemma step_keeps_alerts_accounted (w0 : World) (k : Tick) (w : World) :
  alertsAccounted w0 w -> alertsAccounted w0 (step k w).
Proof.
  unfold alertsAccounted, emittedBy. cbv zeta.
  intros [Hsd [Hu [Hr [Ho [Hurg Hrec]]]]].
  destruct (step_cases k w)
    as [[Hst Hc] | [[_ [_ [Hd Hw]]] | [[_ [h [dd [_ [Hst Hc]]]]] | [[_ [Hdue Hw]]
        | [_ [pd [dd [_ [Hst Hc]]]]]]]]]; cbv zeta in *.
  - rewrite Hst, !Hc. repeat split; assumption.
  - rewrite Hw. unfold afterReset.
    cbn [state status trace setClock clearedStatus isSystemDown urgentAlertSent] in *.
    rewrite !countMsg_app. cbn [countMsg andb negb]. rewrite Hd in *.
    destruct (urgentAlertSent (status (state w))); cbn [andb negb] in *;
      repeat split; try discriminate; lia.
  - destruct (count_messagesAfterReading (state w) (clock (step k w)) h dd)
      as [_ [_ [Hcr [Hco Hcu]]]].
    rewrite Hst, !Hc, Hcr, Hco, Hcu.
    cbn [stateAfterReading status]. unfold recoveryDue, onsetDue.
    remember (isSystemDown (status (state w))) as down eqn:Hdn.
    remember (urgentAlertSent (status (state w))) as sent eqn:Hsn.
    destruct (Q_gtb (pac h) 0), (Qeq_bool (pac h) 0), down, sent;
      cbn [andb negb clearedStatus isSystemDown urgentAlertSent] in *;
      rewrite <- ?Hdn, <- ?Hsn; cbn [andb negb];
      repeat split; try discriminate; try assumption; try lia;
      try (intros _; reflexivity); try (specialize (Hsd eq_refl); discriminate).
  - apply escalationDue_true in Hdue. destruct Hdue as [Hd [Hs _]].
    rewrite Hw. unfold escalated.
    cbn [state status trace setClock isSystemDown urgentAlertSent] in *.
    rewrite !countMsg_app. cbn [countMsg isUrgentAlert isRecovery isOutageAlert].
    rewrite Hd, Hs in *. cbn [andb negb] in *.
    repeat split; try reflexivity; lia.
  - destruct (count_messagesAfterDaily (state w) (clock (step k w)) pd dd) as [Hcu _].
    destruct (count_daily_messages (state w) (clock (step k w)) pd dd)
      as [_ [_ [Hco Hcr]]].
    rewrite Hst, !Hc, Hcu, Hco, Hcr. cbn [stateAfterDaily status].
    rewrite !Nat.add_0_r. repeat split; assumption.
Qed.

(** X7: along any run of scheduled tasks that starts with the system Up and
    urgentAlertSent clear, the urgent alerts sent never outnumber the outage
    alerts sent, and neither do the recovery messages: every escalation and
    every recovery belongs to an outage that was announced. *)
Theorem alerts_follow_outages (ticks : list Tick) (w : World) :
  isSystemDown (status (state w)) = false ->
  urgentAlertSent (status (state w)) = false ->
  let w' := runTicks ticks w in
  (emittedBy isUrgentAlert w w' <= emittedBy isOutageAlert w w')%nat
  /\ (emittedBy isRecovery w w' <= emittedBy isOutageAlert w w')%nat.
Proof.
  intros Hup Hclear w'. subst w'.
  assert (alertsAccounted w w) as Hinit.
  { unfold alertsAccounted, emittedBy. cbv zeta. rewrite Hup, Hclear.
    cbn [andb]. repeat split; try discriminate; lia. }
  assert (forall l w1, alertsAccounted w w1 -> alertsAccounted w (runTicks l w1)) as Hrun.
  { induction l as [| k l IH]; intros w1 H1; [exact H1 | ].
    cbn [runTicks]. apply IH, step_keeps_alerts_accounted, H1. }
  destruct (Hrun ticks w Hinit) as [_ [_ [_ [_ [Hurg Hrec]]]]]. cbv zeta in *.
  split; lia.
Qed.

(* ================================================================= *)
(** ** Cleaning reminders *)
(* ================================================================= *)

Lemma whole_days n later earlier :
  0 < n ->
  (n <=? differenceInDays later earlier) = (n * msPerDay <=? later - earlier).
Proof.
  intros Hn. unfold differenceInDays, msPerDay.
  destruct (Z.leb_spec n ((later - earlier) ÷ 86400000)),
    (Z.leb_spec (n * 86400000) (later - earlier)); try reflexivity; exfalso;
    Z.to_euclidean_division_equations; nia.
Qed.

Lemma GET_CLEANING_STATUS_run msg lang w :
  GET_CLEANING_STATUS msg lang w
  = (Returns (lang,
              let left := cleaningIntervalWeeks (config (state w)) * 7
                          - differenceInDays (clock w) (lastReminderDate (stats (state w))) in
              if cleaningDue (state w) (clock w)
              then CLEANING_OVERDUE_REPLY (- left)
              else CLEANING_STATUS_REPLY left), w).
Proof.
  unfold GET_CLEANING_STATUS, cleaningDue. run_m. cbv zeta.
  destruct (Z.leb_spec
              (cleaningIntervalWeeks (config (state w)) * 7
               - differenceInDays (clock w) (lastReminderDate (stats (state w)))) 0),
    (Z.leb_spec (cleaningIntervalWeeks (config (state w)) * 7)
       (differenceInDays (clock w) (lastReminderDate (stats (state w)))));
    try reflexivity; lia.
Qed.

(** X9: the cleaning-status command and the daily reminder agree: asked at
    the moment a daily evaluation makes its check, in the state the
    evaluation started from, the command answers "overdue" (with a number of
    days that is not negative) exactly when the evaluation sends the
    reminder, and "days left" (with a positive number) exactly when it does
    not.  The command changes nothing. *)
Theorem cleaning_status_agrees_with_reminder
  (w : World) (pd : PlantData) (dd : DeviceData) (msg : Msg) (lang : Language) :
  dailyReading w pd dd ->
  let w' := exec runDailyEveningChecks w in
  let asked := setClock (clock w') w in
  exec (GET_CLEANING_STATUS msg lang) asked = asked
  /\ (emittedBy isCleaningReminder w w' = 1%nat ->
      exists n, 0 <= n
                /\ result (GET_CLEANING_STATUS msg lang) asked
                   = Returns (lang, CLEANING_OVERDUE_REPLY n))
  /\ (emittedBy isCleaningReminder w w' = 0%nat ->
      exists n, 0 < n
                /\ result (GET_CLEANING_STATUS msg lang) asked
                   = Returns (lang, CLEANING_STATUS_REPLY n)).
Proof.
  intros Hr w' asked. subst w' asked.
  destruct (daily_reading_exec w pd dd Hr) as [_ [_ Hc]].
  destruct (count_daily_messages (state w) (clock (exec runDailyEveningChecks w)) pd dd)
    as [_ [Hclean _]].
  unfold emittedBy, exec at 1, result. rewrite Hc, Hclean, !GET_CLEANING_STATUS_run.
  cbn [fst snd setClock state clock]. cbv zeta.
  set (now := clock (exec runDailyEveningChecks w)).
  split; [reflexivity | ].
  unfold cleaningDue.
  destruct (Z.leb_spec (cleaningIntervalWeeks (config (state w)) * 7)
              (differenceInDays now (lastReminderDate (stats (state w))))).
  - split; [ | intros H0; lia]. intros _. eexists. split; [ | reflexivity]. lia.
  - split; [intros H0; lia | ]. intros _. eexists. split; [ | reflexivity]. lia.
Qed.

Lemma daily_cleaning_decision w pd dd :
  dailyReading w pd dd ->
  0 < cleaningIntervalWeeks (config (state w)) ->
  let w' := exec runDailyEveningChecks w in
  let due := cleaningIntervalWeeks (config (state w)) * 7 * msPerDay
             <=? clock w' - lastReminderDate (stats (state w)) in
  emittedBy isCleaningReminder w w' = (if due then 1 else 0)%nat
  /\ lastReminderDate (stats (state w'))
     = (if due then clock w' else lastReminderDate (stats (state w))).
Proof.
  intros Hr Hweeks w' due. subst w' due.
  destruct (daily_reading_exec w pd dd Hr) as [_ [Hst Hc]].
  destruct (count_daily_messages (state w) (clock (exec runDailyEveningChecks w)) pd dd)
    as [_ [Hclean _]].
  unfold emittedBy. rewrite Hc, Hclean, Hst.
  cbn [stateAfterDaily stats lastReminderDate]. unfold cleaningDue.
  rewrite whole_days by lia.
  destruct (_ <=? _); split; try reflexivity; lia.
Qed.

(** X10: a daily evaluation with its figures sends the cleaning reminder
    exactly when at least 7 times the configured number of weeks, in whole
    days, have passed since the reference date; it then moves the reference
    date to the current time, and otherwise leaves it. *)
Theorem cleaning_reminder_when_interval_elapsed
  (w : World) (pd : PlantData) (dd : DeviceData) :
  dailyReading w pd dd ->
  0 < cleaningIntervalWeeks (config (state w)) ->
  let w' := exec runDailyEveningChecks w in
  let interval := cleaningIntervalWeeks (config (state w)) * 7 * msPerDay in
  let since := clock w' - lastReminderDate (stats (state w)) in
  (interval <= since ->
     emittedBy isCleaningReminder w w' = 1%nat
     /\ lastReminderDate (stats (state w')) = clock w')
  /\ (since < interval ->
      emittedBy isCleaningReminder w w' = 0%nat
      /\ lastReminderDate (stats (state w')) = lastReminderDate (stats (state w))).
Proof.
  intros Hr Hweeks w' interval since. subst w' interval since.
  destruct (daily_cleaning_decision w pd dd Hr Hweeks) as [Hc Hst].
  cbv zeta in Hc, Hst. rewrite Hc, Hst.
  destruct (Z.leb_spec (cleaningIntervalWeeks (config (state w)) * 7 * msPerDay)
              (clock (exec runDailyEveningChecks w)
               - lastReminderDate (stats (state w)))).
  - split; [intros _; split; reflexivity | lia].
  - split; [lia | intros _; split; reflexivity].
Qed.

Lemma MARK_CLEANED_run msg lang w :
  MARK_CLEANED msg lang w
  = (Returns (lang, CLEANED_REPLY (cleaningIntervalWeeks (config (state w)) * 7)),
     {| clock := clock w; api := api w;
        state := {| config := config (state w);
                    stats := {| lastReminderDate := clock w;
                                nextMilestoneKwh := nextMilestoneKwh (stats (state w));
                                bestDay := bestDay (stats (state w));
                                lastLivenessAlert := lastLivenessAlert (stats (state w));
                                lastTempAlert := lastTempAlert (stats (state w)) |};
                    status := status (state w) |};
        apiCache := apiCache w;
        trace := trace w ++ [SaveState] |}).
Proof. reflexivity. Qed.

(** X11: "cleaned" moves the reference date to the current time and changes
    nothing else in the state.  Asked right away, the status command shows
    the whole interval as left; and with a positive interval no daily
    evaluation that still sees that reference date sends a reminder before
    7 times the configured weeks, in days, have passed since the command. *)
Theorem cleaned_restarts_the_interval
  (w : World) (msg : Msg) (lang : Language) :
  let w1 := exec (MARK_CLEANED msg lang) w in
  result (MARK_CLEANED msg lang) w
  = Returns (lang, CLEANED_REPLY (cleaningIntervalWeeks (config (state w)) * 7))
  /\ lastReminderDate (stats (state w1)) = clock w
  /\ config (state w1) = config (state w) /\ status (state w1) = status (state w)
  /\ (0 < cleaningIntervalWeeks (config (state w)) ->
      result (GET_CLEANING_STATUS msg lang) w1
      = Returns (lang, CLEANING_STATUS_REPLY (cleaningIntervalWeeks (config (state w)) * 7)))
  /\ (forall (w2 : World) (pd : PlantData) (dd : DeviceData),
        dailyReading w2 pd dd ->
        lastReminderDate (stats (state w2)) = lastReminderDate (stats (state w1)) ->
        0 < cleaningIntervalWeeks (config (state w2)) ->
        clock (exec runDailyEveningChecks w2) - clock w
        < cleaningIntervalWeeks (config (state w2)) * 7 * msPerDay ->
        emittedBy isCleaningReminder w2 (exec runDailyEveningChecks w2) = 0%nat).
Proof.
  intros w1. subst w1.
  assert (Hexec : exec (MARK_CLEANED msg lang) w = snd (MARK_CLEANED msg lang w))
    by reflexivity.
  rewrite MARK_CLEANED_run in Hexec. cbn [snd] in Hexec. rewrite !Hexec.
  cbn [state stats config status lastReminderDate].
  split; [unfold result; now rewrite MARK_CLEANED_run | ].
  split; [reflexivity | split; [reflexivity | split; [reflexivity | split]]].
  - intros Hweeks. unfold result.
    rewrite GET_CLEANING_STATUS_run. cbn [fst state config stats lastReminderDate clock].
    unfold cleaningDue, differenceInDays.
    cbn [state config stats lastReminderDate clock].
    rewrite Z.sub_diag. change (0 ÷ msPerDay) with 0.
    destruct (Z.leb_spec (cleaningIntervalWeeks (config (state w)) * 7) 0); [lia | ].
    cbv zeta. now rewrite Z.sub_0_r.
  - intros w2 pd dd Hr Hsame Hweeks Hearly.
    destruct (daily_cleaning_decision w2 pd dd Hr Hweeks) as [Hc _].
    cbv zeta in Hc. rewrite Hc, Hsame.
    destruct (Z.leb_spec (cleaningIntervalWeeks (config (state w2)) * 7 * msPerDay)
                (clock (exec runDailyEveningChecks w2) - clock w)); [lia | reflexivity].
Qed.


(* ================================================================= *)
(** ** The settings commands *)
(* ================================================================= *)

Lemma step_keeps_config k w : config (state (step k w)) = config (state w).
Proof.
  destruct (step_cases k w)
    as [[Hst _] | [[_ [_ [_ Hw]]] | [[_ [h [dd [_ [Hst _]]]]] | [[_ [_ Hw]]
        | [_ [pd [dd [_ [Hst _]]]]]]]]]; cbv zeta in *;
    rewrite ?Hst, ?Hw; reflexivity.
Qed.

Lemma runTicks_keeps_config ticks :
  forall w, config (state (runTicks ticks w)) = config (state w).
Proof.
  induction ticks as [| k ticks IH]; intros w; [reflexivity | ].
  cbn [runTicks]. now rewrite IH, step_keeps_config.
Qed.

(** X12: the cleaning interval is always positive and the temperature
    threshold always above 30: this holds for the defaults, whatever
    [parseInt] yields each settings command keeps it, and so do "cleaned"
    and every run of the scheduled tasks. *)
Theorem settings_stay_valid
  (parseInt : option string -> option Z) (msg : Msg) (lang : Language) (w : World) :
  validSettings (config (loadState None))
  /\ (validSettings (config (state w)) ->
      validSettings (config (state (exec (SET_LANG msg lang) w)))
      /\ validSettings (config (state (exec (SET_CLEANING_WEEKS parseInt msg lang) w)))
      /\ validSettings (config (state (exec (SET_TEMP_THRESHOLD parseInt msg lang) w)))
      /\ validSettings (config (state (exec (MARK_CLEANED msg lang) w)))
      /\ (forall ticks : list Tick, validSettings (config (state (runTicks ticks w))))).
Proof.
  split; [split; reflexivity | ].
  intros [Hweeks Htemp]. unfold validSettings.
  split; [ | split; [ | split; [ | split]]].
  - unfold SET_LANG. destruct (secondWord msg) as [a | ]; [ | now split].
    destruct (String.eqb a "en"); [now split | ].
    destruct (String.eqb a "fr"); now split.
  - unfold SET_CLEANING_WEEKS. destruct (parseInt (secondWord msg)) as [weeks | ];
      [ | now split].
    destruct (Z.ltb_spec 0 weeks); [ | now split].
    run_m. cbn [cleaningIntervalWeeks tempThreshold]. now split.
  - unfold SET_TEMP_THRESHOLD. destruct (parseInt (secondWord msg)) as [temp | ];
      [ | now split].
    destruct (Z.ltb_spec 30 temp); [ | now split].
    run_m. cbn [cleaningIntervalWeeks tempThreshold]. now split.
  - now split.
  - intros ticks. rewrite runTicks_keeps_config. now split.
Qed.

(** X13: a settings command either answers ERROR_INVALID_COMMAND and leaves
    everything as it was, or writes the state file exactly once and changes
    nothing but its own setting: the statistics, the outage status and the
    other settings stay.  Setting the language succeeds exactly for a second
    word that is [en] or [fr], and answers in the new language. *)
Theorem settings_commands_change_one_setting
  (parseInt : option string -> option Z) (msg : Msg) (lang : Language) (w : World) :
  let changesOnly (differ : Config -> Config -> Prop) (r : Outcome Sent) (w' : World) :=
    (r = Returns (lang, ERROR_INVALID_COMMAND) /\ w' = w)
    \/ (r <> Returns (lang, ERROR_INVALID_COMMAND)
        /\ trace w' = trace w ++ [SaveState]
        /\ stats (state w') = stats (state w)
        /\ status (state w') = status (state w)
        /\ apiCache w' = apiCache w /\ clock w' = clock w
        /\ differ (config (state w)) (config (state w'))) in
  changesOnly
    (fun c c' => costPerKwh c' = costPerKwh c /\ currencySymbol c' = currencySymbol c
                 /\ cleaningIntervalWeeks c' = cleaningIntervalWeeks c
                 /\ tempThreshold c' = tempThreshold c
                 /\ (secondWord msg = Some "en"%string /\ language c' = en
                     \/ secondWord msg = Some "fr"%string /\ language c' = fr)
                 /\ result (SET_LANG msg lang) w = Returns (language c', SET_LANG_SUCCESS))
    (result (SET_LANG msg lang) w) (exec (SET_LANG msg lang) w)
  /\ changesOnly
       (fun c c' => language c' = language c /\ costPerKwh c' = costPerKwh c
                    /\ currencySymbol c' = currencySymbol c
                    /\ tempThreshold c' = tempThreshold c
                    /\ parseInt (secondWord msg) = Some (cleaningIntervalWeeks c'))
       (result (SET_CLEANING_WEEKS parseInt msg lang) w)
       (exec (SET_CLEANING_WEEKS parseInt msg lang) w)
  /\ changesOnly
       (fun c c' => language c' = language c /\ costPerKwh c' = costPerKwh c
                    /\ currencySymbol c' = currencySymbol c
                    /\ cleaningIntervalWeeks c' = cleaningIntervalWeeks c
                    /\ parseInt (secondWord msg) = Some (tempThreshold c'))
       (result (SET_TEMP_THRESHOLD parseInt msg lang) w)
       (exec (SET_TEMP_THRESHOLD parseInt msg lang) w).
Proof.
  cbv zeta. split; [ | split].
  - unfold SET_LANG. destruct (secondWord msg) as [a | ]; [ | left; now split].
    destruct (String.eqb a "en") eqn:Hen.
    { apply String.eqb_eq in Hen. subst a. right. run_m.
      cbn [language costPerKwh currencySymbol cleaningIntervalWeeks tempThreshold].
      repeat split; try reflexivity; [discriminate | left; now split]. }
    destruct (String.eqb a "fr") eqn:Hfr; [ | left; now split].
    apply String.eqb_eq in Hfr. subst a. right. run_m.
    cbn [language costPerKwh currencySymbol cleaningIntervalWeeks tempThreshold].
    repeat split; try reflexivity; [discriminate | right; now split].
  - unfold SET_CLEANING_WEEKS. destruct (parseInt (secondWord msg)) as [weeks | ];
      [ | left; now split].
    destruct (0 <? weeks); [ | left; now split].
    right. run_m.
    cbn [language costPerKwh currencySymbol cleaningIntervalWeeks tempThreshold].
    repeat split; try reflexivity; discriminate.
  - unfold SET_TEMP_THRESHOLD. destruct (parseInt (secondWord msg)) as [temp | ];
      [ | left; now split].
    destruct (30 <? temp); [ | left; now split].
    right. run_m.
    cbn [language costPerKwh currencySymbol cleaningIntervalWeeks tempThreshold].
    repeat split; try reflexivity; discriminate.
Qed.

(* ================================================================= *)
(** ** The dispatcher *)
(* ================================================================= *)

Lemma hasSpace_joined p0 p1 : hasSpace (p0 ++ " " ++ p1) = true.
Proof.
  generalize (" " ++ p1)%string (eq_refl : hasSpace (" " ++ p1) = true).
  intros s Hs. induction p0 as [| c p0 IH]; [exact Hs | ].
  cbn [String.append hasSpace]. rewrite IH. apply orb_true_r.
Qed.

Lemma setKeywords_no_space k : In k setKeywords -> hasSpace k = false.
Proof.
  intros [H | [H | [H | [H | []]]]]; subst k; reflexivity.
Qed.

Lemma commandMap_setting_key k cmd lang :
  prop_lookup commandMap k = Some (cmd, lang) ->
  startsWith_SET cmd = true ->
  In k setKeywords /\ lang = en.
Proof.
  unfold commandMap, setKeywords. cbn [prop_lookup].
  repeat match goal with
         | |- context [String.eqb ?a k] =>
             destruct (String.eqb a k) eqn:?;
             [ intros Hv Hs; injection Hv as <- <-;
               first [ discriminate Hs
                     | match goal with
                       | E : String.eqb _ k = true |- _ =>
                           apply String.eqb_eq in E; subst k
                       end;
                       split; [cbn [In]; tauto | reflexivity] ]
             | ]
         end.
  discriminate.
Qed.

Lemma commandMap_setting_keyword first :
  In first setKeywords ->
  exists cmd, prop_lookup commandMap first = Some (cmd, en)
              /\ startsWith_SET cmd = true.
Proof.
  intros [H | [H | [H | [H | []]]]]; subst first; eexists; split; reflexivity.
Qed.

Lemma setting_keyword_alone first p1 :
  In first setKeywords ->
  prop_lookup commandMap (first ++ " " ++ p1) = None.
Proof.
  intros [H | [H | [H | [H | []]]]]; subst first; reflexivity.
Qed.

Lemma setting_keyword_resolved first rest :
  In first setKeywords ->
  commandKeyword (first :: rest) = Some first.
Proof.
  intros Hin. destruct rest as [| p1 rest]; [reflexivity | ].
  cbn [commandKeyword]. cbv zeta. now rewrite setting_keyword_alone.
Qed.

Lemma setting_command_keyword first rest cmd lang :
  prop_get commandMap (commandKeyword (first :: rest)) = Some (cmd, lang) ->
  startsWith_SET cmd = true ->
  In first setKeywords.
Proof.
  intros Hget Hset. destruct rest as [| p1 rest].
  - exact (proj1 (commandMap_setting_key _ _ _ Hget Hset)).
  - cbn [commandKeyword] in Hget. cbv zeta in Hget.
    destruct (prop_lookup commandMap (first ++ " " ++ p1)) as [v | ] eqn:Htwo;
      cbn [truthy prop_get] in Hget.
    + rewrite Htwo in Hget. injection Hget as ->.
      destruct (commandMap_setting_key _ _ _ Htwo Hset) as [Hin _].
      apply setKeywords_no_space in Hin. rewrite hasSpace_joined in Hin. discriminate.
    + exact (proj1 (commandMap_setting_key _ _ _ Hget Hset)).
Qed.

(** X14: a message whose first word, once lower-cased and trimmed, is one of
    the four settings keywords runs its settings command only for a sender
    whom the chat lists as an administrator; for anyone else, and whenever
    the list cannot be fetched, the only effect is the answer
    ERROR_NOT_ADMIN.  This holds whatever the command does and whatever
    follows the keyword. *)
Theorem settings_commands_need_an_administrator
  (toLowerCase trim : string -> string) (administrators : option (list Z))
  (commandActions : Cmd -> Msg -> Language -> M (list Sent))
  (msg : Msg) (t first : string) (rest : list string) (w : World) :
  text msg = Some t -> t <> EmptyString -> from_is_bot msg = false ->
  split_space (trim (toLowerCase t)) = first :: rest ->
  In first setKeywords ->
  (exists cmd,
      prop_lookup commandMap first = Some (cmd, en)
      /\ startsWith_SET cmd = true
      /\ onMessage toLowerCase trim administrators commandActions msg w
         = if isAdmin administrators (from_id msg)
           then commandActions cmd msg en w
           else (Returns [(en, ERROR_NOT_ADMIN)], w))
  /\ (isAdmin administrators (from_id msg) = true
      <-> exists admins, administrators = Some admins /\ In (from_id msg) admins).
Proof.
  intros Ht Hne Hbot Hparts Hin. split.
  - destruct (commandMap_setting_keyword first Hin) as [cmd [Hcmd Hset]].
    exists cmd. split; [exact Hcmd | split; [exact Hset | ]].
    unfold onMessage. rewrite Ht, Hbot.
    destruct (String.eqb_spec t ""); [contradiction | ].
    cbn [orb]. cbv zeta.
    rewrite Hparts, (setting_keyword_resolved first rest Hin).
    cbn [prop_get]. rewrite Hcmd, Hset.
    destruct (isAdmin administrators (from_id msg)); reflexivity.
  - unfold isAdmin. destruct administrators as [admins | ].
    + rewrite existsb_exists. split.
      * intros [x [Hx Heq]]. apply Z.eqb_eq in Heq. subst x. now exists admins.
      * intros [a [Ha Hx]]. injection Ha as <-. exists (from_id msg).
        split; [exact Hx | apply Z.eqb_refl].
    + split; [discriminate | ]. intros [a [Ha _]]. discriminate.
Qed.

(** X15: a message without text, with an empty text or sent by a bot does
    nothing at all.  A message whose first word is not a settings keyword is
    handled without regard to who the administrators are: the outcome is
    the same for any two administrator lists. *)
Theorem other_messages_skip_the_admin_check
  (toLowerCase trim : string -> string)
  (commandActions : Cmd -> Msg -> Language -> M (list Sent))
  (msg : Msg) (w : World) :
  (text msg = None \/ text msg = Some EmptyString \/ from_is_bot msg = true ->
   forall administrators,
     onMessage toLowerCase trim administrators commandActions msg w = (Returns [], w))
  /\ ((forall t first rest,
         text msg = Some t ->
         split_space (trim (toLowerCase t)) = first :: rest ->
         ~ In first setKeywords) ->
      forall administrators administrators',
        onMessage toLowerCase trim administrators commandActions msg w
        = onMessage toLowerCase trim administrators' commandActions msg w).
Proof.
  split.
  - intros H adm. unfold onMessage.
    destruct (text msg) as [t | ]; [ | reflexivity].
    destruct H as [H | [H | H]]; [discriminate | | ].
    + injection H as ->. reflexivity.
    + rewrite H, orb_true_r. reflexivity.
  - intros Hother adm adm'. unfold onMessage.
    destruct (text msg) as [t | ] eqn:Ht; [ | reflexivity].
    destruct (String.eqb t "" || from_is_bot msg); [reflexivity | ].
    cbv zeta.
    destruct (split_space (trim (toLowerCase t))) as [| first rest] eqn:Hparts;
      [reflexivity | ].
    destruct (prop_get commandMap (commandKeyword (first :: rest)))
      as [[cmd lang] | ] eqn:Hget; [ | reflexivity].
    destruct (startsWith_SET cmd) eqn:Hset; [ | reflexivity].
    exfalso. apply (Hother t first rest eq_refl Hparts).
    exact (setting_command_keyword first rest cmd lang Hget Hset).
Qed.

(* ================================================================= *)
(** ** The weekly and monthly reports *)
(* ================================================================= *)

Lemma subDays_7 t : subDays t 7 = t - 7 * msPerDay.
Proof.
  unfold subDays, addDays. change (- (7) =? 0) with false. cbv iota.
  rewrite JsDateFacts.setDate_shift. lia.
Qed.

Lemma mondayOf_week_before t : mondayOf (t - 7 * msPerDay) = mondayOf t - 7.
Proof.
  replace (t - 7 * msPerDay) with (t + (-7) * msPerDay) by lia.
  unfold mondayOf, WeekDay. rewrite JsDateFacts.Day_shift.
  Z.to_euclidean_division_equations; lia.
Qed.

(** The month before month [m] of year [y]. *)
Lemma MakeDay_last_of_previous y m :
  0 <= m <= 11 ->
  let y' := if m =? 0 then y - 1 else y in
  let m' := if m =? 0 then 11 else m - 1 in
  0 <= m' <= 11 /\ MakeDay y (m + -1 + 1) 0 = MakeDay y' m' (daysInMonth y' m').
Proof.
  intros Hm y' m'. subst y' m'. destruct (Z.eqb_spec m 0) as [-> | Hne].
  - split; [lia | ].
    rewrite <- (JsDateFacts.MakeDay_next_month_0 (y - 1) 11) by lia.
    unfold MakeDay. change (0 + -1 + 1) with 0. change (11 + 1) with 12.
    change (0 / 12) with 0. change (0 mod 12) with 0.
    change (12 / 12) with 1. change (12 mod 12) with 0.
    replace (y - 1 + 1) with y by lia. replace (y + 0) with y by lia. reflexivity.
  - split; [lia | ].
    replace (m + -1 + 1) with (m - 1 + 1) by lia.
    apply JsDateFacts.MakeDay_next_month_0. lia.
Qed.

Lemma subMonths_1_fields t :
  let prev := subMonths t 1 in
  getFullYear prev = (if getMonth t =? 0 then getFullYear t - 1 else getFullYear t)
  /\ getMonth prev = (if getMonth t =? 0 then 11 else getMonth t - 1).
Proof.
  intros prev. subst prev.
  unfold subMonths, addMonths. change (- (1)) with (-1).
  change (-1 =? 0) with false. cbv iota zeta.
  unfold setMonth, getFullYear, getMonth, getDate.
  destruct (MakeDay_last_of_previous (YearFromTime t) (MonthFromTime t)
              (JsDateFacts.MonthFromTime_range t)) as [Hm' Hlast].
  cbv zeta in Hm', Hlast. rewrite Hlast.
  set (y' := if MonthFromTime t =? 0 then YearFromTime t - 1 else YearFromTime t) in *.
  set (m' := if MonthFromTime t =? 0 then 11 else MonthFromTime t - 1) in *.
  pose proof (JsDateFacts.daysInMonth_range y' m' Hm') as Hdim.
  pose proof (JsDateFacts.TimeWithinDay_range t) as Htw.
  pose proof (JsDateFacts.DateFromTime_range t) as Hdate.
  destruct (JsDateFacts.fields_of_MakeDay y' m' (daysInMonth y' m') (TimeWithinDay t)
              Hm' ltac:(lia) Htw) as [HY [HM HD]].
  rewrite HD. destruct (Z.leb_spec (daysInMonth y' m') (DateFromTime t)).
  - split; assumption.
  - unfold setFullYear. rewrite HY, HM.
    destruct (JsDateFacts.fields_of_MakeDay y' m' (DateFromTime t) (TimeWithinDay t)
                Hm' ltac:(lia) Htw) as [HY2 [HM2 _]].
    split; assumption.
Qed.

Lemma startOfMonth_fields t :
  getFullYear (startOfMonth t) = getFullYear t
  /\ getMonth (startOfMonth t) = getMonth t.
Proof.
  rewrite JsDateFacts.startOfMonth_midnight. unfold midnight, getFullYear, getMonth.
  pose proof (JsDateFacts.MonthFromTime_range t) as Hm.
  pose proof (JsDateFacts.daysInMonth_range (YearFromTime t) (MonthFromTime t) Hm) as Hdim.
  destruct (JsDateFacts.fields_of_MakeDay (YearFromTime t) (MonthFromTime t) 1 0
              Hm ltac:(lia) ltac:(unfold msPerDay; lia)) as [HY [HM _]].
  split; assumption.
Qed.

Lemma endOfMonth_by_fields t u :
  getFullYear t = getFullYear u -> getMonth t = getMonth u ->
  endOfMonth t = endOfMonth u.
Proof.
  intros HY HM. unfold endOfMonth, setHours, setFullYear. cbv zeta.
  rewrite !JsDateFacts.Day_MakeDate by apply JsDateFacts.TimeWithinDay_range.
  now rewrite HY, HM.
Qed.

Lemma days_between_month_ends t :
  differenceInDays (endOfMonth t) (startOfMonth t) + 1
  = daysInMonth (getFullYear t) (getMonth t).
Proof.
  pose proof (JsDateFacts.Day_endOfMonth t) as HD.
  pose proof (JsDateFacts.daysInMonth_range (getFullYear t) (getMonth t)
                (JsDateFacts.MonthFromTime_range t)) as Hr.
  rewrite JsDateFacts.startOfMonth_midnight.
  assert (endOfMonth t = MakeDate (Day (endOfMonth t)) (MakeTime 23 59 59 999)) as HE.
  { unfold endOfMonth, setHours. cbv zeta.
    now rewrite JsDateFacts.Day_MakeDate by apply JsDateFacts.MakeTime_end_of_day. }
  rewrite HE, HD.
  pose proof (JsDateFacts.MakeDay_date_shift (getFullYear t) (getMonth t) 1
                (daysInMonth (getFullYear t) (getMonth t) - 1)) as Hs.
  replace (1 + (daysInMonth (getFullYear t) (getMonth t) - 1))
    with (daysInMonth (getFullYear t) (getMonth t)) in Hs by lia.
  rewrite Hs. pose proof JsDateFacts.MakeTime_end_of_day as Hend.
  unfold differenceInDays, midnight, MakeDate.
  set (d := MakeDay (getFullYear t) (getMonth t) 1) in *.
  set (n := daysInMonth (getFullYear t) (getMonth t)) in *.
  set (e := MakeTime 23 59 59 999) in *.
  replace ((d + (n - 1)) * msPerDay + e - (d * msPerDay + 0))
    with ((n - 1) * msPerDay + e) by lia.
  unfold msPerDay in *. Z.to_euclidean_division_equations; nia.
Qed.

(** The interval the monthly report walks is the calendar month before the
    current one. *)
Lemma monthly_interval t :
  let y' := if getMonth t =? 0 then getFullYear t - 1 else getFullYear t in
  let m' := if getMonth t =? 0 then 11 else getMonth t - 1 in
  let lastMonthStart := startOfMonth (subMonths t 1) in
  let lastMonthEnd := endOfMonth lastMonthStart in
  0 <= m' <= 11
  /\ eachDayOfInterval lastMonthStart lastMonthEnd = Days (calendarDaysOfMonth y' m')
  /\ differenceInDays lastMonthEnd lastMonthStart + 1 = daysInMonth y' m'
  /\ eachDayOfInterval (startOfMonth (subMonths t 1)) (endOfMonth (subMonths t 1))
     = Days (calendarDaysOfMonth y' m').
Proof.
  intros y' m' lastMonthStart lastMonthEnd. subst lastMonthStart lastMonthEnd.
  destruct (subMonths_1_fields t) as [HY HM]. cbv zeta in HY, HM.
  fold y' in HY. fold m' in HM.
  destruct (startOfMonth_fields (subMonths t 1)) as [HYs HMs].
  rewrite (endOfMonth_by_fields (startOfMonth (subMonths t 1)) (subMonths t 1) HYs HMs).
  split; [ | split; [ | split]].
  - rewrite <- HM. apply JsDateFacts.MonthFromTime_range.
  - now rewrite JsDateFacts.eachDayOfInterval_month, HY, HM.
  - now rewrite days_between_month_ends, HY, HM.
  - now rewrite JsDateFacts.eachDayOfInterval_month, HY, HM.
Qed.

(** The interval the weekly report walks is the Monday-to-Sunday week
    before the current one. *)
Lemma weekly_interval t :
  eachDayOfInterval (startOfWeek (subDays t 7) 1) (endOfWeek (subDays t 7) 1)
  = Days (map midnight (zrange (mondayOf t - 7) 7)).
Proof.
  rewrite JsDateFacts.eachDayOfInterval_week, subDays_7.
  unfold isoWeekDays. now rewrite mondayOf_week_before.
Qed.

Lemma sumDays_frame l :
  forall total w,
    api (exec (sumDays l total) w) = api w
    /\ state (exec (sumDays l total) w) = state w.
Proof.
  induction l as [| d l IH]; intros total w; [split; reflexivity | ].
  cbn [sumDays]. unfold exec. rewrite bind_run.
  pose proof (getPeriodTotal_day_frame d w) as [Ha Hs]. unfold exec in Ha, Hs.
  destruct (getPeriodTotal_day d w) as [[x | e] w'] eqn:Hday; cbn [fst snd] in *.
  - destruct (IH (total + x)%Q w') as [Ha' Hs']. unfold exec in Ha', Hs'.
    split; congruence.
  - split; assumption.
Qed.

(** X16: the monthly report covers the calendar month before the current
    one, from its first to its last day.  It is sent exactly when every day
    of that month gives a day total and their sum is positive; it then shows
    that sum and the sum divided by the number of days of the month.  A day
    that fails means no report and no error, and in every case the task
    leaves the world as the month total of that month does. *)
Theorem monthly_report_previous_month (w : World) :
  let now := clock w in
  let y' := if getMonth now =? 0 then getFullYear now - 1 else getFullYear now in
  let m' := if getMonth now =? 0 then 11 else getMonth now - 1 in
  let days := calendarDaysOfMonth y' m' in
  let total := sumOutcomes (map (fun d => result (getPeriodTotal d day) w) days) in
  result runMonthlyReport w
  = Returns
      match total with
      | Returns x =>
          if Q_gtb x 0
          then Some (language (config (state w)),
                     MONTHLY_REPORT (toFixed x 2)
                       (toFixed (x / inject_Z (Z.of_nat (List.length days))) 2))
          else None
      | Throws _ => None
      end
  /\ exec runMonthlyReport w = exec (getPeriodTotal (subMonths now 1) month) w
  /\ (28 <= List.length days <= 31)%nat.
Proof.
  intros now y' m' days total. subst total.
  destruct (monthly_interval now) as [Hm' [Hdays [Hn Hprev]]]. cbv zeta in Hm', Hdays, Hn, Hprev.
  fold y' in Hm', Hdays, Hn, Hprev. fold m' in Hm', Hdays, Hn, Hprev.
  fold days in Hdays, Hprev.
  pose proof (JsDateFacts.length_calendarDaysOfMonth y' m' Hm') as Hlen. fold days in Hlen.
  pose proof (JsDateFacts.daysInMonth_range y' m' Hm') as Hr.
  pose proof (sumDays_result days 0%Q w) as Hres.
  pose proof (sumDays_frame days 0%Q w) as [_ Hst].
  change (fun d => result (getPeriodTotal d day) w)
    with (fun d => result (getPeriodTotal_day d) w).
  unfold sumOutcomes. rewrite <- Hres.
  assert (getPeriodTotal (subMonths now 1) month = sumDays days 0%Q) as Hmonth.
  { unfold getPeriodTotal. cbn [fst snd]. now rewrite Hprev. }
  rewrite Hmonth.
  assert (runMonthlyReport w
          = match sumDays days 0%Q w with
            | (Returns x, w') =>
                (Returns (if Q_gtb x 0
                          then Some (language (config (state w')),
                                     MONTHLY_REPORT (toFixed x 2)
                                       (toFixed (x / inject_Z (daysInMonth y' m')) 2))
                          else None), w')
            | (Throws _, w') => (Returns None, w')
            end) as Hrun.
  { unfold runMonthlyReport, tryCatch. rewrite bind_run.
    unfold newDate. fold now. cbv zeta. rewrite Hdays, Hn, bind_run.
    destruct (sumDays days 0%Q w) as [[x | e] w']; [ | reflexivity].
    destruct (Q_gtb x 0); reflexivity. }
  unfold result, exec in *. rewrite Hrun.
  destruct (sumDays days 0%Q w) as [[x | e] w'] eqn:Hsum; cbn [fst snd] in *.
  - rewrite Hst, Hlen. split; [reflexivity | split; [reflexivity | lia]].
  - split; [reflexivity | split; [reflexivity | lia]].
Qed.

Lemma weeklyLoop_run l :
  forall total best bd w,
    match sumDays l total w with
    | (Returns x, w') =>
        exists best' bd',
          weeklyLoop l total best bd w = (Returns (x, best', bd'), w')
          /\ (best <= best')%Q
          /\ (forall d q, In d l -> result (getPeriodTotal_day d) w = Returns q ->
                          (q <= best')%Q)
          /\ ((best' = best /\ bd' = bd)
              \/ exists d, In d l /\ bd' = Some (getDay d)
                           /\ result (getPeriodTotal_day d) w = Returns best')
    | (Throws e, w') => weeklyLoop l total best bd w = (Throws e, w')
    end.
Proof.
  induction l as [| d l IH]; intros total best bd w.
  - cbn. exists best, bd. split; [reflexivity | split; [apply Qle_refl | split]].
    + intros d q [].
    + left. split; reflexivity.
  - cbn [sumDays weeklyLoop]. change (getPeriodTotal d day) with (getPeriodTotal_day d).
    rewrite !bind_run.
    pose proof (getPeriodTotal_day_frame d w) as [Ha Hs]. unfold exec in Ha, Hs.
    destruct (getPeriodTotal_day d w) as [[x | e] w1] eqn:Hday; cbn [fst snd] in *;
      [ | reflexivity].
    assert (forall d0, result (getPeriodTotal_day d0) w1 = result (getPeriodTotal_day d0) w)
      as Hsame by (intros d0; apply getPeriodTotal_day_result; assumption).
    assert (result (getPeriodTotal_day d) w = Returns x) as Hd
      by (unfold result; now rewrite Hday).
    destruct (Q_gtb x best) eqn:Hg.
    + assert (best < x)%Q as Hlt.
      { unfold Q_gtb in Hg. apply negb_true_iff in Hg. apply Qnot_le_lt.
        intros Hle. apply Qle_bool_iff in Hle. congruence. }
      specialize (IH (total + x)%Q x (Some (getDay d)) w1).
      destruct (sumDays l (total + x)%Q w1) as [[y | e] w2]; [ | exact IH].
      destruct IH as [b' [bd' [Hrun [Hle [Hall Hor]]]]].
      exists b', bd'. split; [exact Hrun | split; [ | split]].
      * apply Qlt_le_weak. eapply Qlt_le_trans; eassumption.
      * intros d0 q [<- | Hin] Hq.
        -- rewrite Hd in Hq. injection Hq as <-. exact Hle.
        -- apply (Hall d0 q Hin). now rewrite Hsame.
      * right. destruct Hor as [[-> ->] | [d0 [Hin [Hbd Hq]]]].
        -- exists d. split; [now left | split; [reflexivity | exact Hd]].
        -- exists d0. split; [now right | split; [exact Hbd | now rewrite <- Hsame]].
    + assert (x <= best)%Q as Hxle.
      { unfold Q_gtb in Hg. apply negb_false_iff in Hg. now apply Qle_bool_iff. }
      specialize (IH (total + x)%Q best bd w1).
      destruct (sumDays l (total + x)%Q w1) as [[y | e] w2]; [ | exact IH].
      destruct IH as [b' [bd' [Hrun [Hle [Hall Hor]]]]].
      exists b', bd'. split; [exact Hrun | split; [exact Hle | split]].
      * intros d0 q [<- | Hin] Hq.
        -- rewrite Hd in Hq. injection Hq as <-. eapply Qle_trans; eassumption.
        -- apply (Hall d0 q Hin). now rewrite Hsame.
      * destruct Hor as [[-> ->] | [d0 [Hin [Hbd Hq]]]].
        -- left. split; reflexivity.
        -- right. exists d0.
           split; [now right | split; [exact Hbd | now rewrite <- Hsame]].
Qed.

Lemma sumDays_nonpositive l :
  forall total w x w',
    sumDays l total w = (Returns x, w') ->
    (forall d q, In d l -> result (getPeriodTotal_day d) w = Returns q -> (q <= 0)%Q) ->
    (x <= total)%Q.
Proof.
  induction l as [| d l IH]; intros total w x w' Hsum Hall.
  - cbn in Hsum. injection Hsum as <- _. apply Qle_refl.
  - cbn [sumDays] in Hsum. rewrite bind_run in Hsum.
    pose proof (getPeriodTotal_day_frame d w) as [Ha Hs]. unfold exec in Ha, Hs.
    destruct (getPeriodTotal_day d w) as [[q | e] w1] eqn:Hday; cbn [fst snd] in *;
      [ | discriminate].
    assert (q <= 0)%Q as Hq.
    { apply (Hall d q (or_introl eq_refl)). unfold result. now rewrite Hday. }
    apply (Qle_trans _ (total + q)%Q).
    + apply (IH _ w1 _ w' Hsum). intros d0 q0 Hin Hq0.
      apply (Hall d0 q0 (or_intror Hin)). rewrite <- Hq0. symmetry.
      apply getPeriodTotal_day_result; assumption.
    + lra.
Qed.

(** X17: the weekly report covers the seven days, Monday to Sunday, of the
    week before the current one.  It is sent exactly when every one of them
    gives a day total and their sum is positive; it then shows that sum
    together with a best day, which is one of the seven, and its total, which
    no other day of the week exceeds.  A day that fails means no report and
    no error, and in every case the task leaves the world as the week total
    of that week does. *)
Theorem weekly_report_previous_week (w : World) :
  let now := clock w in
  let days := map midnight (zrange (mondayOf now - 7) 7) in
  let total := sumOutcomes (map (fun d => result (getPeriodTotal d day) w) days) in
  exec runWeeklyReport w = exec (getPeriodTotal (subDays now 7) week) w
  /\ Day now - 13 <= mondayOf now - 7 <= Day now - 7
  /\ getDay (midnight (mondayOf now - 7)) = 1
  /\ match total with
     | Returns x =>
         if Q_gtb x 0 then
           exists d best,
             In d days
             /\ result (getPeriodTotal d day) w = Returns best
             /\ (forall d' q, In d' days ->
                              result (getPeriodTotal d' day) w = Returns q ->
                              (q <= best)%Q)
             /\ result runWeeklyReport w
                = Returns (Some (language (config (state w)),
                                 WEEKLY_REPORT (toFixed x 2) (Some (getDay d))
                                   (toFixed best 2)))
         else result runWeeklyReport w = Returns None
     | Throws _ => result runWeeklyReport w = Returns None
     end.
Proof.
  intros now days total. subst total.
  pose proof (weekly_interval now) as Hdays. fold days in Hdays.
  pose proof (sumDays_result days 0%Q w) as Hres.
  pose proof (sumDays_frame days 0%Q w) as [_ Hst].
  pose proof (weeklyLoop_run days 0%Q 0%Q None w) as Hloop.
  change (fun d => result (getPeriodTotal d day) w)
    with (fun d => result (getPeriodTotal_day d) w).
  unfold sumOutcomes. rewrite <- Hres.
  assert (getPeriodTotal (subDays now 7) week = sumDays days 0%Q) as Hweek.
  { unfold getPeriodTotal. cbn [fst snd]. now rewrite Hdays. }
  rewrite Hweek.
  assert (runWeeklyReport w
          = match weeklyLoop days 0%Q 0%Q None w with
            | (Returns (x, best, bd), w') =>
                (Returns (if Q_gtb x 0
                          then Some (language (config (state w')),
                                     WEEKLY_REPORT (toFixed x 2) bd (toFixed best 2))
                          else None), w')
            | (Throws _, w') => (Returns None, w')
            end) as Hrun.
  { unfold runWeeklyReport, tryCatch. rewrite bind_run.
    unfold newDate. fold now. cbv zeta. rewrite Hdays, bind_run.
    destruct (weeklyLoop days 0%Q 0%Q None w) as [[[[x best] bd] | e] w'];
      [ | reflexivity].
    destruct (Q_gtb x 0); reflexivity. }
  split; [ | split; [ | split]].
  - unfold exec in *. rewrite Hrun.
    destruct (sumDays days 0%Q w) as [[x | e] w'] eqn:Hsum.
    + destruct Hloop as [b' [bd' [Hl _]]]. rewrite Hl. reflexivity.
    + rewrite Hloop. reflexivity.
  - unfold mondayOf. Z.to_euclidean_division_equations; lia.
  - unfold getDay, WeekDay. rewrite JsDateFacts.Day_midnight.
    unfold mondayOf, WeekDay. Z.to_euclidean_division_equations; lia.
  - unfold result, exec in *. rewrite Hrun.
    destruct (sumDays days 0%Q w) as [[x | e] w'] eqn:Hsum; cbn [fst snd] in *.
    + destruct Hloop as [b' [bd' [Hl [_ [Hall Hor]]]]]. rewrite Hl. cbn [fst].
      destruct (Q_gtb x 0) eqn:Hpos; [ | reflexivity].
      destruct Hor as [[-> ->] | [d [Hin [-> Hd]]]].
      * exfalso. apply Q_gtb_0 in Hpos.
        pose proof (sumDays_nonpositive days 0%Q w x w' Hsum Hall). lra.
      * exists d, b'. rewrite Hst.
        split; [exact Hin | split; [exact Hd | split; [exact Hall | reflexivity]]].
    + rewrite Hloop. reflexivity.
Qed.

(* ================================================================= *)
(** ** Further theorems at concrete worlds *)
(* ================================================================= *)

(** The week of 2024-03-05: seven sessions, Monday to Sunday. *)
Lemma aggregation_one_session_per_day_witness :
  let w := worldAt noon outageApi (loadState None) in
  trace (exec (getPeriodTotal noon week) w)
  = trace w ++ flat_map fullSession (daysOfPeriod noon week).
Proof.
  intros w.
  apply (aggregation_one_session_per_day noon week w).
  - discriminate.
  - intros d Hin. vm_compute in Hin.
    repeat (destruct Hin as [<- | Hin]; [exists 3%Q; vm_compute; reflexivity | ]).
    destruct Hin.
Defined.

(** The API goes away on the Wednesday: two full sessions, then one login
    that fails. *)
Lemma aggregation_stops_at_first_failure_witness :
  let wednesday := midnight (mondayOf noon + 2) in
  let w := worldAt noon (apiDownFrom wednesday) (loadState None) in
  let before := map midnight (zrange (mondayOf noon) 2) in
  result (getPeriodTotal noon week) w = Throws (ERROR_API_CONNECTION en)
  /\ trace (exec (getPeriodTotal noon week) w)
     = trace w ++ flat_map fullSession before
       ++ sessionTrace (api w wednesday) wednesday.
Proof.
  intros wednesday w before.
  apply (aggregation_stops_at_first_failure noon week w before
           (map midnight (zrange (mondayOf noon + 3) 4)) wednesday
           (ERROR_API_CONNECTION en)).
  - discriminate.
  - vm_compute. reflexivity.
  - intros d' [<- | [<- | []]]; exists 3%Q; vm_compute; reflexivity.
  - vm_compute. reflexivity.
Defined.

(** A forced fetch at noon, then a plain one 119.999 seconds after the
    session ended. *)
Lemma forced_fetch_then_cache_hit_witness :
  let w := worldAt noon outageApi (loadState None) in
  let w1 := exec (getGrowattData true noon) w in
  let w2 := setClock (clock w1 + 119999) w1 in
  getGrowattData false noon w2
  = (Returns (snapshotOf 0%Q 70%Q (Some 3%Q) 3%Q 950%Q noon), w2).
Proof.
  intros w w1 w2.
  apply (proj2 (forced_fetch_then_cache_hit w noon
                  (snapshotOf 0%Q 70%Q (Some 3%Q) 3%Q 950%Q noon)
                  eq_refl eq_refl) w2 noon).
  - reflexivity.
  - reflexivity.
  - vm_compute. reflexivity.
Defined.

(** Nothing cached and an API that cannot be reached: one login, no more. *)
Lemma fetch_goes_live_witness :
  let w := worldAt noon quietApi (loadState None) in
  trace (exec (getGrowattData false noon) w)
  = trace w ++ sessionTrace (api w noon) noon.
Proof.
  intros w.
  apply (fetch_goes_live w false noon).
  right. right. left. reflexivity.
Defined.

(** The escalation at 12:20 leaves the statistics alone. *)
Lemma scheduled_tasks_frame_witness :
  let k := {| handler := Urgent; firedAt := noon + 15 * msPerMinute |} in
  let w := worldAt noon quietApi (downSince noon) in
  stats (state (step k w)) = stats (state w).
Proof.
  intros k w.
  destruct (proj2 scheduled_tasks_frame k w) as [_ [_ Hurgent]].
  exact (proj1 (Hurgent eq_refl)).
Defined.

(** 12 kWh on the first evening against a record of 0. *)
Lemma best_day_only_improves_witness :
  let w := worldAt evening1 crossingApi (loadState None) in
  emittedBy isBestDayMessage w (exec runDailyEveningChecks w) = 1%nat.
Proof.
  intros w.
  destruct (proj1 best_day_only_improves w _ _
              (crossingApi_reading evening1 (loadState None))) as [Hnew _].
  apply Hnew. vm_compute. reflexivity.
Defined.

(** An outage found at noon and escalated at 12:20. *)
Lemma alerts_follow_outages_witness :
  let ticks := [ {| handler := Hourly; firedAt := noon |};
                 {| handler := Urgent; firedAt := noon + 15 * msPerMinute |} ] in
  let w := worldAt noon outageApi (loadState None) in
  (emittedBy isUrgentAlert w (runTicks ticks w)
   <= emittedBy isOutageAlert w (runTicks ticks w))%nat.
Proof.
  intros ticks w.
  apply (alerts_follow_outages ticks w); reflexivity.
Defined.

(** The panels were never marked clean: the evening check reminds and the
    command says overdue. *)
Lemma cleaning_status_agrees_with_reminder_witness :
  let w := worldAt evening1 crossingApi (loadState None) in
  let asked := setClock (clock (exec runDailyEveningChecks w)) w in
  exists n, 0 <= n
            /\ result (GET_CLEANING_STATUS cleaningRequest en) asked
               = Returns (en, CLEANING_OVERDUE_REPLY n).
Proof.
  intros w asked.
  destruct (cleaning_status_agrees_with_reminder w _ _ cleaningRequest en
              (crossingApi_reading evening1 (loadState None))) as [_ [Hdue _]].
  apply Hdue. vm_compute. reflexivity.
Defined.

Lemma cleaning_reminder_when_interval_elapsed_witness :
  let w := worldAt evening1 crossingApi (loadState None) in
  emittedBy isCleaningReminder w (exec runDailyEveningChecks w) = 1%nat.
Proof.
  intros w.
  destruct (cleaning_reminder_when_interval_elapsed w _ _
              (crossingApi_reading evening1 (loadState None)) eq_refl) as [Hdue _].
  apply Hdue. vm_compute. discriminate.
Defined.

(** Four weeks configured: 28 days left right after "cleaned". *)
Lemma cleaned_restarts_the_interval_witness :
  let w := worldAt noon quietApi (loadState None) in
  result (GET_CLEANING_STATUS cleaningRequest en)
    (exec (MARK_CLEANED cleaningRequest en) w)
  = Returns (en, CLEANING_STATUS_REPLY 28).
Proof.
  intros w.
  destruct (cleaned_restarts_the_interval w cleaningRequest en)
    as [_ [_ [_ [_ [Hleft _]]]]].
  exact (Hleft eq_refl).
Defined.

(** The defaults, then a threshold of 45. *)
Lemma settings_stay_valid_witness :
  let w := worldAt noon quietApi (loadState None) in
  validSettings
    (config (state (exec (SET_TEMP_THRESHOLD (fun _ => Some 45) settingRequest en) w))).
Proof.
  intros w.
  destruct (settings_stay_valid (fun _ => Some 45) settingRequest en w)
    as [Hdefault Hkept].
  destruct (Hkept Hdefault) as [_ [_ [Htemp _]]].
  exact Htemp.
Defined.

(** User 7 is not among the administrators 1 and 2. *)
Lemma settings_commands_need_an_administrator_witness :
  let w := worldAt noon quietApi (loadState None) in
  onMessage (fun s => s) (fun s => s) (Some [1; 2]) (fun _ _ _ => ret [])
    settingRequest w
  = (Returns [(en, ERROR_NOT_ADMIN)], w).
Proof.
  intros w.
  destruct (proj1 (settings_commands_need_an_administrator
                     (fun s => s) (fun s => s) (Some [1; 2]) (fun _ _ _ => ret [])
                     settingRequest "/settemp 45" "/settemp" ["45"%string] w
                     eq_refl ltac:(discriminate) eq_refl eq_refl
                     ltac:(cbn; tauto)))
    as [cmd [_ [_ Hrun]]].
  exact Hrun.
Defined.

(** A bot is not answered. *)
Lemma other_messages_skip_the_admin_check_witness :
  let w := worldAt noon quietApi (loadState None) in
  onMessage (fun s => s) (fun s => s) None (fun _ _ _ => ret []) botMessage w
  = (Returns [], w).
Proof.
  intros w.
  apply (proj1 (other_messages_skip_the_admin_check
                  (fun s => s) (fun s => s) (fun _ _ _ => ret []) botMessage w)).
  right. right. reflexivity.
Defined.

(** A threshold of 45 is accepted and written once. *)
Lemma settings_commands_change_one_setting_witness :
  let w := worldAt noon quietApi (loadState None) in
  trace (exec (SET_TEMP_THRESHOLD (fun _ => Some 45) settingRequest en) w)
  = trace w ++ [SaveState].
Proof.
  intros w.
  pose proof (settings_commands_change_one_setting (fun _ => Some 45)
                settingRequest en w) as H.
  cbv zeta beta in H.
  destruct H as [_ [_ [[Hrejected _] | [_ [Hwritten _]]]]].
  - vm_compute in Hrejected. discriminate.
  - exact Hwritten.
Defined.

(** In March 2024 the monthly report walks February. *)
Lemma monthly_report_previous_month_witness :
  let w := worldAt noon outageApi (loadState None) in
  exec runMonthlyReport w = exec (getPeriodTotal (subMonths noon 1) month) w.
Proof.
  intros w. exact (proj1 (proj2 (monthly_report_previous_month w))).
Defined.

(** On Tuesday 2024-03-05 the weekly report walks the week of 02-26. *)
Lemma weekly_report_previous_week_witness :
  let w := worldAt noon outageApi (loadState None) in
  exec runWeeklyReport w = exec (getPeriodTotal (subDays noon 7) week) w.
Proof.
  intros w. exact (proj1 (weekly_report_previous_week w)).
Defined.
